(** * Retail dashboard: loader, preprocessor, enricher, aggregator, exporter

    A shallow embedding of [retail_dashboard.py] ([load_data],
    [load_data_from_sharepoint], [preprocess_data]) and of
    [powerbi_data_processor.py] ([create_enhanced_datasets],
    [create_summary_tables], [export_for_powerbi]).

    Conventions.
    - float64/int64 cells are exact rationals; the null marker (NaN, NaT,
      None) is [None].  Rounding is not modelled.
    - Python exceptions are the [Raise] results of [result].
    - Strings are byte strings; [lower] and [strip] act on ASCII. *)

From Stdlib Require Import List Bool Arith ZArith QArith Qround Lia.
From Stdlib Require Import Ascii String DecimalString Permutation Sorted.
Import ListNotations.

Local Open Scope string_scope.
Local Open Scope list_scope.

(** ** Exceptions *)

(** The four places that raise [FileNotFoundError] in [retail_dashboard.py]. *)
Inductive not_found : Type :=
| UnableToDownload      (* "Unable to download file from SharePoint" *)
| ErrorProcessing       (* "Error processing SharePoint file" *)
| NoDefaultFile         (* "Data file not found. Looking for: ..." *)
| NoSuchFile.           (* "Data file not found: <filepath>" *)

Inductive exn : Type :=
| KeyError (label : string)
| AttributeError
| TypeError
| IndexError
| ParseError
| FileNotFoundError (why : not_found).

Inductive result (A : Type) : Type :=
| Return (a : A)
| Raise (e : exn).

Arguments Return {A} a.
Arguments Raise {A} e.

Definition bind {A B : Type} (m : result A) (k : A -> result B) : result B :=
  match m with
  | Return a => k a
  | Raise e => Raise e
  end.

Notation "x <- m ;; k" := (bind m (fun x => k))
  (at level 61, m at next level, right associativity).

(** ** Python string operations *)

Module PyStr.

(** A [str] is held as its UTF-8 bytes. *)
Definition byte (c : ascii) : nat := nat_of_ascii c.

Definition is_upper (c : ascii) : bool :=
  let n := nat_of_ascii c in (65 <=? n)%nat && (n <=? 90)%nat.

Definition lower_char (c : ascii) : ascii :=
  if is_upper c then ascii_of_nat (nat_of_ascii c + 32) else c.

(** [s.lower()].  Besides A to Z, two characters have a lower case with an
    ASCII letter in it: U+0130 (i followed by U+0307) and U+212A, the Kelvin
    sign (k).  Any other character outside ASCII is left as it is: its lower
    case has no ASCII character either, so that no test [needle in
    s.lower()] with an ASCII needle tells the difference. *)
Fixpoint lower (s : string) : string :=
  match s with
  | EmptyString => EmptyString
  | String a s1 =>
      match s1 with
      | EmptyString => String (lower_char a) EmptyString
      | String b s2 =>
          if (byte a =? 196)%nat && (byte b =? 176)%nat
          then String "i" (String (ascii_of_nat 204)
                             (String (ascii_of_nat 135) (lower s2)))
          else
            match s2 with
            | EmptyString => String (lower_char a) (lower s1)
            | String c s3 =>
                if (byte a =? 226)%nat && (byte b =? 132)%nat
                   && (byte c =? 170)%nat
                then String "k" (lower s3)
                else String (lower_char a) (lower s1)
            end
      end
  end.

(** [c.isspace()] for the characters of one byte: TAB, LF, VT, FF, CR, FS,
    GS, RS, US and the space. *)
Definition is_space (c : ascii) : bool :=
  let n := nat_of_ascii c in
  ((9 <=? n)%nat && (n <=? 13)%nat) || ((28 <=? n)%nat && (n <=? 32)%nat).

(** ... of two bytes: U+0085 and U+00A0, the no-break space. *)
Definition is_space2 (a b : ascii) : bool :=
  (byte a =? 194)%nat && ((byte b =? 133)%nat || (byte b =? 160)%nat).

(** ... of three bytes: U+1680, U+2000 to U+200A, U+2028, U+2029, U+202F,
    U+205F and U+3000. *)
Definition is_space3 (a b c : ascii) : bool :=
  ((byte a =? 225)%nat && (byte b =? 154)%nat && (byte c =? 128)%nat)
  || ((byte a =? 226)%nat && (byte b =? 128)%nat
      && (((128 <=? byte c)%nat && (byte c <=? 138)%nat)
          || (byte c =? 168)%nat || (byte c =? 169)%nat
          || (byte c =? 175)%nat))
  || ((byte a =? 226)%nat && (byte b =? 129)%nat && (byte c =? 159)%nat)
  || ((byte a =? 227)%nat && (byte b =? 128)%nat && (byte c =? 128)%nat).

(** The text after the first character of [s], when that character is
    whitespace. *)
Definition skip_space (s : string) : option string :=
  match s with
  | EmptyString => None
  | String a s1 =>
      if is_space a then Some s1
      else
        match s1 with
        | EmptyString => None
        | String b s2 =>
            if is_space2 a b then Some s2
            else
              match s2 with
              | EmptyString => None
              | String c s3 => if is_space3 a b c then Some s3 else None
              end
        end
  end.

(** [s] is one whitespace character. *)
Definition blank (s : string) : bool :=
  match skip_space s with
  | Some EmptyString => true
  | _ => false
  end.

Fixpoint lstrip (s : string) : string :=
  match s with
  | EmptyString => EmptyString
  | String a s1 =>
      if is_space a then lstrip s1
      else
        match s1 with
        | EmptyString => s
        | String b s2 =>
            if is_space2 a b then lstrip s2
            else
              match s2 with
              | EmptyString => s
              | String c s3 => if is_space3 a b c then lstrip s3 else s
              end
        end
  end.

Fixpoint rstrip (s : string) : string :=
  match s with
  | EmptyString => EmptyString
  | String c s' =>
      let t := rstrip s' in
      if blank (String c t) then EmptyString else String c t
  end.

(** [s.strip()] *)
Definition strip (s : string) : string := rstrip (lstrip s).

(** [needle in s] *)
Fixpoint contains (needle s : string) : bool :=
  if prefix needle s then true
  else match s with
       | EmptyString => false
       | String _ s' => contains needle s'
       end.

End PyStr.

(** ** Time-of-day bucket *)

(** [get_time_period], nested in [create_enhanced_datasets]. *)
Definition get_time_period (hour : Z) : string :=
  if (5 <=? hour)%Z && (hour <? 12)%Z then "Morning"
  else if (12 <=? hour)%Z && (hour <? 17)%Z then "Afternoon"
  else if (17 <=? hour)%Z && (hour <? 21)%Z then "Evening"
  else "Night".

(** ** Preprocessor ([retail_dashboard.py], [preprocess_data]) *)

Module Preprocess.

(** A Python object held in a column of dtype [object].  A datetime (a
    [Timestamp]) is the instant it names, in nanoseconds since the epoch,
    and its UTC offset in seconds when it is timezone-aware. *)
Inductive pyobj : Type :=
| PyStr (s : string)
| PyNum (q : Q)
| PyNone
| PyDatetime (ns : Z) (utcoffset : option Z).

(** A column with its dtype.  The cells of a [datetime64[ns]] column, with
    or without a time zone, are the int64 values it stores, nanoseconds
    since the epoch, [None] is NaT; numeric cells are int64/float64 values,
    [None] is NaN. *)
Inductive series : Type :=
| ObjectCol (cells : list pyobj)
| DatetimeCol (cells : list (option Z))
| NumericCol (cells : list (option Q)).

(** A frame is its labelled columns, in order; labels may repeat. *)
Definition DataFrame : Type := list (string * series).

Definition columns (df : DataFrame) : list string := map fst df.

(** [s.dtype == 'object'] *)
Definition is_object (s : series) : bool :=
  match s with ObjectCol _ => true | _ => false end.

(** What [df[col]] evaluates to: a [Series] when the label is unique, a
    sub-frame when it is repeated. *)
Inductive item : Type :=
| Series (s : series)
| SubFrame (cols : list series).

Definition labelled (col : string) (c : string * series) : bool :=
  String.eqb (fst c) col.

Definition getitem (df : DataFrame) (col : string) : result item :=
  match map snd (filter (labelled col) df) with
  | [] => Raise (KeyError col)
  | [s] => Return (Series s)
  | ss => Return (SubFrame ss)
  end.

(** [df[col] = s] for a label that is already there. *)
Definition setitem (df : DataFrame) (col : string) (s : series) : DataFrame :=
  map (fun c => if labelled col c then (fst c, s) else c) df.

Definition has_date (col : string) : bool :=
  PyStr.contains "date" (PyStr.lower col).

Definition has_price (col : string) : bool :=
  PyStr.contains "price" (PyStr.lower col)
  || PyStr.contains "amount" (PyStr.lower col).

(** iNaT, the int64 that [datetime64] uses for NaT. *)
Definition iNaT : Z := - 2 ^ 63.

(** What [pd.to_datetime(s, errors='coerce')] makes of an object column. *)
Inductive conversion : Type :=
| Timestamps        (* a datetime64 column; what cannot be parsed is NaT *)
| Objects           (* the cells carry different UTC offsets: the parsed
                       datetimes stay in a column of dtype object *)
| Fails (e : exn).  (* raised in spite of errors='coerce' *)

(** A stored timestamp read as int64: NaT is iNaT, not a null. *)
Definition stamp_value (c : option Z) : option Q :=
  match c with
  | Some ns => Some (inject_Z ns)
  | None => Some (inject_Z iNaT)
  end.

Section Parsers.

(** pandas' converters under [errors='coerce'], as far as [preprocess_data]
    depends on them.  [pd.to_datetime] reads a cell in the context of its
    column, from which it infers one format and one time zone; a cell it
    cannot read becomes NaT.  [pd.to_numeric] reads cell by cell; a cell it
    cannot read becomes NaN. *)
Variable datetime_outcome : list pyobj -> conversion.
Variable parse_datetime : list pyobj -> pyobj -> option Z.
Variable as_datetime : list pyobj -> pyobj -> pyobj.
Variable parse_numeric : pyobj -> option Q.

(** [pd.to_datetime(s, errors='coerce')] on the cells of an object
    column, the only dtype [preprocess_data] passes to it. *)
Definition to_datetime (cells : list pyobj) : result series :=
  match datetime_outcome cells with
  | Timestamps => Return (DatetimeCol (map (parse_datetime cells) cells))
  | Objects => Return (ObjectCol (map (as_datetime cells) cells))
  | Fails e => Raise e
  end.

(** [pd.to_numeric(s, errors='coerce')]: numeric dtypes pass through,
    [datetime64] is viewed as int64, object cells are parsed. *)
Definition to_numeric (s : series) : series :=
  match s with
  | NumericCol cells => NumericCol cells
  | DatetimeCol cells => NumericCol (map stamp_value cells)
  | ObjectCol cells => NumericCol (map parse_numeric cells)
  end.

(** The first loop: [for col in df.columns: if 'date' in col.lower() and
    df[col].dtype == 'object': df[col] = pd.to_datetime(...)].  On a
    repeated label [df[col]] is a frame, which has no [dtype]. *)
Fixpoint date_loop (cols : list string) (df : DataFrame) : result DataFrame :=
  match cols with
  | [] => Return df
  | col :: rest =>
      if has_date col then
        it <- getitem df col ;;
        match it with
        | Series (ObjectCol cells) =>
            s <- to_datetime cells ;;
            date_loop rest (setitem df col s)
        | Series _ => date_loop rest df
        | SubFrame _ => Raise AttributeError
        end
      else date_loop rest df
  end.

(** The second loop: [if 'price' in col.lower() or 'amount' in
    col.lower(): df[col] = pd.to_numeric(...)].  [pd.to_numeric] rejects
    a frame. *)
Fixpoint price_loop (cols : list string) (df : DataFrame) : result DataFrame :=
  match cols with
  | [] => Return df
  | col :: rest =>
      if has_price col then
        it <- getitem df col ;;
        match it with
        | Series s => price_loop rest (setitem df col (to_numeric s))
        | SubFrame _ => Raise TypeError
        end
      else price_loop rest df
  end.

(** [df.columns = [str(c).strip() for c in df.columns]] *)
Definition strip_columns (df : DataFrame) : DataFrame :=
  map (fun c => (PyStr.strip (fst c), snd c)) df.

Definition preprocess_data (df : DataFrame) : result DataFrame :=
  let df := strip_columns df in
  df <- date_loop (columns df) df ;;
  df <- price_loop (columns df) df ;;
  Return df.

(** *** What one run does to each column *)

(** What the first loop does with a column it looks up. *)
Definition date_fix (s : series) : result series :=
  match s with
  | ObjectCol cells => to_datetime cells
  | _ => Return s
  end.

(** The column that [pd.to_datetime] returns, when it returns. *)
Definition converted (cells : list pyobj) : series :=
  match to_datetime cells with
  | Return s => s
  | Raise _ => ObjectCol cells
  end.

(** A column as the first loop leaves it, and as the second loop does. *)
Definition date_step (col : string) (s : series) : series :=
  if has_date col
  then match s with
       | ObjectCol cells => converted cells
       | _ => s
       end
  else s.

Definition price_step (col : string) (s : series) : series :=
  if has_price col then to_numeric s else s.

(** [pd.to_datetime] raises on no column that the first loop passes to
    it. *)
Definition convertible (c : string * series) : bool :=
  negb (has_date (fst c))
  || match snd c with
     | ObjectCol cells =>
         match datetime_outcome cells with
         | Fails _ => false
         | _ => true
         end
     | _ => true
     end.

Definition dates_convert (df : DataFrame) : bool :=
  forallb convertible (strip_columns df).

Definition unique (df : DataFrame) (col : string) : bool :=
  (List.length (filter (labelled col) df) =? 1)%nat.

(** No label that either loop looks up is repeated. *)
Definition loop_ok (test : string -> bool) (df : DataFrame) : bool :=
  forallb (fun col => negb (test col) || unique df col) (columns df).

(** The column a run leaves in place of column [c] (label already trimmed). *)
Definition per_column (c : string * series) : string * series :=
  (fst c, price_step (fst c) (date_step (fst c) (snd c))).

End Parsers.

(** Both loops have one shape: look the label up, put [conv] of the column
    in its place unless [conv] raises, fail with [err] on a repeated
    label. *)
Section ColumnLoop.

Variable test : string -> bool.
Variable conv : series -> result series.
Variable err : exn.

Fixpoint col_loop (cols : list string) (df : DataFrame) : result DataFrame :=
  match cols with
  | [] => Return df
  | col :: rest =>
      if test col then
        it <- getitem df col ;;
        match it with
        | Series s => s' <- conv s ;; col_loop rest (setitem df col s')
        | SubFrame _ => Raise err
        end
      else col_loop rest df
  end.

(** The column that [conv] returns, when it returns. *)
Definition val (s : series) : series :=
  match conv s with
  | Return s' => s'
  | Raise _ => s
  end.

Definition ok (s : series) : bool :=
  match conv s with
  | Return _ => true
  | Raise _ => false
  end.

(** What one step does to the column [c] when it is the one labelled [col]. *)
Definition upd (col : string) (c : string * series) : string * series :=
  if labelled col c then (fst c, val (snd c)) else c.

(** Is column [c] one that the loop over [cols] converts? *)
Definition seen (cols : list string) (c : string * series) : bool :=
  test (fst c) && existsb (String.eqb (fst c)) cols.

End ColumnLoop.

(** After trimming, no label containing "date", "price" or "amount" is
    repeated. *)
Definition lookups_unique (df : DataFrame) : bool :=
  loop_ok has_date (strip_columns df) && loop_ok has_price (strip_columns df).

(** How many columns carry the label [col] once the labels are trimmed. *)
Definition occurrences (df : DataFrame) (col : string) : nat :=
  List.length (filter (labelled col) (strip_columns df)).

(** No column named for a date is left with dtype object. *)
Definition dates_parsed (df : DataFrame) : bool :=
  forallb (fun c => negb (has_date (fst c)) || negb (is_object (snd c))) df.

(** [len(s)] *)
Definition series_length (s : series) : nat :=
  match s with
  | ObjectCol cells => List.length cells
  | DatetimeCol cells => List.length cells
  | NumericCol cells => List.length cells
  end.

(** *** Sample converters and sheets *)

Fixpoint digits (acc : Z) (s : string) : option Z :=
  match s with
  | EmptyString => Some acc
  | String c s' =>
      let n := Z.of_nat (nat_of_ascii c) in
      if (48 <=? n)%Z && (n <=? 57)%Z then digits (acc * 10 + (n - 48)) s' else None
  end.

(** Decimal digit strings and numbers are numeric. *)
Definition sample_parse_numeric (o : pyobj) : option Q :=
  match o with
  | PyStr EmptyString => None
  | PyStr s => option_map inject_Z (digits 0 s)
  | PyNum q => Some q
  | PyNone => None
  | PyDatetime _ _ => None
  end.

(** Two texts with a UTC offset, as pandas reads them: the instant and the
    offset in seconds.  No other text is a date here. *)
Definition sample_text (s : string) : option (Z * Z) :=
  if String.eqb s "2024-03-01 10:00:00+01:00"
  then Some (1709283600000000000, 3600)%Z
  else if String.eqb s "2024-03-01 10:00:00+02:00"
  then Some (1709280000000000000, 7200)%Z
  else None.

(** A cell as a datetime: a number is a nanosecond timestamp. *)
Definition sample_read (o : pyobj) : option (Z * option Z) :=
  match o with
  | PyStr s => option_map (fun t => (fst t, Some (snd t))) (sample_text s)
  | PyNum q => Some (Qfloor q, None)
  | PyNone => None
  | PyDatetime ns utcoffset => Some (ns, utcoffset)
  end.

Definition text_offset (o : pyobj) : option Z :=
  match o with
  | PyStr s => option_map snd (sample_text s)
  | _ => None
  end.

(** Texts with different UTC offsets keep the column of dtype object. *)
Definition sample_datetime_outcome (cells : list pyobj) : conversion :=
  if existsb (fun a =>
                existsb (fun b =>
                           match text_offset a, text_offset b with
                           | Some x, Some y => negb (x =? y)%Z
                           | _, _ => false
                           end)
                        cells)
             cells
  then Objects else Timestamps.

(** The time zone of the first datetime object of a column. *)
Fixpoint first_zone (cells : list pyobj) : option (option Z) :=
  match cells with
  | [] => None
  | PyDatetime _ utcoffset :: _ => Some utcoffset
  | _ :: rest => first_zone rest
  end.

Definition same_zone (a b : option Z) : bool :=
  match a, b with
  | Some x, Some y => (x =? y)%Z
  | None, None => true
  | _, _ => false
  end.

(** In a datetime64 column the datetime objects of another time zone than
    the first one become NaT. *)
Definition sample_parse_datetime (cells : list pyobj) (o : pyobj) : option Z :=
  match o with
  | PyDatetime ns utcoffset =>
      match first_zone cells with
      | Some zone => if same_zone zone utcoffset then Some ns else None
      | None => Some ns
      end
  | _ => option_map fst (sample_read o)
  end.

Definition sample_as_datetime (cells : list pyobj) (o : pyobj) : pyobj :=
  match sample_read o with
  | Some (ns, utcoffset) => PyDatetime ns utcoffset
  | None => PyNone
  end.

(** A sheet with an untrimmed label, a text date column, a date column that
    was read as spreadsheet serial numbers, and a text price column. *)
Definition sample_frame : DataFrame :=
  [ (" vendor_name ", ObjectCol [PyStr "Acme"; PyStr "Bolt"]);
    ("purchase_date", ObjectCol [PyNum (1700000000000000000 # 1); PyStr "n/a"]);
    ("update_date", NumericCol [Some (45000 # 1); Some (45001 # 1)]);
    ("purchase_price_w_discount", ObjectCol [PyStr "10"; PyStr "ten"]) ].

(** The no-break space U+00A0. *)
Definition no_break_space : string :=
  String (ascii_of_nat 194) (String (ascii_of_nat 160) EmptyString).

(** A sheet whose two price columns differ by a trailing no-break space
    only. *)
Definition clashing_frame : DataFrame :=
  [ ("price", NumericCol [Some (10 # 1)]);
    (("price" ++ no_break_space)%string, NumericCol [Some (12 # 1)]) ].

(** A sheet whose dates were typed with the UTC offset in force, one in
    winter time and one in summer time. *)
Definition offsets_frame : DataFrame :=
  [ ("purchase_date",
     ObjectCol [PyStr "2024-03-01 10:00:00+01:00";
                PyStr "2024-03-01 10:00:00+02:00"]) ].

(** A sheet with a text column named for a date and a price. *)
Definition price_date_frame : DataFrame :=
  [ ("price_date", ObjectCol [PyNum (1700000000000000000 # 1); PyStr "n/a"]) ].

End Preprocess.

(** ** Loader ([retail_dashboard.py], [load_data_from_sharepoint], [load_data]) *)

Module Loader.

(** A string used as a condition: [""] is false. *)
Definition nonempty (s : string) : bool :=
  match s with
  | EmptyString => false
  | String _ _ => true
  end.

Section Frames.

(** The loader moves frames around without looking inside. *)
Variable Frame : Type.

(** [pd.DataFrame()] *)
Variable pd_DataFrame : Frame.

(** What [pd.read_excel(..., sheet_name=None)] returns: sheet name to frame,
    in sheet order. *)
Definition workbook : Type := list (string * Frame).

(** What the spreadsheet reader makes of a byte source. *)
Record source : Type := {
  read_all_sheets : result workbook;   (* pd.read_excel(src, sheet_name=None) *)
  read_first_sheet : result Frame      (* pd.read_excel(src) *)
}.

(** [for sheet_name in available_sheets: if word in sheet_name.lower(): ...
    break] *)
Fixpoint find_sheet (word : string) (available_sheets : list string)
  : option string :=
  match available_sheets with
  | [] => None
  | sheet_name :: rest =>
      if PyStr.contains word (PyStr.lower sheet_name) then Some sheet_name
      else find_sheet word rest
  end.

(** [xls[name]] *)
Fixpoint getsheet (xls : workbook) (name : string) : result Frame :=
  match xls with
  | [] => Raise (KeyError name)
  | (n, f) :: rest => if String.eqb n name then Return f else getsheet rest name
  end.

(** [list(xls.values())[0]] *)
Definition first_sheet (xls : workbook) : result Frame :=
  match xls with
  | [] => Raise IndexError
  | (_, f) :: _ => Return f
  end.

(** The sheet selection that both loaders run on the parsed workbook. *)
Definition select_sheets (xls : workbook) : result (Frame * Frame) :=
  let available_sheets := map fst xls in
  let purchase_sheet := find_sheet "purchase" available_sheets in
  let checkins_sheet := find_sheet "checkin" available_sheets in
  purchases_df <-
    match purchase_sheet with
    | Some name => if nonempty name then getsheet xls name else first_sheet xls
    | None => first_sheet xls
    end ;;
  checkins_df <-
    match checkins_sheet with
    | Some name => if nonempty name then getsheet xls name else Return pd_DataFrame
    | None => Return pd_DataFrame
    end ;;
  Return (purchases_df, checkins_df).

(** What [requests.get(url, timeout=30)] comes back with. *)
Inductive fetched : Type :=
| ConnectionFailed                            (* raises a RequestException *)
| Response (status_code : Z) (content : source).

(** [response.raise_for_status()] raises [HTTPError], a [RequestException],
    on a 4xx or 5xx status. *)
Definition is_http_error (status_code : Z) : bool :=
  (400 <=? status_code)%Z && (status_code <? 600)%Z.

Definition load_data_from_sharepoint (response : fetched)
  : result (Frame * Frame) :=
  match response with
  | ConnectionFailed => Raise (FileNotFoundError UnableToDownload)
  | Response status_code content =>
      if is_http_error status_code
      then Raise (FileNotFoundError UnableToDownload)
      else
        match xls <- read_all_sheets content ;; select_sheets xls with
        | Return r => Return r
        | Raise _ => Raise (FileNotFoundError ErrorProcessing)
        end
  end.

(** The files and the network the loader sees. *)
Record world : Type := {
  file_exists : string -> bool;
  file_source : string -> source;
  http_get : string -> fetched
}.

Definition master_file : string := "RETAIL.dataMart V2.xlsx".
Definition github_file : string := "retail_data.xlsx".

(** The body of [load_data] below the SharePoint test. *)
Definition load_local (w : world) (filepath : option string)
  : result (Frame * Frame) :=
  filepath <-
    match filepath with
    | None =>
        if file_exists w master_file then Return master_file
        else if file_exists w github_file then Return github_file
        else Raise (FileNotFoundError NoDefaultFile)
    | Some path => Return path
    end ;;
  if negb (file_exists w filepath)
  then Raise (FileNotFoundError NoSuchFile)
  else
    match xls <- read_all_sheets (file_source w filepath) ;; select_sheets xls with
    | Return r => Return r
    | Raise _ =>
        purchases_df <- read_first_sheet (file_source w filepath) ;;
        Return (purchases_df, pd_DataFrame)
    end.

Definition load_data (w : world) (filepath sharepoint_url : option string)
  : result (Frame * Frame) :=
  match sharepoint_url with
  | Some url =>
      if nonempty url then load_data_from_sharepoint (http_get w url)
      else load_local w filepath
  | None => load_local w filepath
  end.

(** A call without a SharePoint URL: none is given, or an empty one. *)
Definition no_url (sharepoint_url : option string) : bool :=
  match sharepoint_url with
  | Some url => negb (nonempty url)
  | None => true
  end.

(** The file that a call without URL is to read: the path it is given, or
    else the master file, or else the GitHub copy when there is no master
    file. *)
Definition candidate (w : world) (filepath : option string) (path : string)
  : Prop :=
  match filepath with
  | Some given => path = given
  | None =>
      (file_exists w master_file = true /\ path = master_file)
      \/ (file_exists w master_file = false
          /\ file_exists w github_file = true /\ path = github_file)
  end.

(** A sheet whose name contains [word], case-insensitively. *)
Definition named (word : string) (sheet : string * Frame) : bool :=
  PyStr.contains word (PyStr.lower (fst sheet)).

(** The purchases sheet and the check-ins sheet of a workbook, as the
    selection rule words them. *)
Definition purchases_sheet (first : string * Frame) (rest : workbook) : Frame :=
  match find (named "purchase") (first :: rest) with
  | Some sheet => snd sheet
  | None => snd first
  end.

Definition checkins_sheet (xls : workbook) : Frame :=
  match find (named "checkin") xls with
  | Some sheet => snd sheet
  | None => pd_DataFrame
  end.

End Frames.

Arguments ConnectionFailed {Frame}.
Arguments Response {Frame} _ _.
Arguments read_all_sheets {Frame} _.
Arguments read_first_sheet {Frame} _.
Arguments file_exists {Frame} _ _.
Arguments file_source {Frame} _ _.
Arguments http_get {Frame} _ _.

End Loader.

(** ** The dataframe operations the processor calls *)

Module Pandas.

(** A table: the labels of its columns and its rows.  A row carries a cell for
    every column of the retail data model; the cell of a column whose label
    is not in [columns] is never read. *)
Record frame (R : Type) : Type := {
  columns : list string;
  rows : list R
}.

Arguments columns {R} _.
Arguments rows {R} _.

(** [label in df.columns] *)
Definition has_column {R : Type} (df : frame R) (label : string) : bool :=
  existsb (String.eqb label) (columns df).

(** [df[label]] raises [KeyError] on a label that is not there. *)
Definition require {R : Type} (df : frame R) (label : string) : result unit :=
  if has_column df label then Return tt else Raise (KeyError label).

(** [df[label] = ...]: a new label goes last, an old one stays in place. *)
Definition add_column (label : string) (cols : list string) : list string :=
  if existsb (String.eqb label) cols then cols else cols ++ [label].

Definition add_columns (labels cols : list string) : list string :=
  fold_left (fun acc label => add_column label acc) labels cols.

(** [pd.DataFrame()] *)
Definition DataFrame {R : Type} : frame R := {| columns := []; rows := [] |}.

(** [df.empty]: no columns or no rows. *)
Definition empty {R : Type} (df : frame R) : bool :=
  match columns df, rows df with
  | [], _ => true
  | _, [] => true
  | _, _ => false
  end.

(** [len(df)] *)
Definition len {R : Type} (df : frame R) : nat := List.length (rows df).

(** *** Column reductions; each skips the null marker *)

Definition non_null {A : Type} (cells : list (option A)) : list A :=
  flat_map (fun c => match c with Some a => [a] | None => [] end) cells.

Definition sum (cells : list (option Q)) : Q :=
  fold_right Qplus 0%Q (non_null cells).

Definition count {A : Type} (cells : list (option A)) : nat :=
  List.length (non_null cells).

(** [x / y] in float64: a zero divisor gives NaN or an infinity, both
    rendered as the null marker here. *)
Definition divide (x y : Q) : option Q :=
  if Qeq_bool y 0 then None else Some (x / y)%Q.

Definition mean (cells : list (option Q)) : option Q :=
  divide (sum cells) (inject_Z (Z.of_nat (count cells))).

Fixpoint dedupe {A : Type} (eqb : A -> A -> bool) (l : list A) : list A :=
  match l with
  | [] => []
  | a :: l' => a :: filter (fun b => negb (eqb a b)) (dedupe eqb l')
  end.

Definition nunique {A : Type} (eqb : A -> A -> bool) (cells : list (option A))
  : nat :=
  List.length (dedupe eqb (non_null cells)).

Definition minimum (cells : list (option Z)) : option Z :=
  match non_null cells with
  | [] => None
  | t :: ts => Some (fold_right Z.min t ts)
  end.

Definition maximum (cells : list (option Z)) : option Z :=
  match non_null cells with
  | [] => None
  | t :: ts => Some (fold_right Z.max t ts)
  end.

(** *** Sorting *)

Section Sorting.

Context {A : Type} (leb : A -> A -> bool).

Fixpoint insert (a : A) (l : list A) : list A :=
  match l with
  | [] => [a]
  | b :: l' => if leb a b then a :: l else b :: insert a l'
  end.

(** A stable sort; pandas promises no order among ties. *)
Definition sort (l : list A) : list A := fold_right insert [] l.

End Sorting.

(** [sort_values(by, ascending=False)] *)
Definition sort_descending {A : Type} (by_ : A -> Q) (l : list A) : list A :=
  sort (fun a b => Qle_bool (by_ b) (by_ a)) l.

(** [head(n)] *)
Definition head {A : Type} (n : nat) (l : list A) : list A := firstn n l.

(** *** Grouping *)

Section GroupBy.

Context {R K : Type}.
Variable eqb : K -> K -> bool.
Variable leb : K -> K -> bool.
Variable key : R -> option K.

(** The group keys: the non-null key values, each once, in ascending order. *)
Definition group_keys (l : list R) : list K :=
  sort leb (dedupe eqb (non_null (map key l))).

Definition in_group (k : K) (r : R) : bool :=
  match key r with
  | Some k' => eqb k' k
  | None => false
  end.

(** [groupby(key)]: a row whose key is null is in no group. *)
Definition groupby (l : list R) : list (K * list R) :=
  map (fun k => (k, filter (in_group k) l)) (group_keys l).

End GroupBy.

Definition pair_eqb (a b : string * string) : bool :=
  String.eqb (fst a) (fst b) && String.eqb (snd a) (snd b).

Definition pair_leb (a b : string * string) : bool :=
  if String.eqb (fst a) (fst b) then String.leb (snd a) (snd b)
  else String.leb (fst a) (fst b).

(** [rank(ascending=False, method='dense')]: one more than the number of
    distinct values above [v]. *)
Definition dense_rank (values : list Q) (v : Q) : Z :=
  Z.of_nat (S (List.length
                 (dedupe Qeq_bool (filter (fun w => negb (Qle_bool w v)) values)))).

(** [w] is above [v]; the distinct values above [v]. *)
Definition above (v w : Q) : bool := negb (Qle_bool w v).

Definition higher (values : list Q) (v : Q) : list Q :=
  dedupe Qeq_bool (filter (above v) values).

(** [left.merge(right, on=key, how='left')]: every left row once per matching
    right row, in right order, and once with nulls when nothing matches. *)
Definition merge_left {L R' K O : Type} (eqb : K -> K -> bool)
           (lkey : L -> option K) (rkey : R' -> K)
           (attach : L -> option R' -> O)
           (left : list L) (right : list R') : list O :=
  flat_map
    (fun l =>
       match lkey l with
       | None => [attach l None]
       | Some k =>
           match filter (fun r => eqb (rkey r) k) right with
           | [] => [attach l None]
           | ms => map (fun r => attach l (Some r)) ms
           end
       end)
    left.

(** *** The [.dt] accessors of a [datetime64[ns]] timestamp *)

Local Open Scope Z_scope.

Definition ns_per_hour : Z := 3600000000000.
Definition ns_per_day : Z := 24 * ns_per_hour.

Definition days (t : Z) : Z := t / ns_per_day.

Definition hour (t : Z) : Z := (t / ns_per_hour) mod 24.

(** Monday is 0; day 0 of the epoch was a Thursday. *)
Definition dayofweek (t : Z) : Z := (days t + 3) mod 7.

Definition day_name (t : Z) : string :=
  nth (Z.to_nat (dayofweek t))
      ["Monday"; "Tuesday"; "Wednesday"; "Thursday"; "Friday"; "Saturday"]
      "Sunday".

(** Year, month and day of a day number (proleptic Gregorian calendar). *)
Definition civil (z : Z) : Z * Z * Z :=
  let z := z + 719468 in
  let era := z / 146097 in
  let doe := z - era * 146097 in
  let yoe := (doe - doe / 1460 + doe / 36524 - doe / 146096) / 365 in
  let doy := doe - (365 * yoe + yoe / 4 - yoe / 100) in
  let mp := (5 * doy + 2) / 153 in
  let d := doy - (153 * mp + 2) / 5 + 1 in
  let m := if mp <? 10 then mp + 3 else mp - 9 in
  let y := yoe + era * 400 in
  (if m <=? 2 then y + 1 else y, m, d).

(** Day number of the first of January. *)
Definition new_year (y : Z) : Z :=
  let y := y - 1 in
  let era := y / 400 in
  let yoe := y - era * 400 in
  era * 146097 + (yoe * 365 + yoe / 4 - yoe / 100 + 306) - 719468.

Definition year (t : Z) : Z := fst (fst (civil (days t))).
Definition month (t : Z) : Z := snd (fst (civil (days t))).

(** ISO week: the week of the year that holds this week's Thursday. *)
Definition isoweek (t : Z) : Z :=
  let thursday := days t - dayofweek t + 3 in
  (thursday - new_year (fst (fst (civil thursday)))) / 7 + 1.

End Pandas.

(** ** Enricher ([powerbi_data_processor.py], [create_enhanced_datasets]) *)

(** A row of a loaded sheet: one cell for every column of the retail data
    model that the processor reads.  Dates are [datetime64[ns]] and prices
    numeric, as [preprocess_data] leaves them. *)
Record row : Type := {
  purchase_date : option Z;
  purchase_price_w_discount : option Q;
  unit_cost : option Q;
  customer_guid : option string;
  vendor_name : option string;
  product_name : option string;
  purchase_location : option string;
  quantity : option Q;
  checkin_date : option Z;
  customer_name : option string
}.

(** The columns computed row by row (source lines 37 to 68). *)
Record derived : Type := {
  Hour : option Z;
  DayOfWeek : option string;
  DayNum : option Z;
  Month : option Z;
  Year : option Z;
  YearMonth : string;
  Week : option Z;
  TimePeriod : string;
  Profit : option Q;
  ProfitMargin : option Q
}.

Module CustomerTotals.
Record t : Type := {
  customer_guid : string;
  CustomerTotalSpent : Q;
  CustomerRank : Z
}.
End CustomerTotals.

Module VendorStats.
Record t : Type := {
  vendor_name : string;
  VendorTotalSales : Q;
  VendorTransactionCount : nat;
  VendorAvgTransaction : option Q;
  VendorTotalProfit : Q;
  VendorRank : Z
}.
End VendorStats.

Module LocationStats.
Record t : Type := {
  purchase_location : string;
  LocationTotalSales : Q;
  LocationTransactionCount : nat;
  LocationUniqueCustomers : nat;
  LocationRank : Z
}.
End LocationStats.

Module ProductStats.
Record t : Type := {
  product_name : string;
  vendor_name : string;
  ProductTotalSales : Q;
  ProductTransactionCount : nat;
  ProductTotalQuantity : Q;
  ProductRank : Z
}.
End ProductStats.

(** A row of [purchases_enhanced]: the sheet row, the derived columns, and
    what each left merge attached ([None]: nothing matched, or not merged
    yet; the attached columns are then null). *)
Record purchase : Type := {
  base : row;
  calc : derived;
  customer : option CustomerTotals.t;
  vendor : option VendorStats.t;
  location : option LocationStats.t;
  product_rank : option Z
}.

Module CheckinTimes.
Record t : Type := {
  CheckinHour : option Z;
  CheckinDayOfWeek : option string;
  CheckinMonth : option Z;
  CheckinYear : option Z;
  CheckinTimePeriod : string
}.
End CheckinTimes.

Module CheckinFrequency.
Record t : Type := {
  customer_name : string;
  TotalCheckins : nat;
  CheckinFrequencyRank : Z
}.
End CheckinFrequency.

(** A row of [checkins_enhanced]; [times] is [None] when the sheet has no
    [checkin_date] column. *)
Record checkin : Type := {
  visit : row;
  times : option CheckinTimes.t;
  frequency : option CheckinFrequency.t
}.

Module Enricher.
Import Pandas.

(** [Series.apply(get_time_period)]: on NaN every comparison is false. *)
Definition time_period_of (hour : option Z) : string :=
  match hour with
  | Some h => get_time_period h
  | None => "Night"
  end.

Definition two_digits (n : Z) : string :=
  let s := NilEmpty.string_of_uint (Nat.to_uint (Z.to_nat n)) in
  if (n <? 10)%Z then "0" ++ s else s.

(** [dt.to_period('M').astype(str)] *)
Definition year_month (t : option Z) : string :=
  match t with
  | Some t =>
      NilEmpty.string_of_uint (Nat.to_uint (Z.to_nat (year t)))
      ++ "-" ++ two_digits (month t)
  | None => "NaT"
  end.

(** Elementwise [a - b]; null if either side is. *)
Definition minus (a b : option Q) : option Q :=
  match a, b with
  | Some x, Some y => Some (x - y)%Q
  | _, _ => None
  end.

(** [np.where(price > 0, Profit / price * 100, 0)] on one row. *)
Definition profit_margin (price profit : option Q) : option Q :=
  match price with
  | Some p =>
      if negb (Qle_bool p 0)
      then match profit with
           | Some x => Some (x / p * 100)%Q
           | None => None
           end
      else Some 0%Q
  | None => Some 0%Q
  end.

(** Source lines 37 to 68 on one row. *)
Definition derive (has_unit_cost : bool) (r : row) : derived :=
  let t := purchase_date r in
  let h := option_map hour t in
  let profit :=
    if has_unit_cost then minus (purchase_price_w_discount r) (unit_cost r)
    else Some 0%Q in
  {| Hour := h;
     DayOfWeek := option_map day_name t;
     DayNum := option_map dayofweek t;
     Month := option_map month t;
     Year := option_map year t;
     YearMonth := year_month t;
     Week := option_map isoweek t;
     TimePeriod := time_period_of h;
     Profit := profit;
     ProfitMargin :=
       if has_unit_cost then profit_margin (purchase_price_w_discount r) profit
       else Some 0%Q |}.

(** A row with its derived columns, before any merge. *)
Definition derived_row (has_unit_cost : bool) (r : row) : purchase :=
  {| base := r; calc := derive has_unit_cost r;
     customer := None; vendor := None; location := None;
     product_rank := None |}.

Definition price (p : purchase) : option Q := purchase_price_w_discount (base p).

Definition prices (l : list purchase) : list (option Q) := map price l.

Definition with_customer (p : purchase) (c : option CustomerTotals.t) : purchase :=
  {| base := base p; calc := calc p; customer := c; vendor := vendor p;
     location := location p; product_rank := product_rank p |}.

Definition with_vendor (p : purchase) (v : option VendorStats.t) : purchase :=
  {| base := base p; calc := calc p; customer := customer p; vendor := v;
     location := location p; product_rank := product_rank p |}.

Definition with_location (p : purchase) (l : option LocationStats.t) : purchase :=
  {| base := base p; calc := calc p; customer := customer p; vendor := vendor p;
     location := l; product_rank := product_rank p |}.

Definition with_product_rank (p : purchase) (s : option ProductStats.t) : purchase :=
  {| base := base p; calc := calc p; customer := customer p; vendor := vendor p;
     location := location p;
     product_rank := option_map ProductStats.ProductRank s |}.

(** [groupby('customer_guid')['purchase_price_w_discount'].sum()] with its
    dense rank. *)
Definition customer_totals_of (l : list purchase) : list CustomerTotals.t :=
  let groups := groupby String.eqb String.leb (fun p => customer_guid (base p)) l in
  let totals := map (fun g => sum (prices (snd g))) groups in
  map (fun g =>
         let spent := sum (prices (snd g)) in
         {| CustomerTotals.customer_guid := fst g;
            CustomerTotals.CustomerTotalSpent := spent;
            CustomerTotals.CustomerRank := dense_rank totals spent |})
      groups.

Definition vendor_stats_of (l : list purchase) : list VendorStats.t :=
  let groups := groupby String.eqb String.leb (fun p => vendor_name (base p)) l in
  let totals := map (fun g => sum (prices (snd g))) groups in
  map (fun g =>
         let sales := sum (prices (snd g)) in
         {| VendorStats.vendor_name := fst g;
            VendorStats.VendorTotalSales := sales;
            VendorStats.VendorTransactionCount := count (prices (snd g));
            VendorStats.VendorAvgTransaction := mean (prices (snd g));
            VendorStats.VendorTotalProfit :=
              sum (map (fun p => Profit (calc p)) (snd g));
            VendorStats.VendorRank := dense_rank totals sales |})
      groups.

Definition location_stats_of (l : list purchase) : list LocationStats.t :=
  let groups :=
    groupby String.eqb String.leb (fun p => purchase_location (base p)) l in
  let totals := map (fun g => sum (prices (snd g))) groups in
  map (fun g =>
         let sales := sum (prices (snd g)) in
         {| LocationStats.purchase_location := fst g;
            LocationStats.LocationTotalSales := sales;
            LocationStats.LocationTransactionCount := count (prices (snd g));
            LocationStats.LocationUniqueCustomers :=
              nunique String.eqb (map (fun p => customer_guid (base p)) (snd g));
            LocationStats.LocationRank := dense_rank totals sales |})
      groups.

(** The key of [groupby(['product_name', 'vendor_name'])]: null if either
    part is. *)
Definition product_vendor (p : purchase) : option (string * string) :=
  match product_name (base p), vendor_name (base p) with
  | Some n, Some v => Some (n, v)
  | _, _ => None
  end.

(** The distinct vendors under which a product name is sold. *)
Definition sells (product : string) (r : row) : bool :=
  match product_name r with
  | Some n => String.eqb n product
  | None => false
  end.

Definition vendors_of (sheet : list row) (product : string) : list string :=
  dedupe String.eqb (non_null (map vendor_name (filter (sells product) sheet))).

(** How many enhanced rows a sheet row turns into. *)
Definition copies (sheet : list row) (r : row) : nat :=
  match product_name r with
  | Some n => Nat.max 1 (List.length (vendors_of sheet n))
  | None => 1
  end.

Definition product_stats_of (l : list purchase) : list ProductStats.t :=
  let groups := groupby pair_eqb pair_leb product_vendor l in
  let totals := map (fun g => sum (prices (snd g))) groups in
  map (fun g =>
         let sales := sum (prices (snd g)) in
         {| ProductStats.product_name := fst (fst g);
            ProductStats.vendor_name := snd (fst g);
            ProductStats.ProductTotalSales := sales;
            ProductStats.ProductTransactionCount := count (prices (snd g));
            ProductStats.ProductTotalQuantity :=
              sum (map (fun p => quantity (base p)) (snd g));
            ProductStats.ProductRank := dense_rank totals sales |})
      groups.

Definition merge_customer_totals (l : list purchase)
           (totals : list CustomerTotals.t) : list purchase :=
  merge_left String.eqb (fun p => customer_guid (base p))
             CustomerTotals.customer_guid with_customer l totals.

Definition merge_vendor_stats (l : list purchase) (stats : list VendorStats.t)
  : list purchase :=
  merge_left String.eqb (fun p => vendor_name (base p))
             VendorStats.vendor_name with_vendor l stats.

Definition merge_location_stats (l : list purchase)
           (stats : list LocationStats.t) : list purchase :=
  merge_left String.eqb (fun p => purchase_location (base p))
             LocationStats.purchase_location with_location l stats.

(** The merge of [product_stats[['product_name', 'ProductRank']]] back onto
    the rows, on [product_name] alone. *)
Definition merge_product_rank (l : list purchase) (stats : list ProductStats.t)
  : list purchase :=
  merge_left String.eqb (fun p => product_name (base p))
             ProductStats.product_name with_product_rank l stats.

Definition checkin_times_of (t : option Z) : CheckinTimes.t :=
  let h := option_map hour t in
  {| CheckinTimes.CheckinHour := h;
     CheckinTimes.CheckinDayOfWeek := option_map day_name t;
     CheckinTimes.CheckinMonth := option_map month t;
     CheckinTimes.CheckinYear := option_map year t;
     CheckinTimes.CheckinTimePeriod := time_period_of h |}.

(** [groupby('customer_name').size()] with its dense rank. *)
Definition checkin_frequency_of (l : list checkin) : list CheckinFrequency.t :=
  let groups :=
    groupby String.eqb String.leb (fun c => customer_name (visit c)) l in
  let sizes := map (fun g => inject_Z (Z.of_nat (List.length (snd g)))) groups in
  map (fun g =>
         let n := List.length (snd g) in
         {| CheckinFrequency.customer_name := fst g;
            CheckinFrequency.TotalCheckins := n;
            CheckinFrequency.CheckinFrequencyRank :=
              dense_rank sizes (inject_Z (Z.of_nat n)) |})
      groups.

Definition time_columns : list string :=
  ["Hour"; "DayOfWeek"; "DayNum"; "Month"; "Year"; "YearMonth"; "Week";
   "TimePeriod"].

Definition checkin_time_columns : list string :=
  ["CheckinHour"; "CheckinDayOfWeek"; "CheckinMonth"; "CheckinYear";
   "CheckinTimePeriod"].

(** The check-in half of [create_enhanced_datasets] (source lines 117 to
    138). *)
Definition enhance_checkins (checkins_df : frame row) : result (frame checkin) :=
  if negb (empty checkins_df) then
    let has_date := has_column checkins_df "checkin_date" in
    let cols :=
      if has_date then add_columns checkin_time_columns (columns checkins_df)
      else columns checkins_df in
    let checkins_enhanced :=
      map (fun r =>
             {| visit := r;
                times := if has_date then Some (checkin_times_of (checkin_date r))
                         else None;
                frequency := None |})
          (rows checkins_df) in
    _ <- require {| columns := cols; rows := checkins_enhanced |} "customer_name" ;;
    let checkin_frequency := checkin_frequency_of checkins_enhanced in
    Return
      {| columns := cols ++ ["TotalCheckins"; "CheckinFrequencyRank"];
         rows :=
           merge_left String.eqb (fun c => customer_name (visit c))
                      CheckinFrequency.customer_name
                      (fun c f => {| visit := visit c; times := times c;
                                     frequency := f |})
                      checkins_enhanced checkin_frequency |}
  else Return DataFrame.

Record enhanced : Type := {
  purchases_enhanced : frame purchase;
  checkins_enhanced : frame checkin;
  vendor_stats : list VendorStats.t;
  customer_totals : list CustomerTotals.t
}.

(** [create_enhanced_datasets], from the two tables that [load_data] and
    [preprocess_data] hand over (source lines 22 to 29). *)
Definition create_enhanced_datasets (df checkins_df : frame row)
  : result enhanced :=
  _ <- require df "purchase_date" ;;
  let cols := add_columns time_columns (columns df) in
  let has_unit_cost := existsb (String.eqb "unit_cost") cols in
  _ <- (if has_unit_cost
        then require {| columns := cols; rows := rows df |}
                     "purchase_price_w_discount"
        else Return tt) ;;
  let cols := add_columns ["Profit"; "ProfitMargin"] cols in
  let purchases := map (derived_row has_unit_cost) (rows df) in
  (* customer ranking *)
  _ <- require {| columns := cols; rows := purchases |} "customer_guid" ;;
  _ <- require {| columns := cols; rows := purchases |}
               "purchase_price_w_discount" ;;
  let customer_totals := customer_totals_of purchases in
  let purchases := merge_customer_totals purchases customer_totals in
  let cols := cols ++ ["CustomerTotalSpent"; "CustomerRank"] in
  (* vendor performance *)
  _ <- require {| columns := cols; rows := purchases |} "vendor_name" ;;
  let vendor_stats := vendor_stats_of purchases in
  let purchases := merge_vendor_stats purchases vendor_stats in
  let cols :=
    cols ++ ["VendorTotalSales"; "VendorTransactionCount";
             "VendorAvgTransaction"; "VendorTotalProfit"; "VendorRank"] in
  (* location performance *)
  let has_location := existsb (String.eqb "purchase_location") cols in
  let purchases :=
    if has_location
    then merge_location_stats purchases (location_stats_of purchases)
    else purchases in
  let cols :=
    if has_location then
      cols ++ ["LocationTotalSales"; "LocationTransactionCount";
               "LocationUniqueCustomers"; "LocationRank"]
    else cols in
  (* product performance *)
  _ <- require {| columns := cols; rows := purchases |} "product_name" ;;
  _ <- require {| columns := cols; rows := purchases |} "quantity" ;;
  let purchases := merge_product_rank purchases (product_stats_of purchases) in
  let cols := cols ++ ["ProductRank"] in
  checkins <- enhance_checkins checkins_df ;;
  Return
    {| purchases_enhanced := {| columns := cols; rows := purchases |};
       checkins_enhanced := checkins;
       vendor_stats := vendor_stats;
       customer_totals := customer_totals |}.

(** The rows of [purchases_enhanced], stage by stage. *)
Definition with_customers (l : list purchase) : list purchase :=
  merge_customer_totals l (customer_totals_of l).

Definition with_vendors (l : list purchase) : list purchase :=
  merge_vendor_stats l (vendor_stats_of l).

Definition with_locations (has_location : bool) (l : list purchase)
  : list purchase :=
  if has_location then merge_location_stats l (location_stats_of l) else l.

Definition with_product_ranks (l : list purchase) : list purchase :=
  merge_product_rank l (product_stats_of l).

Definition enhanced_rows (df : frame row) : list purchase :=
  with_product_ranks
    (with_locations (has_column df "purchase_location")
       (with_vendors
          (with_customers
             (map (derived_row (has_column df "unit_cost")) (rows df))))).

(** The labels [create_enhanced_datasets] reads from the purchases table. *)
Definition required_columns : list string :=
  ["purchase_date"; "customer_guid"; "purchase_price_w_discount";
   "vendor_name"; "product_name"; "quantity"].

Definition purchases_ready (df : frame row) : bool :=
  forallb (has_column df) required_columns.

Definition enhanced_columns (df : frame row) : list string :=
  (((add_columns ["Profit"; "ProfitMargin"]
       (add_columns time_columns (columns df))
     ++ ["CustomerTotalSpent"; "CustomerRank"])
    ++ ["VendorTotalSales"; "VendorTransactionCount"; "VendorAvgTransaction";
        "VendorTotalProfit"; "VendorRank"])
   ++ (if has_column df "purchase_location"
       then ["LocationTotalSales"; "LocationTransactionCount";
             "LocationUniqueCustomers"; "LocationRank"]
       else []))
  ++ ["ProductRank"].

(** The labels the enricher adds. *)
Definition added_columns (has_location : bool) : list string :=
  time_columns ++ ["Profit"; "ProfitMargin"]
  ++ ["CustomerTotalSpent"; "CustomerRank"]
  ++ ["VendorTotalSales"; "VendorTransactionCount"; "VendorAvgTransaction";
      "VendorTotalProfit"; "VendorRank"]
  ++ (if has_location
      then ["LocationTotalSales"; "LocationTransactionCount";
            "LocationUniqueCustomers"; "LocationRank"]
      else [])
  ++ ["ProductRank"].

(** Every row satisfies [P] of its sheet row and derived columns. *)
Definition keeps (P : row -> derived -> Prop) (l : list purchase) : Prop :=
  Forall (fun p => P (base p) (calc p)) l.

(** The grouping key of the product statistics, on the sheet row. *)
Definition row_key (r : row) : option (string * string) :=
  match product_name r, vendor_name r with
  | Some n, Some v => Some (n, v)
  | _, _ => None
  end.

Definition under (n : string) (k : string * string) : bool :=
  String.eqb (fst k) n.

End Enricher.

(** ** Aggregator ([powerbi_data_processor.py], [create_summary_tables]) *)

Module Kpi.
Record t : Type := {
  Metric : string;
  Value : option Q;
  Format : string
}.
End Kpi.

(** A row of [hourly_sales], [daily_sales] or [top_locations]. *)
Module Sales.
Record t (K : Type) : Type := {
  key : K;
  TotalSales : Q;
  TransactionCount : nat
}.
Arguments key {K} _.
Arguments TotalSales {K} _.
Arguments TransactionCount {K} _.
End Sales.

Module TopVendors.
Record t : Type := {
  vendor_name : string;
  TotalSales : Q;
  TransactionCount : nat;
  TotalProfit : Q
}.
End TopVendors.

Module TopCustomers.
Record t : Type := {
  customer_guid : string;
  TotalSpent : Q;
  TransactionCount : nat
}.
End TopCustomers.

Module Aggregator.
Import Pandas.

(** The [summaries] dict; its keys are inserted in the order of the fields,
    and [top_locations] only when the column is there. *)
Record summaries : Type := {
  kpis : list Kpi.t;
  hourly_sales : list (Sales.t Z);
  daily_sales : list (Sales.t string);
  top_vendors : list TopVendors.t;
  top_customers : list TopCustomers.t;
  top_locations : option (list (Sales.t string))
}.

(** [summaries.items()], names only. *)
Definition names (s : summaries) : list string :=
  ["kpis"; "hourly_sales"; "daily_sales"; "top_vendors"; "top_customers"]
  ++ match top_locations s with
     | Some _ => ["top_locations"]
     | None => []
     end.

Definition prices (l : list purchase) : list (option Q) := Enricher.prices l.
Definition profits (l : list purchase) : list (option Q) :=
  map (fun p => Profit (calc p)) l.

Definition times100 (x : option Q) : option Q :=
  option_map (fun q => (q * 100)%Q) x.

Definition baseline_kpis (l : list purchase) : list Kpi.t :=
  [ {| Kpi.Metric := "Total Sales";
       Kpi.Value := Some (sum (prices l));
       Kpi.Format := "Currency" |};
    {| Kpi.Metric := "Total Transactions";
       Kpi.Value := Some (inject_Z (Z.of_nat (List.length l)));
       Kpi.Format := "Number" |};
    {| Kpi.Metric := "Average Basket";
       Kpi.Value := mean (prices l);
       Kpi.Format := "Currency" |};
    {| Kpi.Metric := "Total Customers";
       Kpi.Value :=
         Some (inject_Z (Z.of_nat
           (nunique String.eqb (map (fun p => customer_guid (base p)) l))));
       Kpi.Format := "Number" |};
    {| Kpi.Metric := "Total Vendors";
       Kpi.Value :=
         Some (inject_Z (Z.of_nat
           (nunique String.eqb (map (fun p => vendor_name (base p)) l))));
       Kpi.Format := "Number" |} ].

Definition profit_metrics (l : list purchase) : list Kpi.t :=
  [ {| Kpi.Metric := "Total Profit";
       Kpi.Value := Some (sum (profits l));
       Kpi.Format := "Currency" |};
    {| Kpi.Metric := "Profit Margin";
       Kpi.Value := times100 (divide (sum (profits l)) (sum (prices l)));
       Kpi.Format := "Percentage" |} ].

(** [groupby(key).agg({'purchase_price_w_discount': 'sum', counted:
    'count'})] *)
Definition sales_by {K A : Type} (eqb leb : K -> K -> bool)
           (key : purchase -> option K) (counted : purchase -> option A)
           (l : list purchase) : list (Sales.t K) :=
  map (fun g =>
         {| Sales.key := fst g;
            Sales.TotalSales := sum (prices (snd g));
            Sales.TransactionCount := count (map counted (snd g)) |})
      (groupby eqb leb key l).

Definition vendor_sales (has_profit : bool) (l : list purchase)
  : list TopVendors.t :=
  map (fun g =>
         {| TopVendors.vendor_name := fst g;
            TopVendors.TotalSales := sum (prices (snd g));
            TopVendors.TransactionCount :=
              count (map (fun p => purchase_date (base p)) (snd g));
            TopVendors.TotalProfit :=
              if has_profit then sum (profits (snd g)) else 0%Q |})
      (groupby String.eqb String.leb (fun p => vendor_name (base p)) l).

Definition customer_sales (l : list purchase) : list TopCustomers.t :=
  map (fun g =>
         {| TopCustomers.customer_guid := fst g;
            TopCustomers.TotalSpent := sum (prices (snd g));
            TopCustomers.TransactionCount :=
              count (map (fun p => purchase_date (base p)) (snd g)) |})
      (groupby String.eqb String.leb (fun p => customer_guid (base p)) l).

(** The sum of the TotalSales column of a vendor summary. *)
Definition total_sales (l : list TopVendors.t) : Q :=
  fold_right Qplus 0%Q (map TopVendors.TotalSales l).

(** The labels [create_summary_tables] reads, in the order it reads them. *)
Definition summary_columns : list string :=
  ["purchase_price_w_discount"; "customer_guid"; "vendor_name"; "Hour";
   "DayOfWeek"; "purchase_date"; "Profit"].

Definition summary_ready (purchases_df : frame purchase) : bool :=
  forallb (has_column purchases_df) summary_columns.

Definition create_summary_tables (purchases_df : frame purchase)
           (checkins_df : frame checkin) : result summaries :=
  let l := rows purchases_df in
  _ <- require purchases_df "purchase_price_w_discount" ;;
  _ <- require purchases_df "customer_guid" ;;
  _ <- require purchases_df "vendor_name" ;;
  let kpis :=
    if has_column purchases_df "Profit"
    then baseline_kpis l ++ profit_metrics l
    else baseline_kpis l in
  _ <- require purchases_df "Hour" ;;
  let hourly_sales :=
    sales_by Z.eqb Z.leb (fun p => Hour (calc p))
             (fun p => customer_guid (base p)) l in
  _ <- require purchases_df "DayOfWeek" ;;
  let daily_sales :=
    sales_by String.eqb String.leb (fun p => DayOfWeek (calc p))
             (fun p => customer_guid (base p)) l in
  _ <- require purchases_df "purchase_date" ;;
  (* agg on a column that is not there raises, whatever the aggregator *)
  _ <- require purchases_df "Profit" ;;
  let top_vendors :=
    head 20 (sort_descending TopVendors.TotalSales
               (vendor_sales (has_column purchases_df "Profit") l)) in
  let top_customers :=
    head 50 (sort_descending TopCustomers.TotalSpent (customer_sales l)) in
  let top_locations :=
    if has_column purchases_df "purchase_location"
    then Some (sort_descending Sales.TotalSales
                 (sales_by String.eqb String.leb
                           (fun p => purchase_location (base p))
                           (fun p => purchase_date (base p)) l))
    else None in
  Return
    {| kpis := kpis;
       hourly_sales := hourly_sales;
       daily_sales := daily_sales;
       top_vendors := top_vendors;
       top_customers := top_customers;
       top_locations := top_locations |}.

(** A cell as a summand: the null marker adds nothing. *)
Definition value (c : option Q) : Q :=
  match c with
  | Some q => q
  | None => 0
  end.

(** The sum of [f] over a list. *)
Definition total {A : Type} (f : A -> Q) (l : list A) : Q :=
  fold_right Qplus 0 (map f l).

(** A row that [groupby(key)] puts in a group. *)
Definition keyed (key : purchase -> option string) (p : purchase) : bool :=
  match key p with
  | Some _ => true
  | None => false
  end.

Definition vendor_of (p : purchase) : option string := vendor_name (base p).

End Aggregator.

(** ** Exporter ([powerbi_data_processor.py], [export_for_powerbi]) *)

Module Exporter.
Import Pandas Enricher Aggregator.

(** [metadata.json]; a Python [None] in [files_exported] is [None]. *)
Record metadata : Type := {
  export_timestamp : Z;
  purchases_count : nat;
  checkins_count : nat;
  date_range : option Z * option Z;
  files_exported : list (option string)
}.

(** What one export leaves behind: the names of the files written to the
    output directory, in the order written, and the metadata record. *)
Record export : Type := {
  written : list string;
  kpis_csv : list Kpi.t;
  metadata_json : metadata
}.

(** [export_for_powerbi], from the clock reading and the two tables that
    [load_data] and [preprocess_data] hand over.  Disk errors are not
    modelled. *)
Definition export_for_powerbi (now : Z) (df checkins_df : frame row)
  : result export :=
  e <- create_enhanced_datasets df checkins_df ;;
  let purchases_enhanced := purchases_enhanced e in
  let checkins_enhanced := checkins_enhanced e in
  summaries <- create_summary_tables purchases_enhanced checkins_enhanced ;;
  let csv_files :=
    ["purchases_enhanced.csv"]
    ++ (if negb (empty checkins_enhanced) then ["checkins_enhanced.csv"] else [])
    ++ map (fun name => (name ++ ".csv")%string) (names summaries)
    ++ ["vendor_performance.csv"; "customer_performance.csv"] in
  _ <- require purchases_enhanced "purchase_date" ;;
  let dates := map (fun p => purchase_date (base p)) (rows purchases_enhanced) in
  let metadata :=
    {| export_timestamp := now;
       purchases_count := len purchases_enhanced;
       checkins_count :=
         if negb (empty checkins_enhanced) then len checkins_enhanced else 0%nat;
       date_range := (minimum dates, maximum dates);
       files_exported :=
         [ Some "purchases_enhanced.csv";
           if negb (empty checkins_enhanced)
           then Some "checkins_enhanced.csv" else None;
           Some "kpis.csv";
           Some "hourly_sales.csv";
           Some "daily_sales.csv";
           Some "top_vendors.csv";
           Some "top_customers.csv";
           if has_column purchases_enhanced "purchase_location"
           then Some "top_locations.csv" else None;
           Some "vendor_performance.csv";
           Some "customer_performance.csv" ] |} in
  Return {| written := csv_files ++ ["metadata.json"];
            kpis_csv := kpis summaries;
            metadata_json := metadata |}.

(** The metrics of an exported kpis table. *)
Definition seven_metrics : list string :=
  ["Total Sales"; "Total Transactions"; "Average Basket"; "Total Customers";
   "Total Vendors"; "Total Profit"; "Profit Margin"].

(** The names [export_for_powerbi] lists in the metadata, by what was
    skipped. *)
Definition listed (checkins_enhanced : frame checkin)
           (purchases_enhanced : frame purchase) : list (option string) :=
  [ Some "purchases_enhanced.csv";
    if negb (empty checkins_enhanced) then Some "checkins_enhanced.csv" else None;
    Some "kpis.csv"; Some "hourly_sales.csv"; Some "daily_sales.csv";
    Some "top_vendors.csv"; Some "top_customers.csv";
    if has_column purchases_enhanced "purchase_location"
    then Some "top_locations.csv" else None;
    Some "vendor_performance.csv"; Some "customer_performance.csv" ].

End Exporter.

(** ** Sample tables *)

Module Samples.
Import Pandas.

(** A purchase on the given day of January 2024 at the given hour. *)
Definition sale (day hr : Z) (customer vendor_ product : string)
           (paid cost : Q) : row :=
  {| purchase_date := Some ((19722 + day) * ns_per_day + hr * ns_per_hour)%Z;
     purchase_price_w_discount := Some paid;
     unit_cost := Some cost;
     customer_guid := Some customer;
     vendor_name := Some vendor_;
     product_name := Some product;
     purchase_location := None;
     quantity := Some 1%Q;
     checkin_date := None;
     customer_name := None |}.

Definition purchase_labels : list string :=
  ["purchase_date"; "customer_guid"; "vendor_name"; "product_name";
   "quantity"; "purchase_price_w_discount"].

(** Three purchases, no unit-cost column, no location column. *)
Definition three_sales : frame row :=
  {| columns := purchase_labels;
     rows := [ sale 1 8 "c1" "vendorA" "chalk" 10 0;
               sale 1 8 "c2" "vendorA" "tape" 20 0;
               sale 2 14 "c1" "vendorB" "rope" 30 0 ] |}.

(** The same three purchases with a unit-cost column. *)
Definition three_sales_with_cost : frame row :=
  {| columns := purchase_labels ++ ["unit_cost"];
     rows := [ sale 1 8 "c1" "vendorA" "chalk" 10 4;
               sale 1 8 "c2" "vendorA" "tape" 20 8;
               sale 2 14 "c1" "vendorB" "rope" 30 12 ] |}.

(** One product name sold by two vendors. *)
Definition shared_product : frame row :=
  {| columns := purchase_labels;
     rows := [ sale 1 9 "c1" "vendorA" "chalk" 10 0;
               sale 1 9 "c2" "vendorB" "chalk" 20 0 ] |}.

Definition digit (n : nat) : string :=
  String (ascii_of_nat (48 + n)) EmptyString.

(** Twenty-one vendors, each with one sale of 1 of a product of its own. *)
Definition many_vendors : frame row :=
  {| columns := purchase_labels;
     rows := map (fun n => sale 1 9 "c1"
                             ("vendor" ++ digit (n / 10) ++ digit (n mod 10))%string
                             ("item" ++ digit (n / 10) ++ digit (n mod 10))%string
                             1 0)
                 (seq 0 21) |}.

(** A workbook with a cover sheet and a purchases sheet, and no check-ins
    sheet; a disk that holds it under the default name. *)
Definition cover_sheet : frame row :=
  {| columns := ["notes"]; rows := [] |}.

Definition purchases_only : Loader.workbook (frame row) :=
  [("Cover", cover_sheet); ("Purchases 2024", three_sales)].

Definition purchases_only_file : Loader.source (frame row) :=
  {| Loader.read_all_sheets := Return purchases_only;
     Loader.read_first_sheet := Return cover_sheet |}.

Definition office_disk : Loader.world (frame row) :=
  {| Loader.file_exists := String.eqb Loader.master_file;
     Loader.file_source := fun _ => purchases_only_file;
     Loader.http_get := fun _ => Loader.ConnectionFailed |}.

(** A file that cannot be read as a workbook of sheets but can be read as
    one sheet; a disk that holds it under the default name, and a share that
    serves it. *)
Definition one_sheet_only : Loader.source (frame row) :=
  {| Loader.read_all_sheets := Raise ParseError;
     Loader.read_first_sheet := Return three_sales |}.

Definition damaged_disk : Loader.world (frame row) :=
  {| Loader.file_exists := String.eqb Loader.master_file;
     Loader.file_source := fun _ => one_sheet_only;
     Loader.http_get := fun _ => Loader.Response 200 one_sheet_only |}.

(** A disk that holds the workbook without check-ins as the GitHub copy
    only. *)
Definition synced_disk : Loader.world (frame row) :=
  {| Loader.file_exists := String.eqb Loader.github_file;
     Loader.file_source := fun _ => purchases_only_file;
     Loader.http_get := fun _ => Loader.ConnectionFailed |}.

(** A disk without either file. *)
Definition empty_disk : Loader.world (frame row) :=
  {| Loader.file_exists := fun _ => false;
     Loader.file_source := fun _ => purchases_only_file;
     Loader.http_get := fun _ => Loader.ConnectionFailed |}.

(** A workbook that holds nothing but a sheet of notes; a disk that holds
    it under the default name. *)
Definition notes_only : Loader.workbook (frame row) :=
  [("Cover", cover_sheet)].

Definition notes_only_file : Loader.source (frame row) :=
  {| Loader.read_all_sheets := Return notes_only;
     Loader.read_first_sheet := Return cover_sheet |}.

Definition notes_disk : Loader.world (frame row) :=
  {| Loader.file_exists := String.eqb Loader.master_file;
     Loader.file_source := fun _ => notes_only_file;
     Loader.http_get := fun _ => Loader.ConnectionFailed |}.

(** A workbook whose only sheet is named for both tables. *)
Definition combined_workbook : Loader.workbook (frame row) :=
  [("Purchases and Checkins", three_sales)].

(** A check-ins sheet with two visits of one member and one of another. *)
Definition three_visits : frame row :=
  {| columns := ["checkin_date"; "customer_name"];
     rows := map (fun n => {| purchase_date := None;
                              purchase_price_w_discount := None;
                              unit_cost := None;
                              customer_guid := None;
                              vendor_name := None;
                              product_name := None;
                              purchase_location := None;
                              quantity := None;
                              checkin_date := Some 0%Z;
                              customer_name := Some n |})
                 ["ann"; "bob"; "ann"] |}.

(** A check-ins sheet that names the members but has no date column. *)
Definition undated_visits : frame row :=
  {| columns := ["customer_name"]; rows := rows three_visits |}.

End Samples.

(** ** Dashboard ([retail_dashboard.py], [check_password] and [main]) *)

Module Dashboard.

(** [get_time_period], nested in [main] for the time-of-day analysis. *)
Definition get_time_period (hour : Z) : string :=
  if (5 <=? hour)%Z && (hour <? 12)%Z then "Morning (5AM-12PM)"
  else if (12 <=? hour)%Z && (hour <? 17)%Z then "Afternoon (12PM-5PM)"
  else if (17 <=? hour)%Z && (hour <? 21)%Z then "Evening (5PM-9PM)"
  else "Night (9PM-5AM)".

(** [s.split(" ")[0]]: the text before the first blank. *)
Fixpoint first_word (s : string) : string :=
  match s with
  | EmptyString => EmptyString
  | String c s' => if Ascii.eqb c " " then EmptyString
                   else String c (first_word s')
  end.

(** The "Best Period" metric shows [time_period.split(" ")[0]]. *)
Definition best_period_label (hour : Z) : string :=
  first_word (get_time_period hour).

(** [st.session_state], as far as [check_password] uses it: the two keys
    "password" and "password_correct", each present or not. *)
Record session_state : Type := {
  password : option string;
  password_correct : option bool
}.

(** What [check_password] puts on the page. *)
Inductive element : Type :=
| AccessRequired      (* the two [st.markdown] lines *)
| PasswordInput       (* [st.text_input("Password", ...)] *)
| PasswordIncorrect.  (* [st.error("Password incorrect")] *)

Section Password.

(** The string that [password_entered] compares with. *)
Variable secret : string.

(** [password_entered], the [on_change] callback of the password box. *)
Definition password_entered (st : session_state) : result session_state :=
  match password st with
  | Some typed =>
      if String.eqb typed secret
      then Return {| password := None; password_correct := Some true |}
      else Return {| password := Some typed; password_correct := Some false |}
  | None => Raise (KeyError "password")
  end.

(** [check_password]: its return value and what it renders. *)
Definition check_password (st : session_state) : bool * list element :=
  match password_correct st with
  | Some true => (true, [])
  | Some false => (false, [AccessRequired; PasswordInput; PasswordIncorrect])
  | None => (false, [AccessRequired; PasswordInput])
  end.

(** One submission in the password box: Streamlit stores the text under
    the key of the box, runs the callback and runs the script again.  The
    box is on the page only while [check_password] returns [False]. *)
Definition submit (st : session_state) (typed : string)
  : result session_state :=
  if fst (check_password st) then Return st
  else password_entered {| password := Some typed;
                           password_correct := password_correct st |}.

(** A session: the submissions made, in order, from an empty state. *)
Fixpoint session (st : session_state) (typed : list string)
  : result session_state :=
  match typed with
  | [] => Return st
  | t :: rest => st' <- submit st t ;; session st' rest
  end.

End Password.

(** [pd.api.types.is_datetime64_any_dtype(df[col])]; a sub-frame has no
    dtype and is answered [False]. *)
Definition is_datetime (it : Preprocess.item) : bool :=
  match it with
  | Preprocess.Series (Preprocess.DatetimeCol _) => true
  | _ => false
  end.

(** The column of the sidebar's date filter: the first label that contains
    "date" and whose column holds timestamps. *)
Definition date_col (df : Preprocess.DataFrame) : option string :=
  find (fun col =>
          Preprocess.has_date col
          && match Preprocess.getitem df col with
             | Return it => is_datetime it
             | Raise _ => false
             end)
       (Preprocess.columns df).

(** A column that [preprocess_data] hands over as timestamps, if it has
    no other reason to touch it: a datetime64 column of the sheet, or a
    text column that [pd.to_datetime] turns into timestamps. *)
Definition becomes_timestamps
           (datetime_outcome : list Preprocess.pyobj -> Preprocess.conversion)
           (s : Preprocess.series) : bool :=
  match s with
  | Preprocess.ObjectCol cells =>
      match datetime_outcome cells with
      | Preprocess.Timestamps => true
      | _ => false
      end
  | Preprocess.DatetimeCol _ => true
  | Preprocess.NumericCol _ => false
  end.

(** The headline figures of [main] (source lines 421 to 429): NaN is
    [None]. *)
Record headline : Type := {
  total_sales : option Q;
  total_txns : nat;
  avg_basket : option Q
}.

Definition headline_kpis (df : Pandas.frame row) : headline :=
  let total_sales :=
    if Pandas.has_column df "purchase_price_w_discount"
    then Some (Pandas.sum (map purchase_price_w_discount (Pandas.rows df)))
    else None in
  let total_txns := Pandas.len df in
  {| total_sales := total_sales;
     total_txns := total_txns;
     avg_basket :=
       if (0 <? total_txns)%nat
       then option_map (fun t => (t / inject_Z (Z.of_nat total_txns))%Q)
                       total_sales
       else None |}.

(** The profit figures of [main] (source lines 509 to 515), shown when the
    table has a unit_cost and a price column. *)
Record profitability : Type := {
  total_cogs : Q;
  profit : Q;
  profit_margin : Q
}.

Definition profit_kpis (df : Pandas.frame row) : option profitability :=
  if Pandas.has_column df "unit_cost"
     && Pandas.has_column df "purchase_price_w_discount"
  then
    let total_sales :=
      Pandas.sum (map purchase_price_w_discount (Pandas.rows df)) in
    let total_cogs := Pandas.sum (map unit_cost (Pandas.rows df)) in
    let profit := (total_sales - total_cogs)%Q in
    Some {| total_cogs := total_cogs;
            profit := profit;
            profit_margin :=
              if negb (Qle_bool total_sales 0)
              then (profit / total_sales * 100)%Q
              else 0%Q |}
  else None.

(** The session state of a new browser session. *)
Definition new_session : session_state :=
  {| password := None; password_correct := None |}.

End Dashboard.

(** ** Auto refresh ([scripts/powerbi_auto_refresh.py], [main]) *)

Module Refresh.
Import Pandas.

(** A directory of the working directory: the names of its files and of
    the directories moved into it.  What they hold plays no part in [main];
    neither do plain files of the working directory. *)
Inductive folder : Type :=
| Folder (files inside : list string).

(** The directories of the working directory by name, in the order in which
    [glob] lists them. *)
Definition disk : Type := list (string * folder).

Definition output_dir : string := "powerbi_data".
Definition backup_pattern : string := "powerbi_data_backup_".
Definition required_files : list string :=
  ["purchases_enhanced.csv"; "kpis.csv"; "metadata.json"].

Definition named (name : string) (entry : string * folder) : bool :=
  String.eqb (fst entry) name.

Definition lookup (name : string) (d : disk) : option folder :=
  option_map snd (find (named name) d).

(** [Path(name).exists()] *)
Definition exists_ (name : string) (d : disk) : bool :=
  match lookup name d with
  | Some _ => true
  | None => false
  end.

(** [shutil.rmtree(name)] *)
Definition rmtree (name : string) (d : disk) : disk :=
  filter (fun entry => negb (named name entry)) d.

(** [os.rename(src, dst)] onto a name that is not there. *)
Definition rename (src dst : string) (d : disk) : disk :=
  map (fun entry => if named src entry then (dst, snd entry) else entry) d.

(** [(Path(dir) / name).exists()] inside a directory. *)
Definition holds (f : folder) (name : string) : bool :=
  match f with
  | Folder files inside =>
      existsb (String.eqb name) files || existsb (String.eqb name) inside
  end.

(** [shutil.move(src, dst)]: a rename when [dst] is not there; when [dst] is
    a directory, [src] goes inside it under its own name, and the call
    raises when that name is taken.  [None] is the raise. *)
Definition move (src dst : string) (d : disk) : option disk :=
  match lookup src d with
  | Some _ =>
      match lookup dst d with
      | None => Some (rename src dst d)
      | Some (Folder files inside) =>
          if holds (Folder files inside) src then None
          else Some (map (fun entry =>
                            if named dst entry
                            then (dst, Folder files (inside ++ [src]))
                            else entry)
                         (rmtree src d))
      end
  | None => None
  end.

(** [Path(name).mkdir(exist_ok=True)] *)
Definition mkdir (name : string) (d : disk) : disk :=
  if exists_ name d then d else d ++ [(name, Folder [] [])].

(** Writing a file into a directory: a new name goes last, an old file is
    overwritten in place. *)
Definition write (dir file : string) (d : disk) : disk :=
  map (fun entry =>
         if named dir entry then
           match snd entry with
           | Folder files inside =>
               (fst entry,
                Folder (if existsb (String.eqb file) files then files
                        else files ++ [file]) inside)
           end
         else entry)
      d.

(** The verification step: the required files that the export directory
    does not hold. *)
Definition missing_files (d : disk) : list string :=
  filter (fun file =>
            negb match lookup output_dir d with
                 | Some f => holds f file
                 | None => false
                 end)
         required_files.

Section Run.

(** [st_ctime] of a directory at the time the clean-up sorts the backups. *)
Variable st_ctime : string -> Z.

(** The clean-up: of the directories matching [powerbi_data_backup_*], all
    but the last in ascending order of [st_ctime] are removed. *)
Definition cleanup (d : disk) : disk :=
  let backup_dirs :=
    filter (String.prefix backup_pattern) (map fst d) in
  if (1 <? List.length backup_dirs)%nat then
    let sorted :=
      sort (fun a b => Z.leb (st_ctime a) (st_ctime b)) backup_dirs in
    fold_left (fun acc old_backup => rmtree old_backup acc)
              (removelast sorted) d
  else d.

(** The [except] branch: put the backup of this run back, if there is one.
    The move is a rename, the output directory having just been removed. *)
Definition restore (backup_dir : string) (d : disk) : disk :=
  if exists_ backup_dir d then
    rename backup_dir output_dir
           (if exists_ output_dir d then rmtree output_dir d else d)
  else d.

(** [main], from the clock reading in the backup name, the clock reading of
    the export, the outcome of loading and preprocessing the two tables, and
    the directories on disk; it returns its result and the directories it
    leaves.  [export_for_powerbi] makes the output directory first and
    writes its files once the tables are processed. *)
Definition main (stamp : string) (now : Z)
           (loaded : result (frame row * frame row)) (d : disk)
  : bool * disk :=
  let backup_dir := (backup_pattern ++ stamp)%string in
  match (if exists_ output_dir d then move output_dir backup_dir d
         else Some d) with
  | None => (false, restore backup_dir d)
  | Some d =>
      let d := mkdir output_dir d in
      match (tables <- loaded ;;
             Exporter.export_for_powerbi now (fst tables) (snd tables)) with
      | Raise _ => (false, restore backup_dir d)
      | Return x =>
          let d :=
            fold_left (fun acc file => write output_dir file acc)
                      (Exporter.written x) d in
          match missing_files d with
          | [] => (true, cleanup d)
          | _ => (false, restore backup_dir d)
          end
      end
  end.

End Run.

(** The export that [main] runs. *)
Definition processing (now : Z) (loaded : result (frame row * frame row))
  : result Exporter.export :=
  tables <- loaded ;; Exporter.export_for_powerbi now (fst tables) (snd tables).

(** The files of a directory after one more is written. *)
Definition add_file (files : list string) (file : string) : list string :=
  if existsb (String.eqb file) files then files else files ++ [file].

(** A working directory with a previous export, an older backup and a
    directory of no concern to the refresh. *)
Definition sample_disk : disk :=
  [ ("powerbi_data", Folder ["purchases_enhanced.csv"; "kpis.csv"] []);
    ("powerbi_data_backup_20240101_060000", Folder ["kpis.csv"] []);
    ("notebooks", Folder ["draft.txt"] []) ].

(** The directories that match the backup pattern. *)
Definition backups (d : disk) : list string :=
  filter (String.prefix backup_pattern) (map fst d).

End Refresh.

(** ** CSV dashboard ([retail_dashboard_csv.py], [load_csv_data]) *)

Module CsvDashboard.
Import Pandas.

(** How [load_csv_data] fails. *)
Inductive failure : Type :=
| NoPurchasesFile           (* FileNotFoundError("Could not find ...") *)
| DateNotParsed             (* [pd.to_datetime] without [errors='coerce'] *)
| NoColumn (label : string). (* KeyError *)

(** A CSV file as far as the loader looks at it: the labels of its header
    row, and whether [pd.to_datetime] can read every cell of its date
    column. *)
Record csv : Type := {
  header : list string;
  dates_parse : bool
}.

(** The directories tried, in order: [base_dir / "powerbi_data"],
    [base_dir / "data"] and [base_dir] itself. *)
Definition data_dirs : list string := ["powerbi_data"; "data"; "."].

Section Files.

(** The files on disk, by directory and name. *)
Variable file : string -> string -> option csv.

Definition has_purchases (dir : string) : bool :=
  match file dir "purchases_enhanced.csv" with
  | Some _ => true
  | None => false
  end.

(** [load_csv_data]: the labels of the two tables it returns, or how it
    fails. *)
Definition load_csv_data : failure + list string * list string :=
  match find has_purchases data_dirs with
  | None => inl NoPurchasesFile
  | Some data_dir =>
      match file data_dir "purchases_enhanced.csv" with
      | None => inl NoPurchasesFile
      | Some purchases =>
          if negb (existsb (String.eqb "purchase_date") (header purchases))
          then inl (NoColumn "purchase_date")
          else if negb (dates_parse purchases) then inl DateNotParsed
          else
            match file data_dir "checkins_enhanced.csv" with
            | Some checkins =>
                if existsb (String.eqb "checkin_date") (header checkins)
                then inr (header purchases, header checkins)
                else inl (NoColumn "checkin_date")
            | None => inr (header purchases, [])
            end
      end
  end.

End Files.

(** What an export leaves for the loader in [powerbi_data]: the files of the
    two tables (source lines 247 to 252 of [export_for_powerbi]), each with
    the column labels of its table.  [to_csv] writes timestamps in a form
    that [pd.to_datetime] reads back. *)
Definition exported (e : Enricher.enhanced) (dir name : string) : option csv :=
  if String.eqb dir "powerbi_data" then
    if String.eqb name "purchases_enhanced.csv" then
      Some {| header := columns (Enricher.purchases_enhanced e);
              dates_parse := true |}
    else if String.eqb name "checkins_enhanced.csv" then
      if negb (empty (Enricher.checkins_enhanced e)) then
        Some {| header := columns (Enricher.checkins_enhanced e);
                dates_parse := true |}
      else None
    else None
  else None.

End CsvDashboard.

(** ** Reading the tables back *)

Module Tables.
Import Pandas.

(** A table whose [rank] column ranks its [value] column densely from the
    top: ranks run from 1 without a gap, equal values share a rank, and a
    greater value has a lower rank. *)
Definition densely_ranked {T : Type} (value : T -> Q) (rank : T -> Z)
           (table : list T) : Prop :=
  (forall t, In t table -> (1 <= rank t <= Z.of_nat (List.length table))%Z)
  /\ (forall t u, In t table -> In u table ->
                  (rank t = rank u <-> value t == value u))
  /\ (forall t u, In t table -> In u table ->
                  ((rank t < rank u)%Z <-> value u < value t))
  /\ (table <> [] -> exists t, In t table /\ rank t = 1%Z)
  /\ (forall t, In t table -> (1 < rank t)%Z ->
                exists u, In u table /\ rank u = (rank t - 1)%Z).

(** The sheet rows of one customer, of one vendor. *)
Definition bought_by (g : string) (r : row) : bool :=
  match customer_guid r with
  | Some g' => String.eqb g' g
  | None => false
  end.

Definition sold_by (v : string) (r : row) : bool :=
  match vendor_name r with
  | Some v' => String.eqb v' v
  | None => false
  end.

(** The price column of sheet rows. *)
Definition paid (sheet : list row) : list (option Q) :=
  map purchase_price_w_discount sheet.

(** What a left merge on a key column leaves in a row: the table row of
    the row's key, or nothing when the key is null. *)
Definition attached {T : Type} (bkey : row -> option string)
           (rkey : T -> string) (get : purchase -> option T)
           (table : list T) (p : purchase) : Prop :=
  match bkey (base p) with
  | Some g => exists t, get p = Some t /\ In t table /\ rkey t = g
  | None => get p = None
  end.

(** The check-ins of one member. *)
Definition visits_of (n : string) (r : row) : bool :=
  match customer_name r with
  | Some n' => String.eqb n' n
  | None => false
  end.

(** What a row shows to the groupings: the sheet row and its derived
    columns. *)
Definition view (p : purchase) : row * derived := (base p, calc p).

(** The seven day names, Monday first. *)
Definition week_days : list string :=
  ["Monday"; "Tuesday"; "Wednesday"; "Thursday"; "Friday"; "Saturday";
   "Sunday"].

(** What the time columns of a row hold, by its purchase date. *)
Definition dated (r : row) (d : derived) : Prop :=
  match purchase_date r with
  | Some _ =>
      exists h n m w : Z,
        Hour d = Some h /\ (0 <= h < 24)%Z
        /\ TimePeriod d = get_time_period h
        /\ DayNum d = Some n /\ (0 <= n < 7)%Z
        /\ DayOfWeek d = nth_error week_days (Z.to_nat n)
        /\ Month d = Some m /\ (1 <= m <= 12)%Z
        /\ Week d = Some w /\ (1 <= w <= 53)%Z
  | None =>
      Hour d = None /\ DayOfWeek d = None /\ DayNum d = None
      /\ Month d = None /\ Year d = None /\ Week d = None
      /\ YearMonth d = "NaT" /\ TimePeriod d = "Night"
  end.

(** Rows in descending order of a column. *)
Definition descending {A : Type} (by_ : A -> Q) (l : list A) : Prop :=
  StronglySorted (fun a b => by_ b <= by_ a) l.

(** [top] holds the [n] leaders of [all] by a column, best first: it is as
    long as [all] allows, and no row left out beats a row kept. *)
Definition leaders {A : Type} (by_ : A -> Q) (n : nat) (top all : list A)
  : Prop :=
  List.length top = Nat.min n (List.length all)
  /\ descending by_ top
  /\ exists rest,
      Permutation (top ++ rest) all
      /\ forall a b, In a top -> In b rest -> by_ b <= by_ a.

(** A row that [groupby(key)] puts in some group: its key is not null. *)
Definition has_key {K : Type} (key : purchase -> option K) (p : purchase)
  : bool :=
  match key p with
  | Some _ => true
  | None => false
  end.

(** The rows of one hour that have a customer id. *)
Definition counted_at (h : Z) (p : purchase) : bool :=
  match Hour (calc p), customer_guid (base p) with
  | Some h', Some _ => Z.eqb h' h
  | _, _ => false
  end.

(** The value of a metric in a kpis table; null also when it is not
    listed. *)
Definition metric (name : string) (kpis : list Kpi.t) : option Q :=
  match find (fun k => String.eqb (Kpi.Metric k) name) kpis with
  | Some k => Kpi.Value k
  | None => None
  end.

(** Two figures agree: both null, or equal numbers. *)
Definition agree (a b : option Q) : Prop :=
  match a, b with
  | Some x, Some y => x == y
  | None, None => True
  | _, _ => False
  end.

(** Keys in ascending order. *)
Definition ascending (keys : list string) : Prop :=
  Sorted (fun a b => String.leb a b = true) keys.

End Tables.

(** * Properties *)

(** ** Strings *)

Module PyStrFacts.
Import PyStr.

Lemma lstrip_eq (s : string) :
  lstrip s = match skip_space s with
             | Some rest => lstrip rest
             | None => s
             end.
Proof.
  destruct s as [|a [|b [|c s]]]; cbn [lstrip skip_space]; try reflexivity.
  - now destruct (is_space a).
  - destruct (is_space a); [reflexivity|]. now destruct (is_space2 a b).
  - destruct (is_space a); [reflexivity|].
    destruct (is_space2 a b); [reflexivity|]. now destruct (is_space3 a b c).
Qed.

Lemma skip_space_shorter (s rest : string) :
  skip_space s = Some rest -> (String.length rest < String.length s)%nat.
Proof.
  destruct s as [|a [|b [|c s]]]; cbn [skip_space]; try discriminate.
  - destruct (is_space a); [|discriminate]. intros H. injection H as <-.
    cbn. lia.
  - destruct (is_space a); [intros H; injection H as <-; cbn; lia|].
    destruct (is_space2 a b); [|discriminate].
    intros H. injection H as <-. cbn. lia.
  - destruct (is_space a); [intros H; injection H as <-; cbn; lia|].
    destruct (is_space2 a b); [intros H; injection H as <-; cbn; lia|].
    destruct (is_space3 a b c); [|discriminate].
    intros H. injection H as <-. cbn. lia.
Qed.

(** Induction on what [lstrip] leaves to do. *)
Lemma lstrip_ind (P : string -> Prop) :
  (forall s, skip_space s = None -> P s) ->
  (forall s rest, skip_space s = Some rest -> P rest -> P s) ->
  forall s, P s.
Proof.
  intros Hn Hs s.
  assert (G : forall n s, (String.length s < n)%nat -> P s).
  { induction n as [|n IH]; intros t L; [lia|].
    destruct (skip_space t) as [rest|] eqn:E; [|now apply Hn].
    apply (Hs t rest E). apply IH.
    pose proof (skip_space_shorter t rest E). lia. }
  apply (G (S (String.length s))). lia.
Qed.

Lemma lstrip_stripped (s : string) : skip_space (lstrip s) = None.
Proof.
  induction s as [s E|s rest E IH] using lstrip_ind; rewrite lstrip_eq, E.
  - exact E.
  - exact IH.
Qed.

Lemma lstrip_idem (s : string) : lstrip (lstrip s) = lstrip s.
Proof. rewrite (lstrip_eq (lstrip s)). now rewrite lstrip_stripped. Qed.

Lemma rstrip_idem (s : string) : rstrip (rstrip s) = rstrip s.
Proof.
  induction s as [|c s IH]; [reflexivity|]. cbn [rstrip].
  destruct (blank (String c (rstrip s))) eqn:B; [reflexivity|].
  cbn [rstrip]. now rewrite IH, B.
Qed.

(** [rstrip] cuts a tail off. *)
Lemma rstrip_prefix (s : string) : exists tail, s = (rstrip s ++ tail)%string.
Proof.
  induction s as [|c s [tail IH]]; [now exists EmptyString|]. cbn [rstrip].
  destruct (blank (String c (rstrip s))).
  - now exists (String c s).
  - exists tail. cbn. now rewrite <- IH.
Qed.

Lemma skip_space_app (s tail rest : string) :
  skip_space s = Some rest ->
  skip_space (s ++ tail) = Some (rest ++ tail)%string.
Proof.
  destruct s as [|a [|b [|c s]]]; cbn [skip_space String.append];
    try discriminate.
  - destruct (is_space a); [|discriminate]. intros H. now injection H as <-.
  - destruct (is_space a); [intros H; now injection H as <-|].
    destruct (is_space2 a b); [|discriminate]. intros H. now injection H as <-.
  - destruct (is_space a); [intros H; now injection H as <-|].
    destruct (is_space2 a b); [intros H; now injection H as <-|].
    destruct (is_space3 a b c); [|discriminate].
    intros H. now injection H as <-.
Qed.

Lemma lstrip_rstrip_fixed (s : string) :
  skip_space s = None -> lstrip (rstrip s) = rstrip s.
Proof.
  intros E. rewrite lstrip_eq.
  destruct (skip_space (rstrip s)) as [rest|] eqn:R; [|reflexivity].
  exfalso. destruct (rstrip_prefix s) as [tail T].
  rewrite T, (skip_space_app _ tail _ R) in E. discriminate.
Qed.

Lemma strip_idem (s : string) : strip (strip s) = strip s.
Proof.
  unfold strip.
  rewrite (lstrip_rstrip_fixed (lstrip s) (lstrip_stripped s)).
  apply rstrip_idem.
Qed.

(** What [strip] does to text with the no-break space U+00A0 and the
    ideographic space U+3000 around it, and what [lower] does to the Kelvin
    sign. *)
Lemma strip_samples :
  strip (String (ascii_of_nat 194) (String (ascii_of_nat 160) "price")
         ++ String (ascii_of_nat 227) (String (ascii_of_nat 128)
              (String (ascii_of_nat 128) " ")))
  = "price"
  /\ strip " unit cost " = "unit cost"
  /\ contains "checkin"
       (lower ("Chec" ++ String (ascii_of_nat 226) (String (ascii_of_nat 132)
                           (String (ascii_of_nat 170) "ins")))) = true.
Proof. repeat split. Qed.

End PyStrFacts.

(** ** Time-of-day bucket *)

(** C2.  For every integer hour the bucket is one of the four names, and it
    is Morning exactly on [5,12), Afternoon exactly on [12,17), Evening
    exactly on [17,21) and Night exactly elsewhere; the boundary hours 5, 12,
    17, 21 and 0 map to Morning, Afternoon, Evening, Night and Night. *)
Theorem get_time_period_buckets :
  forall hour : Z,
    In (get_time_period hour) ["Morning"; "Afternoon"; "Evening"; "Night"]
    /\ (get_time_period hour = "Morning" <-> (5 <= hour < 12)%Z)
    /\ (get_time_period hour = "Afternoon" <-> (12 <= hour < 17)%Z)
    /\ (get_time_period hour = "Evening" <-> (17 <= hour < 21)%Z)
    /\ (get_time_period hour = "Night" <-> (hour < 5 \/ 21 <= hour)%Z)
    /\ get_time_period 5 = "Morning"
    /\ get_time_period 12 = "Afternoon"
    /\ get_time_period 17 = "Evening"
    /\ get_time_period 21 = "Night"
    /\ get_time_period 0 = "Night".
Proof.
  intros hour. unfold get_time_period.
  destruct (5 <=? hour)%Z eqn:H5; destruct (hour <? 12)%Z eqn:H12;
    destruct (12 <=? hour)%Z eqn:H12'; destruct (hour <? 17)%Z eqn:H17;
    destruct (17 <=? hour)%Z eqn:H17'; destruct (hour <? 21)%Z eqn:H21;
    simpl;
    repeat match goal with
           | H : (_ <=? _)%Z = true |- _ => apply Z.leb_le in H
           | H : (_ <=? _)%Z = false |- _ => apply Z.leb_gt in H
           | H : (_ <? _)%Z = true |- _ => apply Z.ltb_lt in H
           | H : (_ <? _)%Z = false |- _ => apply Z.ltb_ge in H
           end;
    try lia;
    repeat split; intros; try discriminate; try lia; try reflexivity; auto.
Qed.

(** ** Preprocessor *)

Module PreprocessFacts.
Import Preprocess.

Lemma filter_single {A : Type} (f : A -> bool) (l : list A) (x : A) :
  filter f l = [x] -> forall y, In y l -> f y = true -> y = x.
Proof.
  intros F y Hy Fy.
  assert (Hin : In y (filter f l)) by (apply filter_In; auto).
  rewrite F in Hin. destruct Hin as [E|[]]. now symmetry.
Qed.

Lemma forallb_pointwise {A : Type} (f g : A -> bool) (l : list A) :
  (forall x, f x = g x) -> forallb f l = forallb g l.
Proof.
  intros E. induction l as [|x l IH]; simpl; [reflexivity|].
  now rewrite E, IH.
Qed.

Lemma forallb_pointwise_in {A : Type} (f g : A -> bool) (l : list A) :
  (forall x, In x l -> f x = g x) -> forallb f l = forallb g l.
Proof.
  induction l as [|x l IH]; intros E; cbn [forallb]; [reflexivity|].
  rewrite (E x (or_introl eq_refl)), IH; [reflexivity|].
  intros y Hy. apply E. now right.
Qed.

Lemma forallb_map {A B : Type} (f : B -> bool) (g : A -> B) (l : list A) :
  forallb f (map g l) = forallb (fun a => f (g a)) l.
Proof.
  induction l as [|x l IH]; cbn [map forallb]; [reflexivity|]. now rewrite IH.
Qed.

(** How often a label occurs, counted on the labels. *)
Lemma labels_filter (df : DataFrame) (col : string) :
  List.length (filter (labelled col) df)
  = List.length (filter (fun n => String.eqb n col) (columns df)).
Proof.
  induction df as [|c df IH]; cbn [filter columns map]; [reflexivity|].
  unfold labelled at 1. destruct (String.eqb (fst c) col); cbn [List.length];
    unfold columns in IH; now rewrite IH.
Qed.

(** A label that occurs once does not come again further right. *)
Lemma unique_not_later (pre rest : list string) (col : string) (df : DataFrame) :
  columns df = pre ++ col :: rest -> unique df col = true ->
  existsb (String.eqb col) rest = false.
Proof.
  intros C U. unfold unique in U. apply Nat.eqb_eq in U.
  rewrite labels_filter, C, filter_app in U. cbn [filter] in U.
  rewrite String.eqb_refl, length_app in U. cbn [List.length] in U.
  destruct (existsb (String.eqb col) rest) eqn:X; [|reflexivity].
  exfalso. apply existsb_exists in X. destruct X as [x [Hx E]].
  apply String.eqb_eq in E. subst x.
  assert (Hf : In col (filter (fun n => String.eqb n col) rest))
    by (apply filter_In; split; [exact Hx|apply String.eqb_refl]).
  destruct (filter (fun n => String.eqb n col) rest); [destruct Hf|].
  cbn [List.length] in U. lia.
Qed.

Lemma In_columns (df : DataFrame) (col : string) :
  In col (columns df) -> filter (labelled col) df <> [].
Proof.
  intros Hc E. unfold columns in Hc. apply in_map_iff in Hc.
  destruct Hc as [c [Hc1 Hc2]].
  assert (Hf : In c (filter (labelled col) df)).
  { apply filter_In. split; [assumption|]. unfold labelled.
    rewrite Hc1. apply String.eqb_refl. }
  rewrite E in Hf. destruct Hf.
Qed.

Section ColumnLoop.

Variable test : string -> bool.
Variable conv : series -> result series.
Variable err : exn.

Local Abbreviation col_loop := (Preprocess.col_loop test conv err).
Local Abbreviation upd := (Preprocess.upd conv).
Local Abbreviation val := (Preprocess.val conv).
Local Abbreviation ok := (Preprocess.ok conv).
Local Abbreviation seen := (Preprocess.seen test).

Lemma setitem_upd (df : DataFrame) (col : string) (x : string * series)
      (s' : series) :
  filter (labelled col) df = [x] -> conv (snd x) = Return s' ->
  setitem df col s' = map (upd col) df.
Proof.
  intros F E. unfold setitem. apply map_ext_in. intros c Hc.
  unfold Preprocess.upd.
  destruct (labelled col c) eqn:L; [|reflexivity].
  rewrite (filter_single _ _ _ F c Hc L). unfold Preprocess.val.
  now rewrite E.
Qed.

Lemma fst_upd (col : string) (c : string * series) : fst (upd col c) = fst c.
Proof. unfold Preprocess.upd. now destruct (labelled col c). Qed.

Lemma columns_upd (col : string) (df : DataFrame) :
  columns (map (upd col) df) = columns df.
Proof.
  unfold columns. rewrite map_map. apply map_ext. intros c. apply fst_upd.
Qed.

Lemma filter_length_relabel (g : string * series -> string * series)
      (df : DataFrame) (col : string) :
  (forall c, fst (g c) = fst c) ->
  List.length (filter (labelled col) (map g df))
  = List.length (filter (labelled col) df).
Proof.
  intros G. induction df as [|c df IH]; simpl; [reflexivity|].
  assert (E : labelled col (g c) = labelled col c)
    by (unfold labelled; now rewrite G).
  rewrite E. destruct (labelled col c); simpl; now rewrite IH.
Qed.

Lemma unique_relabel (g : string * series -> string * series)
      (df : DataFrame) (col : string) :
  (forall c, fst (g c) = fst c) -> unique (map g df) col = unique df col.
Proof.
  intros G. unfold unique. now rewrite (filter_length_relabel g df col G).
Qed.

(** A label that the loop skips is not one it converts. *)
Lemma seen_skipped (col : string) (rest : list string) (c : string * series) :
  test col = false -> seen (col :: rest) c = seen rest c.
Proof.
  intros T. unfold Preprocess.seen. cbn [existsb].
  destruct (String.eqb (fst c) col) eqn:E; [|reflexivity].
  apply String.eqb_eq in E. rewrite E, T. reflexivity.
Qed.

Lemma seen_other (col : string) (rest : list string) (c : string * series) :
  labelled col c = false -> seen (col :: rest) c = seen rest c.
Proof.
  unfold labelled, Preprocess.seen. cbn [existsb]. now intros ->.
Qed.

Lemma seen_done (col : string) (rest : list string) (c : string * series) :
  labelled col c = true -> existsb (String.eqb col) rest = false ->
  seen rest (upd col c) = false.
Proof.
  intros L X. unfold Preprocess.seen. rewrite fst_upd.
  unfold labelled in L. apply String.eqb_eq in L. rewrite L, X.
  apply andb_false_r.
Qed.

(** The loop in closed form: it returns exactly when no label it looks up
    is repeated and [conv] returns on every column it looks up, and it
    raises [err] or what [conv] raised. *)
Lemma col_loop_spec (cols : list string) :
  forall pre df,
    columns df = pre ++ cols ->
    match col_loop cols df with
    | Return df' =>
        forallb (fun col => negb (test col) || unique df col) cols = true
        /\ forallb (fun c => negb (seen cols c) || ok (snd c)) df = true
        /\ df' = map (fun c => (fst c, if seen cols c then val (snd c)
                                       else snd c)) df
    | Raise e =>
        (e = err
         /\ forallb (fun col => negb (test col) || unique df col) cols = false)
        \/ exists c, In c df /\ seen cols c = true /\ conv (snd c) = Raise e
    end.
Proof.
  induction cols as [|col rest IH]; intros pre df C; cbn [Preprocess.col_loop].
  - split; [reflexivity|]. split.
    + apply forallb_forall. intros c _. unfold Preprocess.seen.
      cbn [existsb]. now rewrite andb_false_r.
    + rewrite <- (map_id df) at 1. apply map_ext. intros [n s].
      unfold Preprocess.seen. cbn [existsb fst snd]. now rewrite andb_false_r.
  - assert (C' : columns df = (pre ++ [col]) ++ rest)
      by (rewrite <- app_assoc; exact C).
    destruct (test col) eqn:T.
    + (* the label is looked up *)
      unfold getitem.
      destruct (filter (labelled col) df) as [|x [|y l]] eqn:F;
        cbn [map bind].
      * exfalso. apply (In_columns df col); [|exact F].
        rewrite C. apply in_or_app. right. now left.
      * assert (Hx : In x df /\ labelled col x = true).
        { apply (filter_In (labelled col)). rewrite F. now left. }
        destruct Hx as [Hx Lx].
        assert (U : unique df col = true) by (unfold unique; now rewrite F).
        pose proof (unique_not_later pre rest col df C U) as X.
        destruct (conv (snd x)) as [s'|e] eqn:E; cbn [bind].
        2:{ right. exists x. split; [exact Hx|]. split; [|exact E].
            unfold Preprocess.seen. unfold labelled in Lx.
            apply String.eqb_eq in Lx. rewrite Lx, T. cbn [existsb].
            now rewrite String.eqb_refl. }
        rewrite (setitem_upd df col x s' F E).
        specialize (IH (pre ++ [col]) (map (upd col) df)).
        rewrite columns_upd in IH. specialize (IH C').
        rewrite (forallb_pointwise
                   (fun col0 => negb (test col0)
                                || unique (map (upd col) df) col0)
                   (fun col0 => negb (test col0) || unique df col0)) in IH
          by (intros c; now rewrite (unique_relabel _ _ _ (fst_upd col))).
        cbn [forallb]. rewrite T, U. cbn [negb orb andb].
        destruct (col_loop rest (map (upd col) df)) as [df'|e].
        -- destruct IH as [U' [K' ->]]. split; [exact U'|]. split.
           ++ rewrite forallb_map in K'. rewrite forallb_forall in K'.
              apply forallb_forall. intros c Hc. specialize (K' c Hc).
              destruct (labelled col c) eqn:L.
              ** rewrite (filter_single _ _ _ F c Hc L).
                 unfold Preprocess.ok. rewrite E. apply orb_true_r.
              ** rewrite (seen_other col rest c L).
                 unfold Preprocess.upd in K'. now rewrite L in K'.
           ++ rewrite map_map. apply map_ext_in. intros c Hc.
              rewrite fst_upd. f_equal.
              destruct (labelled col c) eqn:L.
              ** rewrite (seen_done col rest c L X).
                 unfold Preprocess.upd. rewrite L. cbn [snd].
                 unfold Preprocess.seen. unfold labelled in L.
                 apply String.eqb_eq in L. rewrite L, T. cbn [existsb].
                 now rewrite String.eqb_refl.
              ** rewrite (seen_other col rest c L).
                 unfold Preprocess.upd. now rewrite L.
        -- destruct IH as [[-> U']|[c1 [Hc1 [S1 E1]]]]; [left; auto|].
           right. apply in_map_iff in Hc1. destruct Hc1 as [c [<- Hc]].
           destruct (labelled col c) eqn:L.
           ++ rewrite (seen_done col rest c L X) in S1. discriminate.
           ++ unfold Preprocess.upd in S1, E1. rewrite L in S1, E1.
              exists c. split; [exact Hc|]. split; [|exact E1].
              now rewrite (seen_other col rest c L).
      * left. split; [reflexivity|]. cbn [forallb]. rewrite T.
        unfold unique. rewrite F. reflexivity.
    + (* the label is skipped *)
      specialize (IH (pre ++ [col]) df C').
      cbn [forallb]. rewrite T. cbn [negb orb andb].
      rewrite (forallb_pointwise
                 (fun c => negb (seen (col :: rest) c) || ok (snd c))
                 (fun c => negb (seen rest c) || ok (snd c)))
        by (intros c; now rewrite (seen_skipped col rest c T)).
      destruct (col_loop rest df) as [df'|e].
      * destruct IH as [U' [K' ->]]. split; [exact U'|]. split; [exact K'|].
        apply map_ext. intros c. now rewrite (seen_skipped col rest c T).
      * destruct IH as [H|[c [Hc [S1 E1]]]]; [now left|].
        right. exists c. split; [exact Hc|]. split; [|exact E1].
        now rewrite (seen_skipped col rest c T).
Qed.

End ColumnLoop.

Lemma setitem_same (df : DataFrame) (col : string) (x : string * series) :
  filter (labelled col) df = [x] -> setitem df col (snd x) = df.
Proof.
  intros F. unfold setitem. rewrite <- (map_id df) at 2.
  apply map_ext_in. intros c Hc.
  destruct (labelled col c) eqn:L; [|reflexivity].
  rewrite (filter_single _ _ _ F c Hc L). now destruct x.
Qed.

Lemma seen_all (test : string -> bool) (df : DataFrame) (c : string * series) :
  In c df -> seen test (columns df) c = test (fst c).
Proof.
  intros Hc. unfold seen.
  assert (E : existsb (String.eqb (fst c)) (columns df) = true).
  { apply existsb_exists. exists (fst c). split.
    - unfold columns. now apply in_map.
    - apply String.eqb_refl. }
  rewrite E. apply andb_true_r.
Qed.

Lemma strip_columns_idem (df : DataFrame) :
  strip_columns (strip_columns df) = strip_columns df.
Proof.
  unfold strip_columns. rewrite map_map. apply map_ext. intros [n s].
  cbn [fst snd]. now rewrite PyStrFacts.strip_idem.
Qed.

Section Parsers.

Variable datetime_outcome : list pyobj -> conversion.
Variable parse_datetime : list pyobj -> pyobj -> option Z.
Variable as_datetime : list pyobj -> pyobj -> pyobj.
Variable parse_numeric : pyobj -> option Q.

Local Abbreviation to_datetime :=
  (Preprocess.to_datetime datetime_outcome parse_datetime as_datetime).
Local Abbreviation to_numeric := (Preprocess.to_numeric parse_numeric).
Local Abbreviation date_loop :=
  (Preprocess.date_loop datetime_outcome parse_datetime as_datetime).
Local Abbreviation price_loop := (Preprocess.price_loop parse_numeric).
Local Abbreviation date_fix :=
  (Preprocess.date_fix datetime_outcome parse_datetime as_datetime).
Local Abbreviation converted :=
  (Preprocess.converted datetime_outcome parse_datetime as_datetime).
Local Abbreviation date_step :=
  (Preprocess.date_step datetime_outcome parse_datetime as_datetime).
Local Abbreviation price_step := (Preprocess.price_step parse_numeric).
Local Abbreviation convertible := (Preprocess.convertible datetime_outcome).
Local Abbreviation dates_convert := (Preprocess.dates_convert datetime_outcome).
Local Abbreviation per_column :=
  (Preprocess.per_column datetime_outcome parse_datetime as_datetime
     parse_numeric).
Local Abbreviation preprocess_data :=
  (Preprocess.preprocess_data datetime_outcome parse_datetime as_datetime
     parse_numeric).

Lemma to_numeric_idem (s : series) : to_numeric (to_numeric s) = to_numeric s.
Proof. now destruct s. Qed.

Lemma to_numeric_numeric (s : series) :
  exists cells, to_numeric s = NumericCol cells.
Proof. destruct s; cbn; eauto. Qed.

Lemma to_datetime_cases (cells : list pyobj) :
  match datetime_outcome cells with
  | Timestamps =>
      to_datetime cells = Return (DatetimeCol (map (parse_datetime cells) cells))
      /\ converted cells = DatetimeCol (map (parse_datetime cells) cells)
  | Objects =>
      to_datetime cells = Return (ObjectCol (map (as_datetime cells) cells))
      /\ converted cells = ObjectCol (map (as_datetime cells) cells)
  | Fails e => to_datetime cells = Raise e
  end.
Proof.
  unfold Preprocess.converted, Preprocess.to_datetime.
  destruct (datetime_outcome cells); auto.
Qed.

Lemma date_loop_col_loop (cols : list string) :
  forall df, date_loop cols df = col_loop has_date date_fix AttributeError cols df.
Proof.
  induction cols as [|col rest IH]; intros df;
    cbn [Preprocess.date_loop Preprocess.col_loop]; [reflexivity|].
  destruct (has_date col); [|apply IH].
  unfold getitem.
  destruct (filter (labelled col) df) as [|[n s] [|y l]] eqn:F;
    cbn [map bind snd]; try reflexivity.
  pose proof (setitem_same df col _ F) as E. cbn [snd] in E.
  destruct s as [cells|cells|cells]; cbn [Preprocess.date_fix bind].
  - destruct (to_datetime cells); cbn [bind]; [apply IH|reflexivity].
  - rewrite E. apply IH.
  - rewrite E. apply IH.
Qed.

Lemma price_loop_col_loop (cols : list string) :
  forall df,
    price_loop cols df
    = col_loop has_price (fun s => Return (to_numeric s)) TypeError cols df.
Proof.
  induction cols as [|col rest IH]; intros df;
    cbn [Preprocess.price_loop Preprocess.col_loop]; [reflexivity|].
  destruct (has_price col); [|apply IH].
  destruct (getitem df col) as [[s|ss]|e]; cbn [bind]; auto.
Qed.

Lemma fst_per_column (c : string * series) : fst (per_column c) = fst c.
Proof. reflexivity. Qed.

Lemma date_fix_val (c : string * series) :
  (if has_date (fst c) then val date_fix (snd c) else snd c)
  = date_step (fst c) (snd c).
Proof.
  unfold Preprocess.date_step, Preprocess.val, Preprocess.converted.
  destruct (has_date (fst c)); [|reflexivity].
  now destruct (snd c).
Qed.

Lemma date_fix_ok (c : string * series) :
  negb (has_date (fst c)) || ok date_fix (snd c) = convertible c.
Proof.
  unfold Preprocess.convertible, Preprocess.ok. f_equal.
  destruct (snd c) as [cells| |]; cbn [Preprocess.date_fix]; try reflexivity.
  unfold Preprocess.to_datetime. now destruct (datetime_outcome cells).
Qed.

(** [preprocess_data] in closed form: what it returns, and what it
    raises. *)
Lemma preprocess_data_spec (df : DataFrame) :
  match preprocess_data df with
  | Return df' =>
      lookups_unique df = true
      /\ dates_convert df = true
      /\ df' = map per_column (strip_columns df)
  | Raise e =>
      (e = AttributeError /\ loop_ok has_date (strip_columns df) = false)
      \/ (e = TypeError /\ loop_ok has_date (strip_columns df) = true
          /\ loop_ok has_price (strip_columns df) = false)
      \/ exists c cells,
          In c (strip_columns df) /\ has_date (fst c) = true
          /\ snd c = ObjectCol cells /\ datetime_outcome cells = Fails e
  end.
Proof.
  unfold Preprocess.preprocess_data, lookups_unique, Preprocess.dates_convert.
  set (d := strip_columns df).
  rewrite date_loop_col_loop.
  pose proof (col_loop_spec has_date date_fix AttributeError (columns d) [] d
                eq_refl) as S1.
  fold (loop_ok has_date d) in S1.
  destruct (col_loop has_date date_fix AttributeError (columns d) d)
    as [d1|e]; cbn [bind].
  - destruct S1 as [U1 [K1 ->]].
    set (g := fun c : string * series =>
                (fst c, if seen has_date (columns d) c
                        then val date_fix (snd c) else snd c)).
    assert (G : forall c, fst (g c) = fst c) by reflexivity.
    assert (C : columns (map g d) = columns d).
    { unfold columns. rewrite map_map. now apply map_ext. }
    rewrite price_loop_col_loop.
    pose proof (col_loop_spec has_price (fun s => Return (to_numeric s))
                  TypeError (columns (map g d)) [] (map g d) eq_refl) as S2.
    rewrite C in S2 |- *.
    rewrite (forallb_pointwise
               (fun col => negb (has_price col) || unique (map g d) col)
               (fun col => negb (has_price col) || unique d col)) in S2
      by (intros col; now rewrite (unique_relabel g d col G)).
    fold (loop_ok has_price d) in S2.
    destruct (col_loop has_price (fun s => Return (to_numeric s)) TypeError
                (columns d) (map g d)) as [d2|e]; cbn [bind].
    + destruct S2 as [U2 [_ ->]]. rewrite U1, U2. split; [reflexivity|].
      split.
      * rewrite <- K1. apply forallb_pointwise_in. intros c Hc.
        rewrite (seen_all has_date d c Hc). symmetry. apply date_fix_ok.
      * rewrite map_map. apply map_ext_in. intros c Hc.
        assert (Hg : In (g c) (map g d)) by now apply in_map.
        pose proof (seen_all has_price (map g d) (g c) Hg) as Sg.
        rewrite C in Sg. rewrite Sg.
        unfold g. cbn [fst snd]. rewrite (seen_all has_date d c Hc).
        rewrite date_fix_val.
        unfold Preprocess.per_column, Preprocess.price_step, Preprocess.val.
        reflexivity.
    + destruct S2 as [[-> U2]|[c [_ [_ E]]]]; [|discriminate E].
      right. left. auto.
  - destruct S1 as [[-> U1]|[c [Hc [S E]]]]; [left; auto|].
    right. right. rewrite (seen_all has_date d c Hc) in S.
    destruct c as [n [cells| |]]; cbn [snd Preprocess.date_fix] in E;
      try discriminate E.
    exists (n, ObjectCol cells), cells. split; [exact Hc|].
    split; [exact S|]. split; [reflexivity|].
    unfold Preprocess.to_datetime in E.
    destruct (datetime_outcome cells); try discriminate E.
    now injection E as ->.
Qed.

Lemma preprocess_data_inv (df df' : DataFrame) :
  preprocess_data df = Return df' ->
  lookups_unique df = true /\ dates_convert df = true
  /\ df' = map per_column (strip_columns df).
Proof.
  intros H. pose proof (preprocess_data_spec df) as S. now rewrite H in S.
Qed.

Lemma preprocess_data_returns (df : DataFrame) :
  lookups_unique df = true -> dates_convert df = true ->
  preprocess_data df = Return (map per_column (strip_columns df)).
Proof.
  intros L K. pose proof (preprocess_data_spec df) as S.
  destruct (preprocess_data df) as [df'|e].
  - destruct S as [_ [_ ->]]. reflexivity.
  - exfalso. unfold lookups_unique in L. apply andb_true_iff in L.
    destruct L as [L1 L2].
    destruct S as [[_ U]|[[_ [_ U]]|[c [cells [Hc [D [E F]]]]]]];
      try congruence.
    unfold Preprocess.dates_convert in K. rewrite forallb_forall in K.
    specialize (K c Hc). unfold Preprocess.convertible in K.
    rewrite D, E, F in K. discriminate K.
Qed.

Lemma loop_ok_per_column (test : string -> bool) (d : DataFrame) :
  loop_ok test (map per_column d) = loop_ok test d.
Proof.
  unfold loop_ok.
  assert (C : columns (map per_column d) = columns d).
  { unfold columns. rewrite map_map. now apply map_ext. }
  rewrite C. apply forallb_pointwise. intros col.
  now rewrite (unique_relabel per_column d col fst_per_column).
Qed.

Lemma strip_columns_fixed (df : DataFrame) :
  strip_columns (map per_column (strip_columns df))
  = map per_column (strip_columns df).
Proof.
  unfold strip_columns. rewrite !map_map. apply map_ext. intros [n s].
  cbn [fst snd Preprocess.per_column]. now rewrite PyStrFacts.strip_idem.
Qed.

(** A column that a run returned and that is not an object column named
    for a date comes back from another run as it is. *)
Lemma per_column_fixed (c : string * series) :
  negb (has_date (fst c)) || negb (is_object (snd (per_column c))) = true ->
  per_column (per_column c) = per_column c.
Proof.
  destruct c as [n s]. unfold Preprocess.per_column. cbn [fst snd].
  unfold Preprocess.price_step, Preprocess.date_step.
  destruct (has_price n), (has_date n); cbn [negb orb]; intros H.
  - set (y := match s with
              | ObjectCol cells => converted cells
              | _ => s
              end) in *.
    destruct (to_numeric_numeric y) as [cells E]. rewrite E. reflexivity.
  - now rewrite to_numeric_idem.
  - destruct s as [cells| |]; try reflexivity.
    destruct (converted cells); [discriminate H|reflexivity|reflexivity].
  - reflexivity.
Qed.



End Parsers.

Local Abbreviation sample_preprocess_data :=
  (preprocess_data sample_datetime_outcome sample_parse_datetime
     sample_as_datetime sample_parse_numeric).

(** C3 as worded: every table comes back from a second run as the first run
    returned it.  Of two dates typed with different UTC offsets the first
    run makes datetimes in a column of dtype object; the second run turns
    that column into timestamps in the time zone of its first cell and the
    other cell into NaT. *)
Lemma mixed_offsets_not_idempotent :
  sample_preprocess_data offsets_frame
  = Return [("purchase_date",
             ObjectCol [PyDatetime 1709283600000000000 (Some 3600%Z);
                        PyDatetime 1709280000000000000 (Some 7200%Z)])]
  /\ sample_preprocess_data
       [("purchase_date",
         ObjectCol [PyDatetime 1709283600000000000 (Some 3600%Z);
                    PyDatetime 1709280000000000000 (Some 7200%Z)])]
     = Return [("purchase_date",
                DatetimeCol [Some 1709283600000000000%Z; None])]
  /\ ~ (forall df df',
           sample_preprocess_data df = Return df' ->
           sample_preprocess_data df' = Return df').
Proof.
  split; [vm_compute; reflexivity|]. split; [vm_compute; reflexivity|].
  intros H.
  specialize (H offsets_frame _ ltac:(vm_compute; reflexivity)).
  vm_compute in H. discriminate H.
Qed.



(** A text column named for a date and a price is parsed, then coerced: its
    cell that is no date comes back as -2^63. *)
Lemma price_date_not_null :
  sample_preprocess_data price_date_frame
  = Return [("price_date",
             NumericCol [Some (1700000000000000000 # 1);
                         Some (inject_Z iNaT)])].
Proof. vm_compute. reflexivity. Qed.


End PreprocessFacts.

(** ** Loader *)

Module LoaderFacts.
Import Loader.

Section Frames.

Variable Frame : Type.
Variable pd_DataFrame : Frame.

Local Abbreviation workbook := (Loader.workbook Frame).
Local Abbreviation select_sheets := (Loader.select_sheets Frame pd_DataFrame).
Local Abbreviation getsheet := (Loader.getsheet Frame).
Local Abbreviation load_data := (Loader.load_data Frame pd_DataFrame).
Local Abbreviation load_data_from_sharepoint :=
  (Loader.load_data_from_sharepoint Frame pd_DataFrame).
Local Abbreviation named := (Loader.named Frame).
Local Abbreviation purchases_sheet := (Loader.purchases_sheet Frame).
Local Abbreviation checkins_sheet := (Loader.checkins_sheet Frame pd_DataFrame).

Lemma find_sheet_named (word : string) (xls : workbook) :
  find_sheet word (map fst xls) = option_map fst (find (named word) xls).
Proof.
  induction xls as [|[n f] xls IH]; simpl; [reflexivity|].
  unfold named at 1. simpl.
  destruct (PyStr.contains word (PyStr.lower n)); [reflexivity|exact IH].
Qed.

Lemma getsheet_found (word : string) (xls : workbook) (sheet : string * Frame) :
  find (named word) xls = Some sheet ->
  getsheet xls (fst sheet) = Return (snd sheet).
Proof.
  induction xls as [|[n f] xls IH]; simpl; [discriminate|].
  destruct (named word (n, f)) eqn:N.
  - intros E. injection E as <-. simpl. now rewrite String.eqb_refl.
  - intros E. destruct (String.eqb n (fst sheet)) eqn:Q; [|now apply IH].
    apply String.eqb_eq in Q. apply find_some in E. destruct E as [_ E].
    unfold named in *. simpl in N. rewrite Q in N. congruence.
Qed.

Lemma named_nonempty (word : string) (sheet : string * Frame) :
  nonempty word = true -> named word sheet = true -> nonempty (fst sheet) = true.
Proof.
  unfold named. destruct sheet as [[|c n] f]; simpl; [|reflexivity].
  destruct word; [discriminate|]. simpl. discriminate.
Qed.

Lemma select_checkins (xls : workbook) :
  match option_map fst (find (named "checkin") xls) with
  | Some name => if nonempty name then getsheet xls name else Return pd_DataFrame
  | None => Return pd_DataFrame
  end = Return (checkins_sheet xls).
Proof.
  unfold checkins_sheet.
  destruct (find (named "checkin") xls) as [c|] eqn:C; cbn [option_map];
    [|reflexivity].
  rewrite (named_nonempty "checkin" c eq_refl) by (apply find_some in C; tauto).
  apply (getsheet_found _ _ _ C).
Qed.

Lemma select_sheets_spec (first : string * Frame) (rest : workbook) :
  select_sheets (first :: rest)
  = Return (purchases_sheet first rest, checkins_sheet (first :: rest)).
Proof.
  unfold Loader.select_sheets, purchases_sheet.
  rewrite !find_sheet_named, select_checkins.
  destruct (find (named "purchase") (first :: rest)) as [p|] eqn:P;
    cbn [option_map].
  - rewrite (named_nonempty "purchase" p eq_refl)
      by (apply find_some in P; tauto).
    now rewrite (getsheet_found _ _ _ P).
  - now destruct first.
Qed.

Lemma load_data_from_sharepoint_spec (response : fetched Frame) :
  load_data_from_sharepoint response
  = match response with
    | ConnectionFailed => Raise (FileNotFoundError UnableToDownload)
    | Response status content =>
        if is_http_error status
        then Raise (FileNotFoundError UnableToDownload)
        else match xls <- read_all_sheets content ;; select_sheets xls with
             | Return r => Return r
             | Raise _ => Raise (FileNotFoundError ErrorProcessing)
             end
    end.
Proof. reflexivity. Qed.

(** A call without URL reads the candidate file. *)
Lemma load_data_local (w : world Frame) (filepath sharepoint_url : option string)
      (path : string) :
  no_url sharepoint_url = true -> candidate Frame w filepath path ->
  load_data w filepath sharepoint_url
  = if file_exists w path
    then match xls <- read_all_sheets (file_source w path) ;;
               select_sheets xls with
         | Return r => Return r
         | Raise _ =>
             purchases_df <- read_first_sheet (file_source w path) ;;
             Return (purchases_df, pd_DataFrame)
         end
    else Raise (FileNotFoundError NoSuchFile).
Proof.
  intros U C.
  assert (L : load_data w filepath sharepoint_url
              = load_local Frame pd_DataFrame w filepath).
  { unfold Loader.load_data. destruct sharepoint_url as [url|]; [|reflexivity].
    cbn [no_url] in U. apply negb_true_iff in U. now rewrite U. }
  rewrite L. unfold load_local, candidate in *.
  destruct filepath as [given|].
  - subst path. cbn [bind]. now destruct (file_exists w given).
  - destruct C as [[M ->]|[M [G ->]]].
    + rewrite M. cbn [bind]. now rewrite M.
    + rewrite M, G. cbn [bind]. now rewrite G.
Qed.

Lemma load_data_no_default (w : world Frame) (sharepoint_url : option string) :
  no_url sharepoint_url = true ->
  file_exists w master_file = false -> file_exists w github_file = false ->
  load_data w None sharepoint_url = Raise (FileNotFoundError NoDefaultFile).
Proof.
  intros U M G. unfold Loader.load_data, load_local.
  destruct sharepoint_url as [url|].
  - cbn [no_url] in U. apply negb_true_iff in U. now rewrite U, M, G.
  - now rewrite M, G.
Qed.

(** C9 (as the code has it).  With a non-empty URL [load_data] is the
    SharePoint loader, which raises FileNotFoundError exactly when the fetch
    fails (no response, or a status that [raise_for_status] rejects: 4xx
    or 5xx) or when reading the fetched workbook or selecting its sheets
    raises anything: it has no single-sheet fallback, and raises nothing
    else.  Without a URL, [load_data] reads the path it is given, or else
    the master file, or else the GitHub copy; it raises FileNotFoundError
    exactly when no path is given and neither default file exists, when the
    path given does not exist, or when the fallback read itself raises it.
    A file that exists is returned as its selected sheets, and when reading
    all its sheets or selecting them raises, it is read as one sheet that is
    returned with an empty check-ins frame, any exception of that second
    read going through. *)
Theorem load_data_failure_modes :
  (forall w filepath url,
      nonempty url = true ->
      load_data w filepath (Some url)
      = load_data_from_sharepoint (http_get w url))
  /\ (forall response,
         match load_data_from_sharepoint response with
         | Return r =>
             exists status content,
               response = Response status content
               /\ is_http_error status = false
               /\ (xls <- read_all_sheets content ;; select_sheets xls)
                  = Return r
         | Raise e =>
             (e = FileNotFoundError UnableToDownload
              /\ (response = ConnectionFailed
                  \/ exists status content,
                      response = Response status content
                      /\ is_http_error status = true))
             \/ (e = FileNotFoundError ErrorProcessing
                 /\ exists status content e',
                     response = Response status content
                     /\ is_http_error status = false
                     /\ (xls <- read_all_sheets content ;; select_sheets xls)
                        = Raise e')
         end)
  /\ (forall response,
         (exists why, load_data_from_sharepoint response
                      = Raise (FileNotFoundError why))
         <-> response = ConnectionFailed
             \/ exists status content,
                 response = Response status content
                 /\ (is_http_error status = true
                     \/ exists e,
                         (xls <- read_all_sheets content ;; select_sheets xls)
                         = Raise e))
  /\ (forall w url,
         no_url url = true ->
         file_exists w master_file = false ->
         file_exists w github_file = false ->
         load_data w None url = Raise (FileNotFoundError NoDefaultFile))
  /\ (forall w filepath url path,
         no_url url = true -> candidate Frame w filepath path ->
         (file_exists w path = false ->
          load_data w filepath url = Raise (FileNotFoundError NoSuchFile))
         /\ (file_exists w path = true ->
             forall r,
               (xls <- read_all_sheets (file_source w path) ;; select_sheets xls)
               = Return r ->
               load_data w filepath url = Return r)
         /\ (file_exists w path = true ->
             forall e,
               (xls <- read_all_sheets (file_source w path) ;; select_sheets xls)
               = Raise e ->
               load_data w filepath url
               = (purchases_df <- read_first_sheet (file_source w path) ;;
                  Return (purchases_df, pd_DataFrame))))
  /\ (forall w filepath url,
         no_url url = true ->
         ((exists why, load_data w filepath url = Raise (FileNotFoundError why))
          <-> (filepath = None /\ file_exists w master_file = false
               /\ file_exists w github_file = false)
              \/ (exists path, filepath = Some path
                               /\ file_exists w path = false)
              \/ (exists path e why,
                     candidate Frame w filepath path
                     /\ file_exists w path = true
                     /\ (xls <- read_all_sheets (file_source w path) ;;
                         select_sheets xls) = Raise e
                     /\ read_first_sheet (file_source w path)
                        = Raise (FileNotFoundError why)))).
Proof.
  assert (SP : forall response,
             match load_data_from_sharepoint response with
             | Return r =>
                 exists status content,
                   response = Response status content
                   /\ is_http_error status = false
                   /\ (xls <- read_all_sheets content ;; select_sheets xls)
                      = Return r
             | Raise e =>
                 (e = FileNotFoundError UnableToDownload
                  /\ (response = ConnectionFailed
                      \/ exists status content,
                          response = Response status content
                          /\ is_http_error status = true))
                 \/ (e = FileNotFoundError ErrorProcessing
                     /\ exists status content e',
                         response = Response status content
                         /\ is_http_error status = false
                         /\ (xls <- read_all_sheets content ;;
                             select_sheets xls) = Raise e')
             end).
  { intros response. rewrite load_data_from_sharepoint_spec.
    destruct response as [|status content]; [left; auto|].
    destruct (is_http_error status) eqn:H.
    - left. split; [reflexivity|]. right. eauto.
    - destruct (xls <- read_all_sheets content ;; select_sheets xls)
        as [r|e'] eqn:E.
      + eauto.
      + right. split; [reflexivity|]. eauto 6. }
  split; [|split; [exact SP|split; [|split; [|split]]]].
  - intros w filepath url U. unfold Loader.load_data. now rewrite U.
  - intros response. specialize (SP response). split.
    + intros [why H]. rewrite H in SP.
      destruct SP as [[_ [->|[status [content [-> E]]]]]
                     |[_ [status [content [e' [-> [_ E]]]]]]].
      * now left.
      * right. exists status, content. split; [reflexivity|]. now left.
      * right. exists status, content. split; [reflexivity|]. right. eauto.
    + intros H. destruct (load_data_from_sharepoint response) as [r|e] eqn:L.
      * exfalso. destruct SP as [status [content [-> [N R]]]].
        destruct H as [H|[s [c [H [E|[e E]]]]]]; [discriminate H| |];
          injection H as <- <-; congruence.
      * destruct SP as [[-> _]|[-> _]]; eauto.
  - intros w url U M G. now apply load_data_no_default.
  - intros w filepath url path U C.
    rewrite (load_data_local w filepath url path U C).
    split; [|split].
    + now intros ->.
    + intros -> r R. unfold Loader.workbook in *. now rewrite R.
    + intros -> e R. unfold Loader.workbook in *. now rewrite R.
  - intros w filepath url U. split.
    + intros [why H].
      destruct filepath as [given|].
      * rewrite (load_data_local w (Some given) url given U eq_refl) in H.
        destruct (file_exists w given) eqn:X; [|right; left; eauto].
        right. right.
        destruct (xls <- read_all_sheets (file_source w given) ;;
                  select_sheets xls) as [r|e] eqn:R; [discriminate H|].
        destruct (read_first_sheet (file_source w given)) as [f|e1] eqn:F;
          [discriminate H|].
        cbn [bind] in H. injection H as ->.
        exists given, e, why. repeat split; assumption.
      * destruct (file_exists w master_file) eqn:M.
        -- assert (C : candidate Frame w None master_file)
             by (left; auto).
           rewrite (load_data_local w None url master_file U C), M in H.
           right. right.
           destruct (xls <- read_all_sheets (file_source w master_file) ;;
                     select_sheets xls) as [r|e] eqn:R; [discriminate H|].
           destruct (read_first_sheet (file_source w master_file))
             as [f|e1] eqn:F; [discriminate H|].
           cbn [bind] in H. injection H as ->.
           exists master_file, e, why. repeat split; assumption.
        -- destruct (file_exists w github_file) eqn:G; [|left; auto].
           assert (C : candidate Frame w None github_file)
             by (right; auto).
           rewrite (load_data_local w None url github_file U C), G in H.
           right. right.
           destruct (xls <- read_all_sheets (file_source w github_file) ;;
                     select_sheets xls) as [r|e] eqn:R; [discriminate H|].
           destruct (read_first_sheet (file_source w github_file))
             as [f|e1] eqn:F; [discriminate H|].
           cbn [bind] in H. injection H as ->.
           exists github_file, e, why. repeat split; assumption.
    + intros [[-> [M G]]|[[path [-> X]]|[path [e [why [C [X [R F]]]]]]]].
      * exists NoDefaultFile. now apply load_data_no_default.
      * exists NoSuchFile.
        now rewrite (load_data_local w (Some path) url path U eq_refl), X.
      * exists why. rewrite (load_data_local w filepath url path U C), X.
        unfold Loader.workbook in *. now rewrite R, F.
Qed.

End Frames.

(** C9 as worded: on the SharePoint path too, a fetched file that cannot be
    read as a multi-sheet workbook is returned as one purchases sheet with
    empty check-ins, and every status that is not a 2xx one raises.  The
    same file degrades that way from the disk and raises from the share; and
    a response with status 300 that carries a readable workbook is
    loaded. *)
Lemma sharepoint_has_no_fallback :
  load_data (Pandas.frame row) Pandas.DataFrame Samples.damaged_disk None None
  = Return (Samples.three_sales, Pandas.DataFrame)
  /\ load_data (Pandas.frame row) Pandas.DataFrame Samples.damaged_disk None
       (Some "https://share/retail.xlsx")
     = Raise (FileNotFoundError ErrorProcessing)
  /\ load_data (Pandas.frame row) Pandas.DataFrame Samples.damaged_disk None
       (Some "https://share/retail.xlsx")
     <> Return (Samples.three_sales, Pandas.DataFrame)
  /\ load_data_from_sharepoint (Pandas.frame row) Pandas.DataFrame
       (Response 300 Samples.purchases_only_file)
     = Return (Samples.three_sales, Pandas.DataFrame).
Proof.
  split; [reflexivity|]. split; [reflexivity|].
  split; [discriminate|reflexivity].
Qed.

(** C9, on the damaged file under the default name, on a disk without
    either file, and on a share that answers 404 or serves the damaged
    file. *)
Lemma load_data_failure_modes_witness :
  load_data (Pandas.frame row) Pandas.DataFrame Samples.damaged_disk None None
  = Return (Samples.three_sales, Pandas.DataFrame)
  /\ load_data (Pandas.frame row) Pandas.DataFrame Samples.empty_disk None None
     = Raise (FileNotFoundError NoDefaultFile)
  /\ load_data (Pandas.frame row) Pandas.DataFrame Samples.damaged_disk
       (Some github_file) None
     = Raise (FileNotFoundError NoSuchFile)
  /\ (exists why,
         load_data_from_sharepoint (Pandas.frame row) Pandas.DataFrame
           (Response 404 Samples.one_sheet_only)
         = Raise (FileNotFoundError why))
  /\ exists why,
      load_data_from_sharepoint (Pandas.frame row) Pandas.DataFrame
        (Response 200 Samples.one_sheet_only)
      = Raise (FileNotFoundError why).
Proof.
  pose proof (load_data_failure_modes (Pandas.frame row) Pandas.DataFrame)
    as [_ [_ [H3 [H4 [H5 _]]]]].
  split; [|split; [|split; [|split]]].
  - destruct (H5 Samples.damaged_disk None None master_file eq_refl
                (or_introl (conj eq_refl eq_refl))) as [_ [_ F]].
    rewrite (F eq_refl ParseError eq_refl). reflexivity.
  - apply H4; reflexivity.
  - destruct (H5 Samples.damaged_disk (Some github_file) None github_file
                eq_refl eq_refl) as [N _].
    apply N. reflexivity.
  - apply H3. right. exists 404%Z, Samples.one_sheet_only.
    split; [reflexivity|]. now left.
  - apply H3. right. exists 200%Z, Samples.one_sheet_only.
    split; [reflexivity|]. right. exists ParseError. reflexivity.
Defined.

End LoaderFacts.

(** ** Grouping, sorting and merging *)

Module PandasFacts.
Import Pandas.

Lemma insert_perm {A : Type} (leb : A -> A -> bool) (a : A) (l : list A) :
  Permutation (insert leb a l) (a :: l).
Proof.
  induction l as [|b l IH]; simpl; [reflexivity|].
  destruct (leb a b); [reflexivity|].
  rewrite IH. apply perm_swap.
Qed.

Lemma sort_perm {A : Type} (leb : A -> A -> bool) (l : list A) :
  Permutation (sort leb l) l.
Proof.
  induction l as [|a l IH]; simpl; [reflexivity|].
  rewrite insert_perm. now apply perm_skip.
Qed.

Section Dedupe.

Context {A : Type} (eqb : A -> A -> bool).
Hypothesis eqb_eq : forall a b, eqb a b = true <-> a = b.

Lemma eqb_same (a : A) : eqb a a = true.
Proof. now apply eqb_eq. Qed.

Lemma In_dedupe (l : list A) (x : A) : In x (dedupe eqb l) <-> In x l.
Proof.
  induction l as [|a l IH]; simpl; [tauto|].
  rewrite filter_In, IH, negb_true_iff. split.
  - intros [H|[H _]]; auto.
  - intros [H|H]; [now left|].
    destruct (eqb a x) eqn:E; [left; now apply eqb_eq|right; auto].
Qed.

Lemma NoDup_dedupe (l : list A) : NoDup (dedupe eqb l).
Proof.
  induction l as [|a l IH]; simpl; constructor.
  - rewrite filter_In, eqb_same. simpl. intros [_ H]. discriminate.
  - now apply NoDup_filter.
Qed.

Lemma filter_filter_comm (f g : A -> bool) (l : list A) :
  filter f (filter g l) = filter g (filter f l).
Proof.
  induction l as [|a l IH]; simpl; [reflexivity|].
  destruct (f a) eqn:F, (g a) eqn:G; simpl; rewrite ?F, ?G, IH; reflexivity.
Qed.

Lemma filter_all (f : A -> bool) (l : list A) :
  (forall x, In x l -> f x = true) -> filter f l = l.
Proof.
  induction l as [|a l IH]; simpl; intros H; [reflexivity|].
  rewrite (H a (or_introl eq_refl)). f_equal. apply IH. auto.
Qed.

(** Filtering commutes with deduplication. *)
Lemma filter_dedupe (f : A -> bool) (l : list A) :
  filter f (dedupe eqb l) = dedupe eqb (filter f l).
Proof.
  induction l as [|a l IH]; simpl; [reflexivity|].
  destruct (f a) eqn:F; simpl.
  - now rewrite filter_filter_comm, IH.
  - rewrite filter_filter_comm, IH. apply filter_all.
    intros x Hx. apply (proj1 (In_dedupe _ _)) in Hx. apply filter_In in Hx.
    destruct Hx as [_ Fx]. apply negb_true_iff.
    destruct (eqb a x) eqn:E; [|reflexivity].
    apply eqb_eq in E. congruence.
Qed.

(** A key that occurs once among the right rows matches at most one. *)
Lemma filter_NoDup_key {R' : Type} (rkey : R' -> A) (right : list R') (k : A) :
  NoDup (map rkey right) ->
  (List.length (filter (fun r => eqb (rkey r) k) right) <= 1)%nat.
Proof.
  induction right as [|r right IH]; simpl; intros N; [lia|].
  inversion N as [|? ? Hn N']; subst.
  destruct (eqb (rkey r) k) eqn:E; [|now apply IH].
  apply eqb_eq in E. simpl.
  assert (Z : filter (fun r0 => eqb (rkey r0) k) right = []).
  { destruct (filter (fun r0 => eqb (rkey r0) k) right) as [|m ms] eqn:F;
      [reflexivity|].
    exfalso. apply Hn.
    assert (Hm : In m (filter (fun r0 => eqb (rkey r0) k) right))
      by (rewrite F; now left).
    apply filter_In in Hm. destruct Hm as [Hm Em]. apply eqb_eq in Em.
    rewrite E, <- Em. now apply in_map. }
  rewrite Z. simpl. lia.
Qed.

End Dedupe.

Section GroupKeys.

Context {R K : Type} (eqb leb : K -> K -> bool) (key : R -> option K).
Hypothesis eqb_eq : forall a b, eqb a b = true <-> a = b.

Lemma NoDup_group_keys (l : list R) : NoDup (group_keys eqb leb key l).
Proof.
  unfold group_keys.
  apply (Permutation_NoDup (l := dedupe eqb (non_null (map key l)))).
  - symmetry. apply sort_perm.
  - now apply NoDup_dedupe.
Qed.

Lemma In_non_null {A : Type} (cells : list (option A)) (a : A) :
  In a (non_null cells) <-> In (Some a) cells.
Proof.
  unfold non_null. rewrite in_flat_map. split.
  - intros [[x|] [Hx Ha]]; simpl in Ha; [|tauto].
    destruct Ha as [<-|[]]. exact Hx.
  - intros H. exists (Some a). split; [exact H|now left].
Qed.

Lemma In_group_keys (l : list R) (k : K) :
  In k (group_keys eqb leb key l) <-> exists r, In r l /\ key r = Some k.
Proof.
  unfold group_keys.
  rewrite (Permutation_in' (eq_refl k) (sort_perm leb _)).
  rewrite (In_dedupe eqb eqb_eq), In_non_null, in_map_iff.
  split; intros [r H]; exists r; tauto.
Qed.

Lemma groupby_keys (l : list R) :
  map fst (groupby eqb leb key l) = group_keys eqb leb key l.
Proof. unfold groupby. rewrite map_map. simpl. apply map_id. Qed.

End GroupKeys.

(** A left merge onto unique right keys yields one row per left row. *)
Lemma merge_left_one {L R' O B : Type} (lkey : L -> option string)
      (rkey : R' -> string) (attach : L -> option R' -> O)
      (lb : L -> B) (ob : O -> B) (left : list L) (right : list R') :
  (forall l o, ob (attach l o) = lb l) ->
  NoDup (map rkey right) ->
  map ob (merge_left String.eqb lkey rkey attach left right) = map lb left.
Proof.
  intros A N. unfold merge_left.
  induction left as [|l left IH]; [reflexivity|].
  cbn [flat_map]. rewrite map_app, IH. clear IH. cbn [map].
  change (lb l :: map lb left) with ([lb l] ++ map lb left). f_equal.
  destruct (lkey l) as [k|]; [|cbn [map]; now rewrite A].
  pose proof (filter_NoDup_key String.eqb String.eqb_eq rkey right k N) as Hle.
  destruct (filter (fun r => String.eqb (rkey r) k) right) as [|m [|m' ms]];
    cbn [map List.length] in *; rewrite ?A; try reflexivity. lia.
Qed.

End PandasFacts.

(** ** Enricher *)

Module EnricherFacts.
Import Pandas Enricher.

Lemma has_add_column (label added : string) (cols : list string) :
  existsb (String.eqb label) (add_column added cols)
  = existsb (String.eqb label) cols || String.eqb label added.
Proof.
  unfold add_column. destruct (existsb (String.eqb added) cols) eqn:E.
  - destruct (String.eqb label added) eqn:L; [|now rewrite orb_false_r].
    apply String.eqb_eq in L. subst. rewrite E. reflexivity.
  - rewrite existsb_app. simpl. now rewrite orb_false_r.
Qed.

Lemma has_add_columns (label : string) (added cols : list string) :
  existsb (String.eqb label) (add_columns added cols)
  = existsb (String.eqb label) cols || existsb (String.eqb label) added.
Proof.
  unfold add_columns. revert cols.
  induction added as [|a added IH]; intros cols; simpl.
  - now rewrite orb_false_r.
  - rewrite IH, has_add_column. now rewrite orb_assoc.
Qed.

Lemma require_inv {R : Type} (df : frame R) (label : string) (u : unit) :
  require df label = Return u -> has_column df label = true.
Proof. unfold require. now destruct (has_column df label). Qed.

Lemma require_has {R : Type} (df : frame R) (label : string) :
  has_column df label = true -> require df label = Return tt.
Proof. unfold require. now intros ->. Qed.

(** A left merge keeps whatever the attached columns do not touch. *)
Lemma merge_left_Forall {L R' K O : Type} (eqb : K -> K -> bool)
      (lkey : L -> option K) (rkey : R' -> K) (attach : L -> option R' -> O)
      (P : L -> Prop) (Q : O -> Prop) (left : list L) (right : list R') :
  (forall l o, P l -> Q (attach l o)) ->
  Forall P left -> Forall Q (merge_left eqb lkey rkey attach left right).
Proof.
  intros A F. unfold merge_left. induction F as [|l left Hl F IH]; simpl.
  - constructor.
  - apply Forall_app. split; [|exact IH].
    destruct (lkey l) as [k|]; [|repeat constructor; now apply A].
    destruct (filter (fun r => eqb (rkey r) k) right) as [|m ms].
    + repeat constructor. now apply A.
    + apply Forall_forall. intros o Ho. simpl in Ho.
      destruct Ho as [<-|Ho]; [now apply A|].
      apply in_map_iff in Ho. destruct Ho as [r [<- _]]. now apply A.
Qed.

Lemma has_enhanced (df : frame row) (label : string) :
  existsb (String.eqb label) (enhanced_columns df)
  = has_column df label
    || existsb (String.eqb label)
               (added_columns (has_column df "purchase_location")).
Proof.
  unfold enhanced_columns, added_columns, has_column.
  repeat rewrite existsb_app. repeat rewrite has_add_columns.
  repeat rewrite <- orb_assoc. reflexivity.
Qed.

Lemma purchases_ready_inv (df : frame row) :
  purchases_ready df = true ->
  forall label, In label required_columns -> has_column df label = true.
Proof.
  unfold purchases_ready. intros H label Hl.
  rewrite forallb_forall in H. now apply H.
Qed.

Lemma require_ok {R : Type} (cols : list string) (rws : list R)
      (label : string) :
  existsb (String.eqb label) cols = true ->
  require {| columns := cols; rows := rws |} label = Return tt.
Proof. intros H. unfold require, has_column. cbn [columns]. now rewrite H. Qed.

Ltac labels_there :=
  repeat rewrite existsb_app; repeat rewrite has_add_columns;
  repeat match goal with
         | H : existsb _ (columns _) = true |- _ => rewrite H
         end;
  reflexivity.

(** [create_enhanced_datasets] in closed form, when the columns it reads
    are there. *)
Lemma create_enhanced_datasets_spec (df checkins_df : frame row) :
  purchases_ready df = true ->
  create_enhanced_datasets df checkins_df =
  (checkins <- enhance_checkins checkins_df ;;
   Return
     {| purchases_enhanced :=
          {| columns := enhanced_columns df; rows := enhanced_rows df |};
        checkins_enhanced := checkins;
        vendor_stats :=
          vendor_stats_of
            (with_customers
               (map (derived_row (has_column df "unit_cost")) (rows df)));
        customer_totals :=
          customer_totals_of
            (map (derived_row (has_column df "unit_cost")) (rows df)) |}).
Proof.
  intros Hready.
  pose proof (purchases_ready_inv df Hready) as Hc.
  assert (H1 := Hc "purchase_date" ltac:(simpl; tauto)).
  assert (H2 := Hc "customer_guid" ltac:(simpl; tauto)).
  assert (H3 := Hc "purchase_price_w_discount" ltac:(simpl; tauto)).
  assert (H4 := Hc "vendor_name" ltac:(simpl; tauto)).
  assert (H5 := Hc "product_name" ltac:(simpl; tauto)).
  assert (H6 := Hc "quantity" ltac:(simpl; tauto)).
  clear Hc Hready.
  unfold create_enhanced_datasets.
  rewrite (require_has df "purchase_date" H1). cbn [bind].
  unfold has_column in H1, H2, H3, H4, H5, H6.
  assert (U : existsb (String.eqb "unit_cost")
                (add_columns time_columns (columns df))
              = has_column df "unit_cost").
  { rewrite has_add_columns. unfold has_column. simpl. apply orb_false_r. }
  rewrite U.
  assert (R3 : (if has_column df "unit_cost"
                then require {| columns := add_columns time_columns (columns df);
                                rows := rows df |} "purchase_price_w_discount"
                else Return tt) = Return tt).
  { destruct (has_column df "unit_cost"); [|reflexivity].
    apply require_ok. labels_there. }
  rewrite R3. cbn [bind].
  rewrite require_ok by labels_there. cbn [bind].
  rewrite require_ok by labels_there. cbn [bind].
  rewrite require_ok by labels_there. cbn [bind].
  assert (L : existsb (String.eqb "purchase_location")
                (((add_columns ["Profit"; "ProfitMargin"]
                     (add_columns time_columns (columns df))
                   ++ ["CustomerTotalSpent"; "CustomerRank"])
                  ++ ["VendorTotalSales"; "VendorTransactionCount";
                      "VendorAvgTransaction"; "VendorTotalProfit"; "VendorRank"]))
              = has_column df "purchase_location").
  { repeat rewrite existsb_app. repeat rewrite has_add_columns.
    unfold has_column. simpl. now rewrite !orb_false_r. }
  rewrite L. clear L U R3.
  unfold enhanced_rows, enhanced_columns, with_product_ranks, with_locations,
    with_vendors, with_customers.
  destruct (has_column df "purchase_location");
    (rewrite require_ok by labels_there); cbn [bind];
    (rewrite require_ok by labels_there); cbn [bind];
    rewrite ?app_nil_r; reflexivity.
Qed.

Ltac original_label R :=
  apply require_inv in R; unfold has_column in R |- *; cbn [columns] in R;
  repeat rewrite existsb_app in R; repeat rewrite has_add_columns in R;
  cbn [existsb String.eqb Ascii.eqb Bool.eqb time_columns] in R;
  rewrite ?orb_false_r in R; exact R.

(** [create_enhanced_datasets] returns only when the columns it reads are
    there. *)
Lemma create_enhanced_datasets_ready (df checkins_df : frame row) (e : enhanced) :
  create_enhanced_datasets df checkins_df = Return e ->
  purchases_ready df = true.
Proof.
  unfold create_enhanced_datasets. intros H.
  destruct (require df "purchase_date") as [u1|] eqn:R1; [|discriminate H].
  cbn [bind] in H.
  match type of H with
  | bind ?m _ = _ => destruct m as [u|]; [|discriminate H]
  end.
  cbn [bind] in H.
  repeat match type of H with
         | bind (require ?f ?l) _ = _ =>
             let R := fresh "R" in
             destruct (require f l) as [?|] eqn:R; [|discriminate H];
             cbn [bind] in H
         end.
  clear H.
  apply require_inv in R1.
  assert (H2 : has_column df "customer_guid" = true) by original_label R.
  assert (H3 : has_column df "purchase_price_w_discount" = true)
    by original_label R0.
  assert (H4 : has_column df "vendor_name" = true) by original_label R2.
  clear R R0 R2.
  assert (H5 : has_column df "product_name" = true
               /\ has_column df "quantity" = true).
  { destruct (existsb (String.eqb "purchase_location") _);
      split; [original_label R3|original_label R4
              |original_label R3|original_label R4]. }
  destruct H5 as [H5 H6].
  unfold purchases_ready, required_columns. simpl.
  now rewrite R1, H2, H3, H4, H5, H6.
Qed.

Lemma create_enhanced_datasets_inv (df checkins_df : frame row) (e : enhanced) :
  create_enhanced_datasets df checkins_df = Return e ->
  purchases_ready df = true
  /\ enhance_checkins checkins_df = Return (checkins_enhanced e)
  /\ purchases_enhanced e
     = {| columns := enhanced_columns df; rows := enhanced_rows df |}
  /\ vendor_stats e
     = vendor_stats_of
         (with_customers
            (map (derived_row (has_column df "unit_cost")) (rows df)))
  /\ customer_totals e
     = customer_totals_of
         (map (derived_row (has_column df "unit_cost")) (rows df)).
Proof.
  intros H. pose proof (create_enhanced_datasets_ready _ _ _ H) as Hr.
  rewrite (create_enhanced_datasets_spec _ _ Hr) in H.
  destruct (enhance_checkins checkins_df) as [c|]; [|discriminate H].
  cbn [bind] in H. injection H as <-. cbn. auto.
Qed.

Lemma merge_left_In {L R' K O : Type} (eqb : K -> K -> bool)
      (lkey : L -> option K) (rkey : R' -> K) (attach : L -> option R' -> O)
      (left : list L) (right : list R') (l : L) :
  In l left ->
  exists o, In (attach l o) (merge_left eqb lkey rkey attach left right).
Proof.
  intros Hl. unfold merge_left.
  assert (E : exists o,
             In (attach l o)
                match lkey l with
                | None => [attach l None]
                | Some k =>
                    match filter (fun r => eqb (rkey r) k) right with
                    | [] => [attach l None]
                    | m :: ms => map (fun r => attach l (Some r)) (m :: ms)
                    end
                end).
  { destruct (lkey l) as [k|]; [|exists None; now left].
    destruct (filter (fun r => eqb (rkey r) k) right) as [|m ms];
      [exists None|exists (Some m)]; now left. }
  destruct E as [o Ho]. exists o. apply in_flat_map. exists l. split; assumption.
Qed.

(** Every stage keeps the sheet row and the derived columns of a row. *)
Section Stages.

Variable P : row -> derived -> Prop.

Local Abbreviation keeps := (Enricher.keeps P).

Lemma keeps_merge {R' : Type} (lkey : purchase -> option string)
      (rkey : R' -> string) (attach : purchase -> option R' -> purchase)
      (l : list purchase) (right : list R') :
  (forall p o, base (attach p o) = base p /\ calc (attach p o) = calc p) ->
  keeps l -> keeps (merge_left String.eqb lkey rkey attach l right).
Proof.
  intros A. apply merge_left_Forall. intros p o Hp.
  destruct (A p o) as [-> ->]. exact Hp.
Qed.

Lemma keeps_enhanced (df : frame row) :
  (forall r, In r (rows df) -> P r (derive (has_column df "unit_cost") r)) ->
  keeps (enhanced_rows df).
Proof.
  intros H. unfold enhanced_rows, with_product_ranks, with_locations,
    with_vendors, with_customers.
  apply keeps_merge; [now split|].
  assert (K2 : keeps (merge_vendor_stats
                        (merge_customer_totals
                           (map (derived_row (has_column df "unit_cost")) (rows df))
                           (customer_totals_of
                              (map (derived_row (has_column df "unit_cost"))
                                 (rows df))))
                        (vendor_stats_of
                           (merge_customer_totals
                              (map (derived_row (has_column df "unit_cost"))
                                 (rows df))
                              (customer_totals_of
                                 (map (derived_row (has_column df "unit_cost"))
                                    (rows df))))))).
  { apply keeps_merge; [now split|]. apply keeps_merge; [now split|].
    unfold Enricher.keeps. apply Forall_forall. intros p Hp.
    apply in_map_iff in Hp. destruct Hp as [r [<- Hr]]. simpl. now apply H. }
  destruct (has_column df "purchase_location"); [|exact K2].
  apply keeps_merge; [now split|exact K2].
Qed.

End Stages.

(** Every sheet row is the base of some enhanced row. *)
Lemma enhanced_rows_cover (df : frame row) (r : row) :
  In r (rows df) -> exists p, In p (enhanced_rows df) /\ base p = r.
Proof.
  intros Hr.
  set (p0 := derived_row (has_column df "unit_cost") r).
  assert (H0 : In p0 (map (derived_row (has_column df "unit_cost")) (rows df)))
    by now apply in_map.
  unfold enhanced_rows, with_product_ranks, with_locations, with_vendors,
    with_customers.
  destruct (merge_left_In String.eqb (fun p => customer_guid (base p))
              CustomerTotals.customer_guid with_customer _
              (customer_totals_of
                 (map (derived_row (has_column df "unit_cost")) (rows df)))
              p0 H0) as [o1 H1].
  fold (merge_customer_totals
          (map (derived_row (has_column df "unit_cost")) (rows df))
          (customer_totals_of
             (map (derived_row (has_column df "unit_cost")) (rows df)))) in H1.
  set (l1 := merge_customer_totals _ _) in *.
  destruct (merge_left_In String.eqb (fun p => vendor_name (base p))
              VendorStats.vendor_name with_vendor l1 (vendor_stats_of l1)
              _ H1) as [o2 H2].
  fold (merge_vendor_stats l1 (vendor_stats_of l1)) in H2.
  set (l2 := merge_vendor_stats _ _) in *.
  assert (H3 : exists p3,
             In p3 (if has_column df "purchase_location"
                    then merge_location_stats l2 (location_stats_of l2)
                    else l2)
             /\ base p3 = r).
  { destruct (has_column df "purchase_location").
    - destruct (merge_left_In String.eqb (fun p => purchase_location (base p))
                  LocationStats.purchase_location with_location l2
                  (location_stats_of l2) _ H2) as [o3 H3].
      eexists. split; [exact H3|reflexivity].
    - eexists. split; [exact H2|reflexivity]. }
  destruct H3 as [p3 [H3 B3]].
  set (l3 := if has_column df "purchase_location" then _ else _) in *.
  destruct (merge_left_In String.eqb (fun p => product_name (base p))
              ProductStats.product_name with_product_rank l3
              (product_stats_of l3) _ H3) as [o4 H4].
  eexists. split; [exact H4|exact B3].
Qed.

Lemma positive_price (x : Q) : negb (Qle_bool x 0) = true <-> 0 < x.
Proof.
  rewrite negb_true_iff. split.
  - intros H. apply Qnot_le_lt. intros L. apply Qle_bool_iff in L. congruence.
  - intros H. destruct (Qle_bool x 0) eqn:L; [|reflexivity].
    apply Qle_bool_iff in L. exfalso. now apply (Qlt_not_le 0 x).
Qed.

Ltac cells :=
  repeat match goal with
         | H : Some _ = Some _ |- _ => inversion H; subst; clear H
         | H : None = Some _ |- _ => discriminate H
         | H : Some _ = None |- _ => discriminate H
         end.

(** C1.  In the enhanced purchases table the columns Profit and
    ProfitMargin are always present, and every row of the purchases table is
    in it.  With a unit_cost column, on every row Profit = price - cost, and
    ProfitMargin = 100 * Profit / price when price > 0 and 0 otherwise (a
    null price counts as not above 0; a null cost makes Profit null, and
    ProfitMargin null where price > 0).  Without a unit_cost column Profit
    and ProfitMargin are 0 on every row. *)
Theorem profit_columns (df checkins_df : frame row) (e : enhanced) :
  create_enhanced_datasets df checkins_df = Return e ->
  let out := purchases_enhanced e in
  has_column out "Profit" = true
  /\ has_column out "ProfitMargin" = true
  /\ (forall r, In r (rows df) -> exists p, In p (rows out) /\ base p = r)
  /\ forall p, In p (rows out) ->
       In (base p) (rows df)
       /\ let price := purchase_price_w_discount (base p) in
          let cost := unit_cost (base p) in
          if has_column df "unit_cost" then
            (forall x c, price = Some x -> cost = Some c ->
                         Profit (calc p) = Some (x - c))
            /\ (forall x c, price = Some x -> cost = Some c -> 0 < x ->
                   exists m, ProfitMargin (calc p) = Some m
                             /\ m == 100 * (x - c) / x)
            /\ (forall x, price = Some x -> ~ 0 < x ->
                   ProfitMargin (calc p) = Some 0)
            /\ (price = None ->
                Profit (calc p) = None /\ ProfitMargin (calc p) = Some 0)
            /\ (cost = None ->
                Profit (calc p) = None
                /\ forall x, price = Some x -> 0 < x ->
                             ProfitMargin (calc p) = None)
          else Profit (calc p) = Some 0 /\ ProfitMargin (calc p) = Some 0.
Proof.
  intros H. apply create_enhanced_datasets_inv in H.
  destruct H as [_ [_ [E _]]]. cbv zeta. rewrite E. clear E. cbn [rows].
  split; [|split; [|split]].
  - unfold has_column. cbn [columns]. rewrite has_enhanced.
    destruct (has_column df "purchase_location"); apply orb_true_r.
  - unfold has_column. cbn [columns]. rewrite has_enhanced.
    destruct (has_column df "purchase_location"); apply orb_true_r.
  - apply enhanced_rows_cover.
  - pose proof (keeps_enhanced
                  (fun r d => In r (rows df)
                              /\ d = derive (has_column df "unit_cost") r)
                  df (fun r Hr => conj Hr eq_refl)) as K.
    unfold Enricher.keeps in K. rewrite Forall_forall in K.
    intros p Hp. destruct (K p Hp) as [Hb Hc]. split; [exact Hb|].
    rewrite Hc. unfold derive.
    destruct (has_column df "unit_cost"); [|now split].
    cbn [Profit ProfitMargin]. unfold minus, profit_margin.
    destruct (purchase_price_w_discount (base p)) as [x|];
      destruct (unit_cost (base p)) as [c|];
      (split; [|split; [|split; [|split]]]).
    all: clear K Hp Hb Hc.
    all: try (intros x' c' Hx Hc; cells; reflexivity).
    all: try (intros x' c' Hx Hc Hpos; cells;
              rewrite (proj2 (positive_price _) Hpos);
              eexists; split; [reflexivity|]; field;
              intros Z; rewrite Z in Hpos; now apply (Qlt_irrefl 0)).
    all: try (intros x' Hx Hn; cells;
              destruct (negb (Qle_bool x' 0)) eqn:N; [|reflexivity];
              apply positive_price in N; contradiction).
    all: try (intros Hx; cells; split; [reflexivity|];
              try reflexivity;
              intros x' Hx' Hpos; cells;
              now rewrite (proj2 (positive_price _) Hpos)).
    all: try (intros Hx; discriminate Hx).
    all: try (intros x' Hx; discriminate Hx).
    all: intros _; split; [reflexivity|]; intros x' Hx; discriminate Hx.
Qed.

(** C1, on the three-sale table with unit costs. *)
Lemma profit_columns_witness :
  exists e,
    create_enhanced_datasets Samples.three_sales_with_cost DataFrame = Return e
    /\ has_column (purchases_enhanced e) "Profit" = true.
Proof.
  eexists. split.
  - vm_compute. reflexivity.
  - refine (proj1 (profit_columns Samples.three_sales_with_cost DataFrame _ _)).
    vm_compute. reflexivity.
Defined.

End EnricherFacts.

(** ** Row counts *)

Module RowCountFacts.
Import Pandas Enricher PandasFacts EnricherFacts.

Lemma pair_eqb_eq (a b : string * string) : pair_eqb a b = true <-> a = b.
Proof.
  unfold pair_eqb. rewrite andb_true_iff, !String.eqb_eq.
  destruct a, b; simpl. split; [intros [-> ->]; reflexivity|].
  intros E. injection E as -> ->. auto.
Qed.

Lemma merge_left_copies {L R' O B : Type} (lkey : L -> option string)
      (rkey : R' -> string) (attach : L -> option R' -> O)
      (lb : L -> B) (ob : O -> B) (left : list L) (right : list R') :
  (forall l o, ob (attach l o) = lb l) ->
  map ob (merge_left String.eqb lkey rkey attach left right)
  = flat_map
      (fun l =>
         repeat (lb l)
           match lkey l with
           | Some k =>
               Nat.max 1 (List.length
                            (filter (fun r => String.eqb (rkey r) k) right))
           | None => 1%nat
           end)
      left.
Proof.
  intros A. unfold merge_left.
  induction left as [|l left IH]; [reflexivity|].
  cbn [flat_map]. rewrite map_app, IH. clear IH. f_equal.
  destruct (lkey l) as [k|]; [|cbn; now rewrite A].
  destruct (filter (fun r => String.eqb (rkey r) k) right) as [|m ms].
  - cbn. now rewrite A.
  - change (Nat.max 1 (List.length (m :: ms))) with (List.length (m :: ms)).
    rewrite map_map. generalize (m :: ms). intros l0.
    induction l0 as [|x l0 IH]; cbn; [reflexivity|]. now rewrite A, IH.
Qed.

Lemma flat_map_bases {B C : Type} (f : B -> list C) (g : purchase -> B)
      (l : list purchase) :
  flat_map (fun p => f (g p)) l = flat_map f (map g l).
Proof.
  induction l as [|p l IH]; cbn; [reflexivity|]. now rewrite IH.
Qed.

(** The three merges before the product merge keep one row per sheet row. *)
Lemma bases_with_customers (l : list purchase) :
  map base (with_customers l) = map base l.
Proof.
  unfold with_customers, merge_customer_totals.
  apply merge_left_one; [reflexivity|].
  unfold customer_totals_of. rewrite map_map. cbn.
  rewrite <- (map_map fst (fun k => k)), map_id, groupby_keys.
  apply NoDup_group_keys, String.eqb_eq.
Qed.

Lemma bases_with_vendors (l : list purchase) :
  map base (with_vendors l) = map base l.
Proof.
  unfold with_vendors, merge_vendor_stats.
  apply merge_left_one; [reflexivity|].
  unfold vendor_stats_of. rewrite map_map. cbn.
  rewrite <- (map_map fst (fun k => k)), map_id, groupby_keys.
  apply NoDup_group_keys, String.eqb_eq.
Qed.

Lemma bases_with_locations (b : bool) (l : list purchase) :
  map base (with_locations b l) = map base l.
Proof.
  unfold with_locations, merge_location_stats. destruct b; [|reflexivity].
  apply merge_left_one; [reflexivity|].
  unfold location_stats_of. rewrite map_map. cbn.
  rewrite <- (map_map fst (fun k => k)), map_id, groupby_keys.
  apply NoDup_group_keys, String.eqb_eq.
Qed.

Lemma bases_derived (b : bool) (sheet : list row) :
  map base (map (derived_row b) sheet) = sheet.
Proof. rewrite map_map. cbn. apply map_id. Qed.

Lemma filter_map_swap {A B : Type} (f : B -> bool) (g : A -> B) (l : list A) :
  filter f (map g l) = map g (filter (fun a => f (g a)) l).
Proof.
  induction l as [|a l IH]; cbn; [reflexivity|].
  destruct (f (g a)); cbn; now rewrite IH.
Qed.

Lemma filter_length_perm {A : Type} (f : A -> bool) (l l' : list A) :
  Permutation l l' ->
  List.length (filter f l) = List.length (filter f l').
Proof.
  intros P. induction P as [|x l l' P IH|x y l|l l' l'' P1 IH1 P2 IH2]; cbn.
  - reflexivity.
  - destruct (f x); cbn; now rewrite IH.
  - destruct (f x), (f y); reflexivity.
  - now rewrite IH1.
Qed.

Lemma dedupe_under (n : string) (l : list (string * string)) :
  (forall k, In k l -> fst k = n) ->
  map snd (dedupe pair_eqb l) = dedupe String.eqb (map snd l).
Proof.
  induction l as [|a l IH]; intros H; cbn; [reflexivity|].
  f_equal. rewrite <- IH by (intros k Hk; apply H; now right).
  rewrite filter_map_swap. f_equal.
  apply filter_ext_in. intros k Hk.
  apply (proj1 (In_dedupe pair_eqb pair_eqb_eq _ _)) in Hk.
  unfold pair_eqb. rewrite (H a (or_introl eq_refl)), (H k (or_intror Hk)).
  now rewrite String.eqb_refl.
Qed.

Lemma non_null_some {A : Type} (a : A) (cells : list (option A)) :
  non_null (Some a :: cells) = a :: non_null cells.
Proof. reflexivity. Qed.

Lemma non_null_none {A : Type} (cells : list (option A)) :
  non_null (None :: cells) = non_null cells.
Proof. reflexivity. Qed.

Lemma vendors_under (n : string) (sheet : list row) :
  map snd (filter (under n) (non_null (map row_key sheet)))
  = non_null (map vendor_name (filter (sells n) sheet)).
Proof.
  induction sheet as [|r sheet IH]; [reflexivity|].
  cbn [map filter]. unfold sells at 1, row_key at 1.
  destruct (product_name r) as [m|]; [|rewrite non_null_none; exact IH].
  destruct (vendor_name r) as [v|] eqn:V.
  - rewrite non_null_some. cbn [filter]. unfold under at 1. cbn [fst].
    destruct (String.eqb m n); [|exact IH].
    cbn [map snd]. rewrite V, non_null_some. now f_equal.
  - rewrite non_null_none.
    destruct (String.eqb m n); [|exact IH].
    cbn [map]. rewrite V, non_null_none. exact IH.
Qed.

(** The product statistics hold one row per distinct vendor of a product. *)
Lemma product_matches (l : list purchase) (n : string) :
  List.length
    (filter (fun s => String.eqb (ProductStats.product_name s) n)
       (product_stats_of l))
  = List.length (vendors_of (map base l) n).
Proof.
  unfold product_stats_of, groupby.
  rewrite !map_map, filter_map_swap, length_map. cbn.
  change (fun a : string * string => String.eqb (fst a) n) with (under n).
  unfold group_keys.
  rewrite (filter_length_perm (under n) _ _ (sort_perm pair_leb _)).
  rewrite (filter_dedupe pair_eqb pair_eqb_eq).
  rewrite <- (length_map snd).
  rewrite (dedupe_under n).
  - unfold vendors_of. rewrite <- vendors_under. rewrite (map_map base row_key).
    reflexivity.
  - intros k Hk. apply filter_In in Hk. destruct Hk as [_ Hk].
    now apply String.eqb_eq in Hk.
Qed.

(** Row by row, what the product merge keeps of the sheet. *)
Lemma bases_with_product_ranks (l : list purchase) :
  map base (with_product_ranks l)
  = flat_map (fun r => repeat r (copies (map base l) r)) (map base l).
Proof.
  unfold with_product_ranks, merge_product_rank.
  rewrite (merge_left_copies _ _ _ base base) by reflexivity.
  rewrite <- (flat_map_bases (fun r => repeat r (copies (map base l) r)) base).
  apply flat_map_ext. intros p. unfold copies.
  destruct (product_name (base p)) as [n|]; [|reflexivity].
  now rewrite product_matches.
Qed.

Lemma bases_enhanced (df : frame row) :
  map base (enhanced_rows df)
  = flat_map (fun r => repeat r (copies (rows df) r)) (rows df).
Proof.
  unfold enhanced_rows.
  rewrite bases_with_product_ranks, bases_with_locations, bases_with_vendors,
    bases_with_customers, bases_derived.
  reflexivity.
Qed.

Lemma flat_map_single {A : Type} (c : A -> nat) (l : list A) :
  (forall a, In a l -> c a = 1%nat) ->
  flat_map (fun a => repeat a (c a)) l = l.
Proof.
  induction l as [|a l IH]; intros H; cbn; [reflexivity|].
  rewrite (H a (or_introl eq_refl)). cbn. f_equal. apply IH.
  intros x Hx. apply H. now right.
Qed.

Lemma flat_map_length_ge {A : Type} (c : A -> nat) (l : list A) :
  (forall a, (1 <= c a)%nat) ->
  (List.length l <= List.length (flat_map (fun a => repeat a (c a)) l))%nat.
Proof.
  intros H. induction l as [|a l IH]; cbn; [lia|].
  rewrite length_app, repeat_length. specialize (H a). lia.
Qed.

Lemma flat_map_length_gt {A : Type} (c : A -> nat) (l : list A) (a : A) :
  (forall x, (1 <= c x)%nat) -> In a l -> (1 < c a)%nat ->
  (List.length l < List.length (flat_map (fun x => repeat x (c x)) l))%nat.
Proof.
  intros H. induction l as [|b l IH]; cbn; [tauto|].
  intros [->|Ha] Hc; rewrite length_app, repeat_length.
  - pose proof (flat_map_length_ge c l H). lia.
  - specialize (IH Ha Hc). specialize (H b). lia.
Qed.

Lemma copies_positive (sheet : list row) (r : row) : (1 <= copies sheet r)%nat.
Proof. unfold copies. destruct (product_name r); lia. Qed.

(** C10.  The enhanced purchases table holds, in sheet order, each sheet row
    once when its product name is null or sold under at most one vendor, and
    k times when its product name is sold under k > 1 distinct vendors.  So
    a sheet in which every product name has one vendor keeps exactly one
    row per input row; a sheet with a product name under k > 1 vendors gets
    more rows than it had; and such a sheet exists. *)
Theorem enrichment_row_count :
  (forall df checkins_df e,
      create_enhanced_datasets df checkins_df = Return e ->
      let out := rows (purchases_enhanced e) in
      map base out
      = flat_map (fun r => repeat r (copies (rows df) r)) (rows df)
      /\ ((forall r n, In r (rows df) -> product_name r = Some n ->
                       (List.length (vendors_of (rows df) n) <= 1)%nat) ->
          map base out = rows df /\ List.length out = List.length (rows df))
      /\ (forall r n k,
             In r (rows df) -> product_name r = Some n ->
             List.length (vendors_of (rows df) n) = k -> (1 < k)%nat ->
             copies (rows df) r = k
             /\ (List.length (rows df) < List.length out)%nat))
  /\ exists df e,
      create_enhanced_datasets df DataFrame = Return e
      /\ List.length (rows df) = 2%nat
      /\ Forall (fun r => List.length
                            (vendors_of (rows df) "chalk") = 2%nat
                          /\ product_name r = Some "chalk") (rows df)
      /\ List.length (rows (purchases_enhanced e)) = 4%nat.
Proof.
  split.
  - intros df checkins_df e H. apply create_enhanced_datasets_inv in H.
    destruct H as [_ [_ [E _]]]. cbv zeta. rewrite E. cbn [rows]. clear E.
    pose proof (bases_enhanced df) as B.
    split; [exact B|split].
    + intros H1.
      assert (M : map base (enhanced_rows df) = rows df).
      { rewrite B. apply flat_map_single. intros r Hr. unfold copies.
        destruct (product_name r) as [n|] eqn:N; [|reflexivity].
        specialize (H1 r n Hr N). lia. }
      split; [exact M|].
      now rewrite <- (length_map base (enhanced_rows df)), M.
    + intros r n k Hr N L K.
      assert (C : copies (rows df) r = k).
      { unfold copies. rewrite N, L. lia. }
      split; [exact C|].
      rewrite <- (length_map base (enhanced_rows df)), B.
      apply (flat_map_length_gt _ _ r); [apply copies_positive|exact Hr|lia].
  - exists Samples.shared_product. eexists. split; [vm_compute; reflexivity|].
    split; [reflexivity|]. split; [|reflexivity].
    repeat constructor.
Qed.

(** C10, on the sheet with one product name under two vendors. *)
Lemma enrichment_row_count_witness :
  exists e,
    create_enhanced_datasets Samples.shared_product DataFrame = Return e
    /\ (List.length (rows Samples.shared_product)
        < List.length (rows (purchases_enhanced e)))%nat.
Proof.
  eexists. split.
  - vm_compute. reflexivity.
  - refine (proj2 (proj2 (proj2 (proj1 enrichment_row_count
                                   Samples.shared_product DataFrame _ _))
                     (Samples.sale 1 9 "c1" "vendorA" "chalk" 10 0)
                     "chalk" 2%nat _ _ _ _)).
    + vm_compute. reflexivity.
    + left. reflexivity.
    + reflexivity.
    + reflexivity.
    + lia.
Defined.

End RowCountFacts.

(** ** Aggregator *)

Module AggregatorFacts.
Import Pandas Enricher Aggregator PandasFacts EnricherFacts.

Lemma create_summary_tables_ready (purchases_df : frame purchase)
      (checkins_df : frame checkin) (s : summaries) :
  create_summary_tables purchases_df checkins_df = Return s ->
  summary_ready purchases_df = true.
Proof.
  unfold create_summary_tables, summary_ready, summary_columns, require.
  cbn [forallb]. intros H.
  repeat match type of H with
         | context [if has_column purchases_df ?l then Return tt else _] =>
             destruct (has_column purchases_df l);
             [cbn [bind] in H|discriminate H]
         end.
  reflexivity.
Qed.

Lemma create_summary_tables_spec (purchases_df : frame purchase)
      (checkins_df : frame checkin) :
  summary_ready purchases_df = true ->
  let l := rows purchases_df in
  create_summary_tables purchases_df checkins_df =
  Return
    {| kpis := baseline_kpis l ++ profit_metrics l;
       hourly_sales :=
         sales_by Z.eqb Z.leb (fun p => Hour (calc p))
                  (fun p => customer_guid (base p)) l;
       daily_sales :=
         sales_by String.eqb String.leb (fun p => DayOfWeek (calc p))
                  (fun p => customer_guid (base p)) l;
       top_vendors :=
         head 20 (sort_descending TopVendors.TotalSales (vendor_sales true l));
       top_customers :=
         head 50 (sort_descending TopCustomers.TotalSpent (customer_sales l));
       top_locations :=
         if has_column purchases_df "purchase_location"
         then Some (sort_descending Sales.TotalSales
                      (sales_by String.eqb String.leb
                                (fun p => purchase_location (base p))
                                (fun p => purchase_date (base p)) l))
         else None |}.
Proof.
  unfold summary_ready, summary_columns. cbn [forallb]. intros H.
  repeat (apply andb_true_iff in H; destruct H as [?H H]).
  unfold create_summary_tables, require. cbv zeta.
  repeat match goal with
         | E : has_column purchases_df _ = true |- _ => rewrite E; clear E
         end.
  reflexivity.
Qed.

(** *** Sums of rationals *)

Lemma sum_cons (c : option Q) (cells : list (option Q)) :
  sum (c :: cells) == value c + sum cells.
Proof.
  destruct c as [q|]; unfold sum; cbn; [reflexivity|]. now rewrite Qplus_0_l.
Qed.

Lemma total_perm {A : Type} (f : A -> Q) (l l' : list A) :
  Permutation l l' -> total f l == total f l'.
Proof.
  unfold total.
  intros P. induction P as [|x l l' P IH|x y l|l l' l'' P1 IH1 P2 IH2]; cbn.
  - reflexivity.
  - now rewrite IH.
  - rewrite !Qplus_assoc. now rewrite (Qplus_comm (f y) (f x)).
  - now rewrite IH1.
Qed.

Lemma total_plus {A : Type} (f g : A -> Q) (l : list A) :
  total (fun a => f a + g a) l == total f l + total g l.
Proof.
  unfold total. induction l as [|a l IH]; cbn; [reflexivity|].
  rewrite IH. ring.
Qed.

Lemma total_ext {A : Type} (f g : A -> Q) (l : list A) :
  (forall a, In a l -> f a == g a) -> total f l == total g l.
Proof.
  unfold total. induction l as [|a l IH]; cbn; intros H; [reflexivity|].
  rewrite (H a (or_introl eq_refl)), IH; [reflexivity|].
  intros x Hx. apply H. now right.
Qed.

Lemma total_zero {A : Type} (f : A -> Q) (l : list A) :
  (forall a, In a l -> f a == 0) -> total f l == 0.
Proof.
  unfold total. induction l as [|a l IH]; cbn; intros H; [reflexivity|].
  rewrite (H a (or_introl eq_refl)), IH; [reflexivity|].
  intros x Hx. apply H. now right.
Qed.

(** Among keys without repetition, one key picks its amount once. *)
Lemma total_pick (ks : list string) (k0 : string) (x : Q) :
  NoDup ks -> In k0 ks ->
  total (fun k => if String.eqb k0 k then x else 0) ks == x.
Proof.
  unfold total. induction ks as [|k ks IH]; cbn; intros N H; [tauto|].
  inversion N as [|? ? Hn N']; subst.
  destruct (String.eqb k0 k) eqn:E.
  - apply String.eqb_eq in E. subst k.
    rewrite (total_zero (fun k => if String.eqb k0 k then x else 0) ks).
    + ring.
    + intros a Ha. destruct (String.eqb k0 a) eqn:E; [|reflexivity].
      apply String.eqb_eq in E. subst a. contradiction.
  - destruct H as [H|H]; [subst; now rewrite String.eqb_refl in E|].
    rewrite (IH N' H). ring.
Qed.

Section GroupTotals.

Variable key : purchase -> option string.

Local Abbreviation keyed := (Aggregator.keyed key).

(** The per-group sums of a column add up to its sum over the keyed rows. *)
Lemma group_totals (ks : list string) (l : list purchase) :
  NoDup ks ->
  (forall p k, In p l -> key p = Some k -> In k ks) ->
  total (fun k => sum (prices (filter (in_group String.eqb key k) l))) ks
  == sum (prices (filter keyed l)).
Proof.
  intros N. induction l as [|p l IH]; intros H.
  - cbn. apply total_zero. reflexivity.
  - assert (Hl : forall q k, In q l -> key q = Some k -> In k ks)
      by (intros q k Hq; apply H; now right).
    specialize (IH Hl).
    rewrite (total_ext _
               (fun k => (if in_group String.eqb key k p
                          then value (Enricher.price p) else 0)
                         + sum (prices (filter (in_group String.eqb key k) l)))).
    2:{ intros k _. cbn [filter].
        destruct (in_group String.eqb key k p).
        - unfold prices, Enricher.prices. cbn [map]. apply sum_cons.
        - now rewrite Qplus_0_l. }
    rewrite total_plus, IH. cbn [filter]. unfold Aggregator.keyed at 2, in_group.
    destruct (key p) as [k0|] eqn:K.
    + unfold prices, Enricher.prices. cbn [map]. rewrite sum_cons.
      rewrite (total_pick ks k0 _ N (H p k0 (or_introl eq_refl) K)).
      reflexivity.
    + rewrite total_zero by reflexivity. now rewrite Qplus_0_l.
Qed.

End GroupTotals.

Lemma vendor_sales_length (b : bool) (l : list purchase) :
  List.length (vendor_sales b l) = nunique String.eqb (map vendor_of l).
Proof.
  unfold vendor_sales, groupby, group_keys, nunique.
  rewrite !length_map.
  apply Permutation_length, sort_perm.
Qed.

Lemma vendor_sales_total (b : bool) (l : list purchase) :
  total_sales (vendor_sales b l) == sum (prices (filter (keyed vendor_of) l)).
Proof.
  unfold total_sales, vendor_sales, groupby. rewrite !map_map. cbn.
  apply (group_totals vendor_of (group_keys String.eqb String.leb vendor_of l)).
  - apply NoDup_group_keys, String.eqb_eq.
  - intros p k Hp Hk. apply (In_group_keys _ _ _ String.eqb_eq). eauto.
Qed.

Lemma top_vendors_inv (purchases_df : frame purchase)
      (checkins_df : frame checkin) (s : summaries) :
  create_summary_tables purchases_df checkins_df = Return s ->
  top_vendors s
  = head 20 (sort_descending TopVendors.TotalSales
               (vendor_sales true (rows purchases_df))).
Proof.
  intros H. pose proof (create_summary_tables_ready _ _ _ H) as R.
  rewrite (create_summary_tables_spec _ checkins_df R) in H.
  injection H as <-. reflexivity.
Qed.

(** C4 (as the code has it).  When the table has at most 20 distinct vendors
    and no row with a null vendor name, the TotalSales column of top_vendors
    adds up to the sum of purchase_price_w_discount over all rows. *)
Theorem top_vendors_reconcile (purchases_df : frame purchase)
        (checkins_df : frame checkin) (s : summaries) :
  create_summary_tables purchases_df checkins_df = Return s ->
  (nunique String.eqb (map vendor_of (rows purchases_df)) <= 20)%nat ->
  (forall p, In p (rows purchases_df) -> vendor_name (base p) <> None) ->
  total_sales (top_vendors s) == sum (prices (rows purchases_df)).
Proof.
  intros H N V.
  rewrite (top_vendors_inv _ _ _ H). clear H.
  set (l := rows purchases_df) in *.
  unfold head. rewrite firstn_all2.
  2:{ unfold sort_descending.
      rewrite (Permutation_length (sort_perm _ (vendor_sales true l))).
      now rewrite vendor_sales_length. }
  change (total_sales ?x) with (total TopVendors.TotalSales x).
  unfold sort_descending.
  rewrite (total_perm TopVendors.TotalSales _ _
             (sort_perm _ (vendor_sales true l))).
  change (total TopVendors.TotalSales ?x) with (total_sales x).
  rewrite vendor_sales_total.
  rewrite (filter_all (keyed vendor_of) l); [reflexivity|].
  intros p Hp. specialize (V p Hp). unfold Aggregator.keyed, vendor_of.
  destruct (vendor_name (base p)); [reflexivity|congruence].
Qed.

(** C4 as worded: the sums are equal for every enriched table.  With 21
    vendors selling for 1 each, top_vendors keeps 20 of them. *)
Lemma top_vendors_truncated :
  exists e s,
    create_enhanced_datasets Samples.many_vendors DataFrame = Return e
    /\ create_summary_tables (purchases_enhanced e) (checkins_enhanced e)
       = Return s
    /\ total_sales (top_vendors s) == 20
    /\ sum (prices (rows (purchases_enhanced e))) == 21
    /\ ~ total_sales (top_vendors s)
         == sum (prices (rows (purchases_enhanced e))).
Proof.
  eexists. eexists.
  split; [vm_compute; reflexivity|].
  split; [vm_compute; reflexivity|].
  split; [vm_compute; reflexivity|].
  split; [vm_compute; reflexivity|].
  vm_compute. discriminate.
Qed.

(** C4, on the three-sale table. *)
Lemma top_vendors_reconcile_witness :
  exists e s,
    create_enhanced_datasets Samples.three_sales DataFrame = Return e
    /\ create_summary_tables (purchases_enhanced e) (checkins_enhanced e)
       = Return s
    /\ total_sales (top_vendors s)
       == sum (prices (rows (purchases_enhanced e))).
Proof.
  eexists. eexists.
  split; [vm_compute; reflexivity|].
  split; [vm_compute; reflexivity|].
  refine (top_vendors_reconcile _ DataFrame _ _ _ _).
  - vm_compute. reflexivity.
  - vm_compute. lia.
  - intros p Hp. cbn in Hp.
    destruct Hp as [<-|[<-|[<-|[]]]]; discriminate.
Defined.

End AggregatorFacts.

(** ** Exporter *)

Module ExporterFacts.
Import Pandas Enricher Aggregator Exporter.
Import PandasFacts EnricherFacts AggregatorFacts.

Lemma export_for_powerbi_inv (now : Z) (df checkins_df : frame row) (x : export) :
  export_for_powerbi now df checkins_df = Return x ->
  exists e s,
    create_enhanced_datasets df checkins_df = Return e
    /\ create_summary_tables (purchases_enhanced e) (checkins_enhanced e)
       = Return s
    /\ kpis_csv x = kpis s
    /\ written x
       = non_null (listed (checkins_enhanced e) (purchases_enhanced e))
         ++ ["metadata.json"]
    /\ metadata_json x
       = {| export_timestamp := now;
            purchases_count := len (purchases_enhanced e);
            checkins_count :=
              if negb (empty (checkins_enhanced e))
              then len (checkins_enhanced e) else 0%nat;
            date_range :=
              (minimum (map (fun p => purchase_date (base p))
                          (rows (purchases_enhanced e))),
               maximum (map (fun p => purchase_date (base p))
                          (rows (purchases_enhanced e))));
            files_exported :=
              listed (checkins_enhanced e) (purchases_enhanced e) |}.
Proof.
  unfold export_for_powerbi. intros H.
  destruct (create_enhanced_datasets df checkins_df) as [e|] eqn:E;
    [|discriminate H].
  cbn [bind] in H.
  destruct (create_summary_tables (purchases_enhanced e) (checkins_enhanced e))
    as [s|] eqn:S; [|discriminate H].
  cbn [bind] in H.
  destruct (require (purchases_enhanced e) "purchase_date") as [u|];
    [|discriminate H].
  cbn [bind] in H. injection H as <-.
  exists e, s. split; [reflexivity|]. split; [exact S|].
  split; [reflexivity|]. split; [|reflexivity].
  cbn [written]. f_equal.
  pose proof (create_summary_tables_ready _ _ _ S) as R.
  rewrite (create_summary_tables_spec _ (checkins_enhanced e) R) in S.
  injection S as <-. unfold names, listed. cbn [top_locations].
  destruct (negb (empty (checkins_enhanced e)));
    destruct (has_column (purchases_enhanced e) "purchase_location");
    reflexivity.
Qed.

Lemma enhanced_summary_ready (df : frame row) (l : list purchase) :
  purchases_ready df = true ->
  summary_ready {| columns := enhanced_columns df; rows := l |} = true.
Proof.
  intros Hr. pose proof (purchases_ready_inv df Hr) as Hc.
  assert (H1 := Hc "purchase_date" ltac:(simpl; tauto)).
  assert (H2 := Hc "customer_guid" ltac:(simpl; tauto)).
  assert (H3 := Hc "purchase_price_w_discount" ltac:(simpl; tauto)).
  assert (H4 := Hc "vendor_name" ltac:(simpl; tauto)).
  unfold summary_ready, summary_columns. cbn [forallb].
  unfold has_column at 1 2 3 4 5 6 7. cbn [columns]. rewrite !has_enhanced.
  rewrite H1, H2, H3, H4. cbn [orb andb].
  destruct (has_column df "purchase_location");
    repeat match goal with
           | |- context [existsb ?f (added_columns ?b)] =>
               let v := eval vm_compute in (existsb f (added_columns b)) in
               change (existsb f (added_columns b)) with v
           end;
    now rewrite !orb_true_r.
Qed.

(** The export returns whenever the purchases table has the columns the
    enricher reads and the check-in half returns. *)
Lemma export_for_powerbi_returns (now : Z) (df checkins_df : frame row)
      (checkins : frame checkin) :
  purchases_ready df = true ->
  enhance_checkins checkins_df = Return checkins ->
  exists x, export_for_powerbi now df checkins_df = Return x.
Proof.
  intros Hr Hc. unfold export_for_powerbi.
  rewrite (create_enhanced_datasets_spec df checkins_df Hr), Hc.
  cbn [bind purchases_enhanced checkins_enhanced].
  rewrite (create_summary_tables_spec _ checkins
             (enhanced_summary_ready df (enhanced_rows df) Hr)).
  cbn [bind].
  rewrite require_ok.
  - cbn [bind]. eexists. reflexivity.
  - rewrite has_enhanced.
    now rewrite (purchases_ready_inv df Hr "purchase_date" ltac:(simpl; tauto)).
Qed.

Lemma sum_zeros (cells : list (option Q)) :
  Forall (fun c => c = Some 0) cells -> sum cells == 0.
Proof.
  intros F. induction F as [|c cells -> F IH]; [reflexivity|].
  rewrite sum_cons, IH. reflexivity.
Qed.

(** C5 (as the code has it).  Whenever [create_summary_tables] returns, the
    table it was given has a Profit column and kpis lists the five baseline
    metrics followed by Total Profit and Profit Margin.  The enhanced table
    always has a Profit column, so every export writes these seven metrics;
    for a purchases table without a unit-cost column Total Profit is 0. *)
Theorem kpis_metrics :
  (forall purchases_df checkins_df s,
      create_summary_tables purchases_df checkins_df = Return s ->
      has_column purchases_df "Profit" = true
      /\ map Kpi.Metric (kpis s) = seven_metrics)
  /\ (forall now df checkins_df x,
         export_for_powerbi now df checkins_df = Return x ->
         map Kpi.Metric (kpis_csv x) = seven_metrics
         /\ (has_column df "unit_cost" = false ->
             exists v, In {| Kpi.Metric := "Total Profit";
                             Kpi.Value := Some v;
                             Kpi.Format := "Currency" |} (kpis_csv x)
                       /\ v == 0)).
Proof.
  assert (A : forall purchases_df checkins_df s,
             create_summary_tables purchases_df checkins_df = Return s ->
             has_column purchases_df "Profit" = true
             /\ kpis s = baseline_kpis (rows purchases_df)
                         ++ profit_metrics (rows purchases_df)).
  { intros purchases_df checkins_df s H.
    pose proof (create_summary_tables_ready _ _ _ H) as R.
    rewrite (create_summary_tables_spec _ checkins_df R) in H.
    injection H as <-. split; [|reflexivity].
    unfold summary_ready in R. rewrite forallb_forall in R.
    apply R. unfold summary_columns. simpl. tauto. }
  split.
  - intros purchases_df checkins_df s H. destruct (A _ _ _ H) as [P K].
    split; [exact P|]. now rewrite K.
  - intros now df checkins_df x H.
    apply export_for_powerbi_inv in H.
    destruct H as [e [s [E [S [K _]]]]]. rewrite K.
    destruct (A _ _ _ S) as [_ Ks]. rewrite Ks. split; [reflexivity|].
    intros U. exists (sum (profits (rows (purchases_enhanced e)))).
    split; [apply in_or_app; right; now left|].
    apply create_enhanced_datasets_inv in E. destruct E as [_ [_ [E _]]].
    rewrite E. cbn [rows]. apply sum_zeros. unfold profits.
    apply Forall_map.
    pose proof (keeps_enhanced (fun r d => Profit d = Some 0) df) as Kp.
    apply Kp. intros r _. unfold derive. now rewrite U.
Qed.

(** C5 as worded: a purchases table without a unit-cost column exports a
    kpis table of exactly the five baseline metrics.  The three-sale table
    has no unit-cost column and exports seven. *)
Lemma kpis_always_seven :
  exists x,
    export_for_powerbi 0 Samples.three_sales DataFrame = Return x
    /\ has_column Samples.three_sales "unit_cost" = false
    /\ List.length (kpis_csv x) = 7%nat
    /\ In "Total Profit" (map Kpi.Metric (kpis_csv x))
    /\ In "Profit Margin" (map Kpi.Metric (kpis_csv x)).
Proof.
  eexists. split; [vm_compute; reflexivity|].
  split; [reflexivity|]. split; [reflexivity|].
  split; cbn; tauto.
Qed.

(** C5, on the three-sale table. *)
Lemma kpis_metrics_witness :
  exists x,
    export_for_powerbi 0 Samples.three_sales DataFrame = Return x
    /\ map Kpi.Metric (kpis_csv x) = seven_metrics.
Proof.
  eexists. split.
  - vm_compute. reflexivity.
  - refine (proj1 (proj2 kpis_metrics 0%Z Samples.three_sales DataFrame _ _)).
    vm_compute. reflexivity.
Defined.

(** C6 (as the code has it).  The metadata record holds the export
    timestamp, the purchase row count, the check-in row count (0 for an
    empty check-ins table), the earliest and latest purchase_date, and a
    file list of always ten entries: the entry of a skipped file is null
    rather than left out, and the entries that are not null are, in order,
    exactly the table files written before metadata.json. *)
Theorem metadata_record (now : Z) (df checkins_df : frame row) (x : export) :
  export_for_powerbi now df checkins_df = Return x ->
  exists e,
    create_enhanced_datasets df checkins_df = Return e
    /\ let m := metadata_json x in
       let purchases := purchases_enhanced e in
       let checkins := checkins_enhanced e in
       let dates := map (fun p => purchase_date (base p)) (rows purchases) in
       export_timestamp m = now
       /\ purchases_count m = len purchases
       /\ checkins_count m = (if empty checkins then 0%nat else len checkins)
       /\ date_range m = (minimum dates, maximum dates)
       /\ List.length (files_exported m) = 10%nat
       /\ written x = non_null (files_exported m) ++ ["metadata.json"]
       /\ (In (Some "checkins_enhanced.csv") (files_exported m)
           <-> empty checkins = false)
       /\ (In (Some "top_locations.csv") (files_exported m)
           <-> has_column purchases "purchase_location" = true)
       /\ (In None (files_exported m)
           <-> empty checkins = true
               \/ has_column purchases "purchase_location" = false).
Proof.
  intros H. apply export_for_powerbi_inv in H.
  destruct H as [e [s [E [_ [_ [W M]]]]]].
  exists e. split; [exact E|]. cbv zeta. rewrite M, W.
  cbn [export_timestamp purchases_count checkins_count date_range
       files_exported].
  split; [reflexivity|]. split; [reflexivity|].
  split; [now destruct (empty (checkins_enhanced e))|].
  split; [reflexivity|]. split; [reflexivity|]. split; [reflexivity|].
  unfold listed.
  destruct (empty (checkins_enhanced e));
    destruct (has_column (purchases_enhanced e) "purchase_location");
    cbn; repeat split; intros; try discriminate; try tauto;
    repeat match goal with
           | H : _ \/ _ |- _ => destruct H
           end;
    try discriminate; try tauto.
Qed.

(** C6 as worded: a skipped file is left out of the list, which holds only
    names of written files.  The three-sale table has no location column
    and no check-ins: its list has ten entries, two of them null, for eight
    table files written. *)
Lemma skipped_files_listed_as_null :
  exists x,
    export_for_powerbi 0 Samples.three_sales DataFrame = Return x
    /\ List.length (files_exported (metadata_json x)) = 10%nat
    /\ List.length (written x) = 9%nat
    /\ In None (files_exported (metadata_json x))
    /\ ~ Forall (fun entry => exists name, entry = Some name
                                          /\ In name (written x))
                (files_exported (metadata_json x)).
Proof.
  eexists. split; [vm_compute; reflexivity|].
  split; [reflexivity|]. split; [reflexivity|].
  split; [cbn; tauto|].
  intros F. rewrite Forall_forall in F.
  destruct (F None) as [name [E _]]; [cbn; tauto|discriminate E].
Qed.

(** C6, on the three-sale table. *)
Lemma metadata_record_witness :
  exists x,
    export_for_powerbi 0 Samples.three_sales DataFrame = Return x
    /\ purchases_count (metadata_json x) = 3%nat
    /\ exists e, create_enhanced_datasets Samples.three_sales DataFrame
                 = Return e.
Proof.
  eexists. split; [vm_compute; reflexivity|].
  split; [reflexivity|].
  refine (let (e, H) := metadata_record 0%Z Samples.three_sales DataFrame _ _ in
          ex_intro _ e (proj1 H)).
  vm_compute. reflexivity.
Defined.

Lemma not_in_by_eqb (name : string) (l : list string) :
  existsb (String.eqb name) l = false -> ~ In name l.
Proof.
  intros E H. assert (T : existsb (String.eqb name) l = true).
  { apply existsb_exists. exists name. split; [exact H|apply String.eqb_refl]. }
  congruence.
Qed.

Lemma enhance_checkins_empty (checkins_df : frame row) :
  empty checkins_df = true -> enhance_checkins checkins_df = Return DataFrame.
Proof. unfold enhance_checkins. now intros ->. Qed.

(** With an empty check-ins table the export goes through whenever it goes
    through with some check-ins table. *)
Lemma export_without_checkins (now : Z) (df c : frame row) (x : export) :
  export_for_powerbi now df c = Return x ->
  exists x' e',
    export_for_powerbi now df DataFrame = Return x'
    /\ create_enhanced_datasets df DataFrame = Return e'
    /\ checkins_enhanced e' = DataFrame
    /\ checkins_count (metadata_json x') = 0%nat
    /\ ~ In "checkins_enhanced.csv" (written x')
    /\ ~ In (Some "checkins_enhanced.csv") (files_exported (metadata_json x')).
Proof.
  intros H. apply export_for_powerbi_inv in H.
  destruct H as [e0 [_ [E0 _]]].
  apply create_enhanced_datasets_inv in E0. destruct E0 as [Hr _].
  destruct (export_for_powerbi_returns now df DataFrame DataFrame Hr eq_refl)
    as [x' X].
  destruct (export_for_powerbi_inv _ _ _ _ X) as [e [s [E [_ [_ [W M]]]]]].
  exists x', e. split; [exact X|]. split; [exact E|].
  apply create_enhanced_datasets_inv in E.
  destruct E as [_ [C _]]. cbn in C. injection C as C.
  rewrite W, M, <- C. cbn [files_exported checkins_count].
  split; [reflexivity|]. split; [reflexivity|].
  unfold listed. cbn [empty columns DataFrame negb].
  destruct (has_column (purchases_enhanced e) "purchase_location"); split.
  + apply not_in_by_eqb. reflexivity.
  + cbn. intros H. repeat (destruct H as [H|H]; [discriminate H|]). exact H.
  + apply not_in_by_eqb. reflexivity.
  + cbn. intros H. repeat (destruct H as [H|H]; [discriminate H|]). exact H.
Qed.

(** C8 (as the code has it).  From a workbook that was read, both loaders
    return as purchases table the first sheet whose name contains
    "purchase" in any letter case, or the first sheet when there is none,
    and as check-ins table the first sheet whose name contains "checkin", or
    [pd.DataFrame()] when there is none; without a URL this holds for the
    path given as for the default files.  In that last case the check-ins
    table has no rows and no columns, and the enricher returns an empty
    check-ins table without any check-in column, raising nothing on its
    account: whenever the export of a purchases table goes through with
    some check-ins table, it goes through with this empty one, counts 0
    check-ins, writes no check-in file and lists none; and an export that
    raises with the empty check-ins table raises with every check-ins
    table. *)
Theorem sheet_selection (first : string * frame row)
        (rest : Loader.workbook (frame row))
        (content : Loader.source (frame row)) :
  let xls := first :: rest in
  let purchases := Loader.purchases_sheet (frame row) first rest in
  let checkins := Loader.checkins_sheet (frame row) DataFrame xls in
  Loader.read_all_sheets content = Return xls ->
  (forall status,
      Loader.is_http_error status = false ->
      Loader.load_data_from_sharepoint (frame row) DataFrame
        (Loader.Response status content)
      = Return (purchases, checkins))
  /\ (forall w filepath url status,
         Loader.nonempty url = true ->
         Loader.http_get w url = Loader.Response status content ->
         Loader.is_http_error status = false ->
         Loader.load_data (frame row) DataFrame w filepath (Some url)
         = Return (purchases, checkins))
  /\ (forall w filepath url path,
         Loader.no_url url = true ->
         Loader.candidate (frame row) w filepath path ->
         Loader.file_exists w path = true ->
         Loader.file_source w path = content ->
         Loader.load_data (frame row) DataFrame w filepath url
         = Return (purchases, checkins))
  /\ (find (Loader.named (frame row) "checkin") xls = None ->
      checkins = DataFrame
      /\ len checkins = 0%nat
      /\ columns checkins = []
      /\ enhance_checkins checkins = Return DataFrame
      /\ forall now df,
          (forall c x,
              export_for_powerbi now df c = Return x ->
              exists x' e',
                export_for_powerbi now df checkins = Return x'
                /\ create_enhanced_datasets df checkins = Return e'
                /\ checkins_enhanced e' = DataFrame
                /\ checkins_count (metadata_json x') = 0%nat
                /\ ~ In "checkins_enhanced.csv" (written x')
                /\ ~ In (Some "checkins_enhanced.csv")
                        (files_exported (metadata_json x')))
          /\ (forall err,
                 export_for_powerbi now df checkins = Raise err ->
                 forall c, exists err',
                   export_for_powerbi now df c = Raise err')).
Proof.
  cbv zeta. intros R.
  pose proof (LoaderFacts.select_sheets_spec (frame row) DataFrame first rest)
    as S.
  assert (SP : forall status,
             Loader.is_http_error status = false ->
             Loader.load_data_from_sharepoint (frame row) DataFrame
               (Loader.Response status content)
             = Return (Loader.purchases_sheet (frame row) first rest,
                       Loader.checkins_sheet (frame row) DataFrame
                         (first :: rest))).
  { intros status H. unfold Loader.load_data_from_sharepoint.
    rewrite H, R. cbn [bind]. now rewrite S. }
  split; [exact SP|]. split; [|split].
  - intros w filepath url status U G H. unfold Loader.load_data.
    rewrite U, G. now apply SP.
  - intros w filepath url path U C E F.
    rewrite (LoaderFacts.load_data_local (frame row) DataFrame w filepath url
               path U C), E, F, R.
    cbn [bind]. now rewrite S.
  - intros N. unfold Loader.checkins_sheet. rewrite N.
    split; [reflexivity|]. split; [reflexivity|]. split; [reflexivity|].
    split; [reflexivity|].
    intros now df. split.
    + intros c x X. exact (export_without_checkins now df c x X).
    + intros err E c.
      destruct (export_for_powerbi now df c) as [x|err'] eqn:X; [|eauto].
      exfalso. destruct (export_without_checkins now df c x X) as [x' [_ [X' _]]].
      congruence.
Qed.

(** C8 as worded: without a check-ins sheet nothing raises downstream.  The
    workbook that holds only a sheet of notes has no check-ins sheet; that
    sheet is taken as the purchases table, and the export raises
    KeyError. *)
Lemma notes_only_export_raises :
  Loader.load_data (frame row) DataFrame Samples.notes_disk None None
  = Return (Samples.cover_sheet, DataFrame)
  /\ find (Loader.named (frame row) "checkin") Samples.notes_only = None
  /\ export_for_powerbi 0 Samples.cover_sheet DataFrame
     = Raise (KeyError "purchase_date").
Proof. repeat split. Qed.

(** C8, on the workbook without a check-ins sheet, under either default
    name, and on the three-sale table, whose export goes through with the
    sheet of three visits. *)
Lemma sheet_selection_witness :
  Loader.load_data (frame row) DataFrame Samples.office_disk None None
  = Return (Samples.three_sales, DataFrame)
  /\ Loader.load_data (frame row) DataFrame Samples.synced_disk None None
     = Return (Samples.three_sales, DataFrame)
  /\ (exists x, export_for_powerbi 0 Samples.three_sales Samples.three_visits
                = Return x)
  /\ exists x, export_for_powerbi 0 Samples.three_sales DataFrame = Return x.
Proof.
  pose proof (sheet_selection ("Cover", Samples.cover_sheet)
                [("Purchases 2024", Samples.three_sales)]
                Samples.purchases_only_file eq_refl) as [_ [_ [L D]]].
  split; [|split; [|split]].
  - refine (L Samples.office_disk None None Loader.master_file eq_refl _
              eq_refl eq_refl).
    left. split; reflexivity.
  - refine (L Samples.synced_disk None None Loader.github_file eq_refl _
              eq_refl eq_refl).
    right. repeat split.
  - eexists. vm_compute. reflexivity.
  - destruct (D eq_refl) as [_ [_ [_ [_ X]]]].
    destruct (proj1 (X 0%Z Samples.three_sales) Samples.three_visits _
                ltac:(vm_compute; reflexivity)) as [x [e [Hx _]]].
    exists x. exact Hx.
Defined.

End ExporterFacts.

(** * Further properties *)

(** ** Preprocessor: when it raises, and the shape it keeps *)

Module PreprocessMore.
Import Preprocess PreprocessFacts.

Lemma loop_ok_false (test : string -> bool) (df : DataFrame) :
  loop_ok test (strip_columns df) = false
  <-> exists col, test col = true /\ (2 <= occurrences df col)%nat.
Proof.
  unfold loop_ok, occurrences. set (d := strip_columns df). split.
  - intros H.
    assert (E : existsb (fun col => negb (negb (test col) || unique d col))
                  (columns d) = true).
    { clear -H. induction (columns d) as [|c l IH]; simpl in *; [discriminate|].
      destruct (negb (test c) || unique d c); simpl in *; auto. }
    apply existsb_exists in E. destruct E as [col [Hin Hc]].
    apply negb_true_iff, orb_false_iff in Hc. destruct Hc as [T U].
    apply negb_false_iff in T. exists col. split; [exact T|].
    unfold unique in U. apply Nat.eqb_neq in U.
    assert (1 <= List.length (filter (labelled col) d))%nat; [|lia].
    pose proof (In_columns d col Hin) as NE.
    destruct (filter (labelled col) d); [congruence|simpl; lia].
  - intros [col [T L]].
    destruct (forallb (fun c => negb (test c) || unique d c) (columns d)) eqn:F;
      [|reflexivity].
    exfalso. rewrite forallb_forall in F.
    assert (Hin : In col (columns d)).
    { destruct (filter (labelled col) d) as [|c l] eqn:E; [simpl in L; lia|].
      assert (Hc : In c (filter (labelled col) d)) by (rewrite E; now left).
      apply filter_In in Hc. destruct Hc as [Hc Hl]. unfold labelled in Hl.
      apply String.eqb_eq in Hl. subst col. unfold columns. now apply in_map. }
    specialize (F col Hin). rewrite T in F. simpl in F.
    unfold unique in F. apply Nat.eqb_eq in F. lia.
Qed.

Section Parsers.

Variable datetime_outcome : list pyobj -> conversion.
Variable parse_datetime : list pyobj -> pyobj -> option Z.
Variable as_datetime : list pyobj -> pyobj -> pyobj.
Variable parse_numeric : pyobj -> option Q.

Local Abbreviation preprocess_data :=
  (Preprocess.preprocess_data datetime_outcome parse_datetime as_datetime
     parse_numeric).
Local Abbreviation per_column :=
  (Preprocess.per_column datetime_outcome parse_datetime as_datetime
     parse_numeric).
Local Abbreviation dates_convert := (Preprocess.dates_convert datetime_outcome).


(** X2.  A run that returns keeps the shape of the table: as many columns,
    in the same order, and in every column as many cells. *)
Theorem preprocess_data_shape (df df' : DataFrame) :
  preprocess_data df = Return df' ->
  List.length df' = List.length df
  /\ Forall2 (fun c c' => series_length (snd c') = series_length (snd c))
             df df'.
Proof.
  intros H. apply preprocess_data_inv in H. destruct H as [_ [_ ->]].
  unfold strip_columns. rewrite map_map.
  split; [apply length_map|].
  induction df as [|[n s] df IH]; cbn [map]; constructor; [|exact IH].
  unfold Preprocess.per_column, Preprocess.price_step, Preprocess.date_step.
  cbn [fst snd].
  assert (C : forall cells,
             series_length
               (converted datetime_outcome parse_datetime as_datetime cells)
             = List.length cells).
  { intros cells. unfold converted, to_datetime.
    destruct (datetime_outcome cells); cbn [series_length];
      rewrite ?length_map; reflexivity. }
  destruct (has_price (PyStr.strip n)), (has_date (PyStr.strip n)),
    s as [cells|cells|cells];
    cbn [to_numeric series_length]; rewrite ?length_map; try reflexivity.
  - destruct (converted datetime_outcome parse_datetime as_datetime cells)
      eqn:E; cbn [to_numeric series_length]; rewrite ?length_map;
      rewrite <- (C cells), E; reflexivity.
  - apply C.
Qed.

End Parsers.

Local Abbreviation sample_preprocess_data :=
  (preprocess_data sample_datetime_outcome sample_parse_datetime
     sample_as_datetime sample_parse_numeric).


(** X2, on the sample frame. *)
Lemma preprocess_data_shape_witness :
  exists df',
    sample_preprocess_data sample_frame = Return df'
    /\ List.length df' = 4%nat.
Proof.
  eexists. split; [vm_compute; reflexivity|].
  refine (proj1 (preprocess_data_shape sample_datetime_outcome
                   sample_parse_datetime sample_as_datetime
                   sample_parse_numeric sample_frame _ _)).
  vm_compute. reflexivity.
Defined.

End PreprocessMore.

(** ** Loader: where the tables come from, and what it can raise *)

Module LoaderMore.
Import Loader LoaderFacts.

Section Frames.

Variable Frame : Type.
Variable pd_DataFrame : Frame.

Local Abbreviation select_sheets := (Loader.select_sheets Frame pd_DataFrame).
Local Abbreviation load_data := (Loader.load_data Frame pd_DataFrame).
Local Abbreviation load_data_from_sharepoint :=
  (Loader.load_data_from_sharepoint Frame pd_DataFrame).
Local Abbreviation named := (Loader.named Frame).

(** X3.  The source of the tables is resolved in a fixed order.  With a
    non-empty SharePoint URL the disk and the file path play no part, so a
    failed fetch is not made up for by a local file.  Without a URL and
    without a path the master file is used when it exists, and the GitHub
    copy only when the master file does not. *)
Theorem load_data_resolution :
  (forall w w' filepath filepath' url,
      nonempty url = true ->
      http_get w url = http_get w' url ->
      load_data w filepath (Some url) = load_data w' filepath' (Some url))
  /\ (forall w filepath url why,
         nonempty url = true ->
         load_data_from_sharepoint (http_get w url)
         = Raise (FileNotFoundError why) ->
         load_data w filepath (Some url) = Raise (FileNotFoundError why))
  /\ (forall w,
         file_exists w master_file = true ->
         load_data w None None = load_data w (Some master_file) None)
  /\ (forall w,
         file_exists w master_file = false ->
         file_exists w github_file = true ->
         load_data w None None = load_data w (Some github_file) None)
  /\ (forall w filepath,
         load_data w filepath (Some "") = load_data w filepath None).
Proof.
  repeat split.
  - intros w w' filepath filepath' url U H. unfold Loader.load_data.
    now rewrite U, H.
  - intros w filepath url why U H. unfold Loader.load_data. now rewrite U.
  - intros w M. unfold Loader.load_data, load_local. now rewrite M.
  - intros w M G. unfold Loader.load_data, load_local. now rewrite M, G.
Qed.

(** X4.  Whatever goes wrong on the SharePoint path, the caller sees a
    FileNotFoundError, with one of two messages. *)
Theorem sharepoint_raises_file_not_found (response : fetched Frame) (e : exn) :
  load_data_from_sharepoint response = Raise e ->
  e = FileNotFoundError UnableToDownload
  \/ e = FileNotFoundError ErrorProcessing.
Proof.
  unfold Loader.load_data_from_sharepoint.
  destruct response as [|status content].
  - intros H. injection H as <-. now left.
  - destruct (is_http_error status).
    + intros H. injection H as <-. now left.
    + destruct (xls <- read_all_sheets content ;; select_sheets xls)
        as [r|e']; intros H; [discriminate H|].
      injection H as <-. now right.
Qed.


End Frames.

(** X3, on the disk with a damaged master file that a share also serves. *)
Lemma load_data_resolution_witness :
  Loader.load_data (Pandas.frame row) Pandas.DataFrame Samples.damaged_disk
    None None
  = Loader.load_data (Pandas.frame row) Pandas.DataFrame Samples.damaged_disk
      (Some master_file) None
  /\ Loader.load_data (Pandas.frame row) Pandas.DataFrame Samples.damaged_disk
       (Some master_file) (Some "https://share/retail.xlsx")
     = Raise (FileNotFoundError ErrorProcessing).
Proof.
  pose proof (load_data_resolution (Pandas.frame row) Pandas.DataFrame)
    as [_ [H2 [H3 _]]].
  split.
  - apply H3. reflexivity.
  - apply H2; reflexivity.
Defined.

(** X4, on a share that answers 503. *)
Lemma sharepoint_raises_file_not_found_witness :
  FileNotFoundError UnableToDownload = FileNotFoundError UnableToDownload
  \/ FileNotFoundError UnableToDownload = FileNotFoundError ErrorProcessing.
Proof.
  apply (sharepoint_raises_file_not_found (Pandas.frame row) Pandas.DataFrame
           (Response 503 Samples.one_sheet_only)).
  reflexivity.
Defined.


End LoaderMore.

(** ** Dense ranks *)

Module RankFacts.
Import Pandas PandasFacts Enricher EnricherFacts.

Section Classes.

Context {A : Type} (eqb : A -> A -> bool).
Hypothesis eqb_refl : forall a, eqb a a = true.
Hypothesis eqb_sym : forall a b, eqb a b = eqb b a.
Hypothesis eqb_trans :
  forall a b c, eqb a b = true -> eqb b c = true -> eqb a c = true.

Lemma dedupe_incl (l : list A) (x : A) : In x (dedupe eqb l) -> In x l.
Proof.
  revert x. induction l as [|a l IH]; intros x; simpl; [tauto|].
  intros [H|H]; [now left|]. apply filter_In in H. right. apply IH. tauto.
Qed.

(** Every element has a representative that survives. *)
Lemma dedupe_represents (l : list A) (x : A) :
  In x l -> exists y, In y (dedupe eqb l) /\ eqb y x = true.
Proof.
  induction l as [|a l IH]; simpl; [tauto|].
  intros [->|H]; [exists x; auto|].
  destruct (IH H) as [y [Hy E]].
  destruct (eqb a y) eqn:Ay.
  - exists a. split; [now left|]. now apply (eqb_trans a y x).
  - exists y. split; [|exact E]. right. apply filter_In. now rewrite Ay.
Qed.

Lemma filter_length_le (f : A -> bool) (l : list A) :
  (List.length (filter f l) <= List.length l)%nat.
Proof.
  induction l as [|a l IH]; simpl; [lia|]. destruct (f a); simpl; lia.
Qed.

Lemma filter_length_lt (f : A -> bool) (l : list A) (x : A) :
  In x l -> f x = false -> (List.length (filter f l) < List.length l)%nat.
Proof.
  induction l as [|a l IH]; simpl; [tauto|].
  intros [->|H] F.
  - rewrite F. pose proof (filter_length_le f l). lia.
  - specialize (IH H F). destruct (f a); simpl; lia.
Qed.

Lemma filter_split (f : A -> bool) (l : list A) :
  (List.length (filter f l) + List.length (filter (fun a => negb (f a)) l)
   = List.length l)%nat.
Proof.
  induction l as [|a l IH]; simpl; [reflexivity|].
  destruct (f a); simpl; lia.
Qed.

(** No two survivors are in one class. *)
Lemma dedupe_class (l : list A) (w : A) :
  (List.length (filter (eqb w) (dedupe eqb l)) <= 1)%nat.
Proof.
  induction l as [|a l IH]; simpl; [lia|].
  destruct (eqb w a) eqn:Wa; simpl.
  - assert (Z : filter (eqb w) (filter (fun b => negb (eqb a b)) (dedupe eqb l))
                = []).
    { destruct (filter (eqb w) (filter (fun b => negb (eqb a b)) (dedupe eqb l)))
        as [|y ys] eqn:F; [reflexivity|].
      assert (Hy : In y (filter (eqb w)
                           (filter (fun b => negb (eqb a b)) (dedupe eqb l))))
        by (rewrite F; now left).
      apply filter_In in Hy. destruct Hy as [Hy Wy].
      apply filter_In in Hy. destruct Hy as [_ Ay].
      apply negb_true_iff in Ay.
      rewrite eqb_sym in Wa. rewrite (eqb_trans a w y Wa Wy) in Ay.
      discriminate. }
    rewrite Z. simpl. lia.
  - rewrite (filter_filter_comm (eqb w)).
    pose proof (filter_length_le (fun b => negb (eqb a b))
                  (filter (eqb w) (dedupe eqb l))). lia.
Qed.

(** Filtering by a property of the class commutes with deduplication. *)
Lemma filter_dedupe_class (f : A -> bool) (l : list A) :
  (forall a b, eqb a b = true -> f a = f b) ->
  filter f (dedupe eqb l) = dedupe eqb (filter f l).
Proof.
  intros C. induction l as [|a l IH]; simpl; [reflexivity|].
  destruct (f a) eqn:F; simpl.
  - now rewrite filter_filter_comm, IH.
  - rewrite filter_filter_comm, IH. apply filter_all.
    intros x Hx. apply dedupe_incl, filter_In in Hx. destruct Hx as [_ Fx].
    apply negb_true_iff. destruct (eqb a x) eqn:E; [|reflexivity].
    rewrite (C a x E) in F. congruence.
Qed.

End Classes.

Lemma above_lt (v w : Q) : above v w = true <-> v < w.
Proof.
  unfold above. rewrite negb_true_iff. split.
  - intros H. apply Qnot_le_lt. intros L. apply Qle_bool_iff in L. congruence.
  - intros H. destruct (Qle_bool w v) eqn:L; [|reflexivity].
    apply Qle_bool_iff in L. exfalso. now apply (Qlt_not_le v w).
Qed.

Lemma above_class (v a b : Q) : Qeq_bool a b = true -> above v a = above v b.
Proof.
  intros E. apply Qeq_bool_iff in E.
  destruct (above v a) eqn:Ha, (above v b) eqn:Hb; try reflexivity.
  - apply above_lt in Ha. rewrite E in Ha. apply above_lt in Ha. congruence.
  - apply above_lt in Hb. rewrite <- E in Hb. apply above_lt in Hb. congruence.
Qed.

Lemma Qeq_bool_trans' (a b c : Q) :
  Qeq_bool a b = true -> Qeq_bool b c = true -> Qeq_bool a c = true.
Proof. rewrite !Qeq_bool_iff. intros H1 H2. now rewrite H1. Qed.

Lemma dense_rank_higher (values : list Q) (v : Q) :
  dense_rank values v = Z.of_nat (S (List.length (higher values v))).
Proof. reflexivity. Qed.

Lemma higher_filter (values : list Q) (v : Q) :
  higher values v = filter (above v) (dedupe Qeq_bool values).
Proof.
  unfold higher. symmetry. apply filter_dedupe_class. apply above_class.
Qed.

Lemma higher_step (values : list Q) (v w : Q) :
  v < w -> higher values w = filter (above w) (higher values v).
Proof.
  intros L. rewrite (higher_filter values v), (higher_filter values w).
  induction (dedupe Qeq_bool values) as [|x l IH]; simpl; [reflexivity|].
  destruct (above w x) eqn:W.
  - assert (V : above v x = true).
    { apply above_lt. apply above_lt in W. now apply (Qlt_trans v w x). }
    rewrite V. simpl. now rewrite W, IH.
  - destruct (above v x); simpl; rewrite ?W; exact IH.
Qed.

Lemma rank_drops (values : list Q) (v w : Q) :
  In w values -> v < w ->
  (List.length (higher values w) < List.length (higher values v))%nat.
Proof.
  intros Hw L. rewrite (higher_step values v w L).
  assert (Hin : In w (filter (above v) values)).
  { apply filter_In. split; [exact Hw|now apply above_lt]. }
  destruct (dedupe_represents Qeq_bool Qeq_bool_refl Qeq_bool_trans'
              _ w Hin) as [y [Hy E]].
  apply (filter_length_lt (above w) _ y Hy).
  apply Qeq_bool_iff in E. unfold above.
  apply negb_false_iff, Qle_bool_iff. rewrite E. apply Qle_refl.
Qed.

Lemma lowest_above (l : list Q) :
  l <> [] -> exists w, In w l /\ forall x, In x l -> w <= x.
Proof.
  induction l as [|a l IH]; [congruence|]. intros _.
  destruct l as [|b l'].
  - exists a. split; [now left|]. intros x [<-|[]]. apply Qle_refl.
  - destruct IH as [w [Hw Hmin]]; [congruence|].
    destruct (Qlt_le_dec a w) as [L|L].
    + exists a. split; [now left|]. intros x [<-|Hx]; [apply Qle_refl|].
      apply Qlt_le_weak. apply (Qlt_le_trans a w x L). now apply Hmin.
    + exists w. split; [now right|]. intros x [<-|Hx]; [exact L|].
      now apply Hmin.
Qed.

Lemma highest (l : list Q) :
  l <> [] -> exists m, In m l /\ forall x, In x l -> x <= m.
Proof.
  induction l as [|a l IH]; [congruence|]. intros _.
  destruct l as [|b l'].
  - exists a. split; [now left|]. intros x [<-|[]]. apply Qle_refl.
  - destruct IH as [m [Hm Hmax]]; [congruence|].
    destruct (Qlt_le_dec m a) as [L|L].
    + exists a. split; [now left|]. intros x [<-|Hx]; [apply Qle_refl|].
      apply Qlt_le_weak. apply (Qle_lt_trans x m a); [now apply Hmax|exact L].
    + exists m. split; [now right|]. intros x [<-|Hx]; [exact L|].
      now apply Hmax.
Qed.

Lemma dedupe_length_le {A : Type} (eqb : A -> A -> bool) (l : list A) :
  (List.length (dedupe eqb l) <= List.length l)%nat.
Proof.
  induction l as [|a l IH]; simpl; [lia|].
  pose proof (filter_length_le (fun b => negb (eqb a b)) (dedupe eqb l)). lia.
Qed.

Lemma rank_same (values : list Q) (v w : Q) :
  v == w -> dense_rank values v = dense_rank values w.
Proof.
  intros E. unfold dense_rank. do 3 f_equal. apply f_equal.
  apply filter_ext. intros x.
  f_equal. destruct (Qle_bool x v) eqn:V, (Qle_bool x w) eqn:W; try reflexivity.
  - apply Qle_bool_iff in V. rewrite E in V. apply Qle_bool_iff in V. congruence.
  - apply Qle_bool_iff in W. rewrite <- E in W. apply Qle_bool_iff in W.
    congruence.
Qed.

(** The next rank up is taken. *)
Lemma rank_next (values : list Q) (v : Q) :
  higher values v <> [] ->
  exists w, In w values /\ v < w
            /\ S (List.length (higher values w))
               = List.length (higher values v).
Proof.
  intros N.
  assert (NA : filter (above v) values <> []).
  { intros Z. apply N. unfold higher. now rewrite Z. }
  destruct (lowest_above _ NA) as [w [Hw Hmin]].
  pose proof Hw as Hw'. apply filter_In in Hw'. destruct Hw' as [Hin Hvw].
  apply above_lt in Hvw.
  exists w. split; [exact Hin|]. split; [exact Hvw|].
  rewrite (higher_step values v w Hvw).
  pose proof (filter_split (above w) (higher values v)) as S.
  assert (One : List.length (filter (fun a => negb (above w a)) (higher values v))
                = 1%nat).
  { rewrite (filter_ext_in (fun a => negb (above w a)) (Qeq_bool w)).
    - pose proof (dedupe_class Qeq_bool Qeq_bool_comm Qeq_bool_trans'
                    (filter (above v) values) w) as Le.
      fold (higher values v) in Le.
      destruct (dedupe_represents Qeq_bool Qeq_bool_refl Qeq_bool_trans'
                  _ w Hw) as [y [Hy E]].
      fold (higher values v) in Hy.
      assert (In y (filter (Qeq_bool w) (higher values v))).
      { apply filter_In. split; [exact Hy|]. now apply Qeq_bool_sym. }
      destruct (filter (Qeq_bool w) (higher values v)); simpl in *; [tauto|lia].
    - intros x Hx. unfold higher in Hx. apply dedupe_incl in Hx.
      specialize (Hmin x Hx). unfold above. rewrite negb_involutive.
      destruct (Qle_bool x w) eqn:L.
      + apply Qle_bool_iff in L. symmetry. apply Qeq_bool_iff.
        now apply Qle_antisym.
      + destruct (Qeq_bool w x) eqn:E; [|reflexivity].
        apply Qeq_bool_iff in E.
        assert (Lx : x <= w) by (rewrite E; apply Qle_refl).
        apply Qle_bool_iff in Lx. congruence. }
  lia.
Qed.

(** The laws of a dense descending rank over the ranked values themselves. *)
Lemma dense_rank_laws (values : list Q) :
  (forall v, In v values ->
             (1 <= dense_rank values v <= Z.of_nat (List.length values))%Z)
  /\ (forall v w, In v values -> In w values ->
                  (dense_rank values v = dense_rank values w <-> v == w))
  /\ (forall v w, In v values -> In w values ->
                  ((dense_rank values v < dense_rank values w)%Z <-> w < v))
  /\ (values <> [] -> exists v, In v values /\ dense_rank values v = 1%Z)
  /\ (forall v, In v values -> (1 < dense_rank values v)%Z ->
                exists w, In w values
                          /\ dense_rank values w = (dense_rank values v - 1)%Z).
Proof.
  assert (Drop : forall v w, In w values -> v < w ->
                             (dense_rank values w < dense_rank values v)%Z).
  { intros v w Hw L. rewrite !dense_rank_higher.
    pose proof (rank_drops values v w Hw L). lia. }
  split; [|split; [|split; [|split]]].
  - intros v Hv. rewrite dense_rank_higher. split; [lia|].
    rewrite higher_filter.
    destruct (dedupe_represents Qeq_bool Qeq_bool_refl Qeq_bool_trans'
                values v Hv) as [y [Hy E]].
    assert (F : above v y = false).
    { apply Qeq_bool_iff in E. unfold above.
      apply negb_false_iff, Qle_bool_iff. rewrite E. apply Qle_refl. }
    pose proof (filter_length_lt (above v) _ y Hy F).
    pose proof (dedupe_length_le Qeq_bool values). lia.
  - intros v w Hv Hw. split; [|apply rank_same].
    intros E. destruct (Q_dec v w) as [[L|L]|L]; [| |exact L].
    + pose proof (Drop v w Hw L). lia.
    + pose proof (Drop w v Hv L). lia.
  - intros v w Hv Hw. split; [|now apply Drop].
    intros R. destruct (Q_dec v w) as [[L|L]|L]; [|exact L|].
    + pose proof (Drop v w Hw L). lia.
    + rewrite (rank_same values v w L) in R. lia.
  - intros N. destruct (highest values N) as [m [Hm Hmax]].
    exists m. split; [exact Hm|]. rewrite dense_rank_higher. unfold higher.
    assert (Z : filter (above m) values = []).
    { destruct (filter (above m) values) as [|y ys] eqn:F; [reflexivity|].
      assert (Hy : In y (filter (above m) values)) by (rewrite F; now left).
      apply filter_In in Hy. destruct Hy as [Hy A]. apply above_lt in A.
      exfalso. apply (Qlt_not_le m y A). now apply Hmax. }
    rewrite Z. reflexivity.
  - intros v Hv R. rewrite dense_rank_higher in R.
    destruct (rank_next values v) as [w [Hw [_ E]]].
    + intros Z. rewrite Z in R. simpl in R. lia.
    + exists w. split; [exact Hw|]. rewrite !dense_rank_higher. lia.
Qed.

(** A table that carries the dense rank of its own value column. *)
Lemma ranked_table {T : Type} (value : T -> Q) (rank : T -> Z)
      (table : list T) :
  (forall t, In t table -> rank t = dense_rank (map value table) (value t)) ->
  Tables.densely_ranked value rank table.
Proof.
  intros R.
  destruct (dense_rank_laws (map value table)) as [L1 [L2 [L3 [L4 L5]]]].
  assert (V : forall t, In t table -> In (value t) (map value table))
    by (intros t Ht; now apply in_map).
  unfold Tables.densely_ranked. split; [|split; [|split; [|split]]].
  - intros t Ht. rewrite (R t Ht).
    rewrite <- (length_map value table). apply L1. now apply V.
  - intros t u Ht Hu. rewrite (R t Ht), (R u Hu). apply L2; now apply V.
  - intros t u Ht Hu. rewrite (R t Ht), (R u Hu). apply L3; now apply V.
  - intros N. destruct L4 as [v [Hv E]].
    + destruct table; [congruence|discriminate].
    + apply in_map_iff in Hv. destruct Hv as [t [<- Ht]].
      exists t. split; [exact Ht|]. now rewrite (R t Ht).
  - intros t Ht G. rewrite (R t Ht) in G.
    destruct (L5 (value t) (V t Ht) G) as [w [Hw E]].
    apply in_map_iff in Hw. destruct Hw as [u [<- Hu]].
    exists u. split; [exact Hu|]. now rewrite (R t Ht), (R u Hu).
Qed.

Lemma customer_totals_ranked (l : list purchase) :
  Tables.densely_ranked CustomerTotals.CustomerTotalSpent
                        CustomerTotals.CustomerRank (customer_totals_of l).
Proof.
  apply ranked_table. intros t Ht. unfold customer_totals_of in *.
  rewrite map_map. cbn [CustomerTotals.CustomerTotalSpent].
  apply in_map_iff in Ht. destruct Ht as [g [<- _]]. reflexivity.
Qed.

Lemma vendor_stats_ranked (l : list purchase) :
  Tables.densely_ranked VendorStats.VendorTotalSales
                        VendorStats.VendorRank (vendor_stats_of l).
Proof.
  apply ranked_table. intros t Ht. unfold vendor_stats_of in *.
  rewrite map_map. cbn [VendorStats.VendorTotalSales].
  apply in_map_iff in Ht. destruct Ht as [g [<- _]]. reflexivity.
Qed.

(** X6.  In the customer table and in the vendor table that
    [create_enhanced_datasets] returns, the rank column is a dense rank of
    the total column from the top: every rank lies between 1 and the number
    of rows, two rows have the same rank exactly when their totals are
    equal, a row has a lower rank exactly when its total is greater, the
    rank 1 is taken when the table has a row, and below every rank above 1
    the next lower rank is taken. *)
Theorem ranks_are_dense (df checkins_df : frame row) (e : enhanced) :
  create_enhanced_datasets df checkins_df = Return e ->
  Tables.densely_ranked CustomerTotals.CustomerTotalSpent
                        CustomerTotals.CustomerRank (customer_totals e)
  /\ Tables.densely_ranked VendorStats.VendorTotalSales
                           VendorStats.VendorRank (vendor_stats e).
Proof.
  intros H. apply create_enhanced_datasets_inv in H.
  destruct H as [_ [_ [_ [V C]]]]. rewrite V, C.
  split; [apply customer_totals_ranked|apply vendor_stats_ranked].
Qed.

(** X6, on the three-sale table. *)
Lemma ranks_are_dense_witness :
  exists e,
    create_enhanced_datasets Samples.three_sales DataFrame = Return e
    /\ map CustomerTotals.CustomerRank (customer_totals e) = [1; 2]%Z
    /\ Tables.densely_ranked CustomerTotals.CustomerTotalSpent
                             CustomerTotals.CustomerRank (customer_totals e).
Proof.
  eexists. split; [vm_compute; reflexivity|]. split; [reflexivity|].
  refine (proj1 (ranks_are_dense Samples.three_sales DataFrame _ _)).
  vm_compute. reflexivity.
Defined.

End RankFacts.

(** ** The customer and vendor tables *)

Module TableFacts.
Import Pandas Enricher Aggregator Tables.
Import PandasFacts EnricherFacts AggregatorFacts.

Section Sorting.

Context {A : Type} (leb : A -> A -> bool).
Hypothesis leb_total : forall a b, leb a b = true \/ leb b a = true.

Local Abbreviation le := (fun a b => leb a b = true).

Lemma insert_hd (a x : A) (l : list A) :
  HdRel le x l -> leb x a = true -> HdRel le x (insert leb a l).
Proof.
  intros H L. destruct l as [|c l]; simpl; [now constructor|].
  inversion H; subst. destruct (leb a c); now constructor.
Qed.

Lemma insert_sorted (a : A) (l : list A) :
  Sorted le l -> Sorted le (insert leb a l).
Proof.
  intros S. induction S as [|b l S IH H]; simpl.
  - repeat constructor.
  - destruct (leb a b) eqn:E.
    + repeat constructor; assumption.
    + constructor; [exact IH|]. apply insert_hd; [exact H|].
      destruct (leb_total a b) as [T|T]; [congruence|exact T].
Qed.

Lemma sort_sorted (l : list A) : Sorted le (sort leb l).
Proof.
  induction l as [|a l IH]; simpl; [constructor|]. now apply insert_sorted.
Qed.

End Sorting.

Lemma view_with_customers (l : list purchase) :
  map view (with_customers l) = map view l.
Proof.
  unfold with_customers, merge_customer_totals.
  apply merge_left_one; [reflexivity|].
  unfold customer_totals_of. rewrite map_map. cbn.
  rewrite <- (map_map fst (fun k => k)), map_id, groupby_keys.
  apply NoDup_group_keys, String.eqb_eq.
Qed.

Lemma filter_map_view {B : Type} (f : row * derived -> bool)
      (h : row * derived -> B) (l : list purchase) :
  map (fun p => h (view p)) (filter (fun p => f (view p)) l)
  = map h (filter f (map view l)).
Proof.
  induction l as [|p l IH]; cbn; [reflexivity|].
  destruct (f (view p)); cbn; now rewrite IH.
Qed.

Lemma filter_map_derived {B : Type} (b : bool) (f : row * derived -> bool)
      (h : row * derived -> B) (sheet : list row) :
  map h (filter f (map view (map (derived_row b) sheet)))
  = map (fun r => h (r, derive b r))
        (filter (fun r => f (r, derive b r)) sheet).
Proof.
  induction sheet as [|r sheet IH]; cbn; [reflexivity|].
  change (view (derived_row b r)) with (r, derive b r).
  destruct (f (r, derive b r)); cbn; now rewrite IH.
Qed.

Lemma mean_count (cells : list (option Q)) :
  (count cells = 0%nat -> mean cells = None)
  /\ (count cells <> 0%nat ->
      exists a, mean cells = Some a
                /\ a * inject_Z (Z.of_nat (count cells)) == sum cells).
Proof.
  unfold mean, divide. split.
  - intros ->. reflexivity.
  - intros N.
    assert (P : ~ inject_Z (Z.of_nat (count cells)) == 0).
    { unfold Qeq. simpl. lia. }
    destruct (Qeq_bool (inject_Z (Z.of_nat (count cells))) 0) eqn:E.
    + apply Qeq_bool_iff in E. contradiction.
    + eexists. split; [reflexivity|]. now field.
Qed.

(** X7.  The customer table that [create_enhanced_datasets] returns has one
    row for every customer id that occurs in the purchases sheet and no
    other row, in ascending order of the id; the total of a row is the sum of
    the prices of that customer's sheet rows, and the totals add up to the sum
    of the prices of the sheet rows that have a customer id. *)
Theorem customer_table (df checkins_df : frame row) (e : enhanced) :
  create_enhanced_datasets df checkins_df = Return e ->
  let ids := map CustomerTotals.customer_guid (customer_totals e) in
  NoDup ids
  /\ ascending ids
  /\ (forall g, In g ids
                <-> exists r, In r (rows df) /\ customer_guid r = Some g)
  /\ (forall t, In t (customer_totals e) ->
                CustomerTotals.CustomerTotalSpent t
                = sum (paid (filter (bought_by (CustomerTotals.customer_guid t))
                               (rows df))))
  /\ total CustomerTotals.CustomerTotalSpent (customer_totals e)
     == sum (paid (filter (fun r => match customer_guid r with
                                    | Some _ => true
                                    | None => false
                                    end) (rows df))).
Proof.
  intros H. apply create_enhanced_datasets_inv in H.
  destruct H as [_ [_ [_ [_ C]]]]. cbv zeta. rewrite C. clear C.
  set (b := has_column df "unit_cost").
  set (key := fun p : purchase => customer_guid (base p)).
  assert (K : map CustomerTotals.customer_guid
                (customer_totals_of (map (derived_row b) (rows df)))
              = group_keys String.eqb String.leb key
                  (map (derived_row b) (rows df))).
  { unfold customer_totals_of. rewrite map_map. cbn.
    rewrite <- (map_map fst (fun k => k)), map_id. apply groupby_keys. }
  rewrite K. clear K.
  assert (G : forall k,
             prices (filter (in_group String.eqb key k)
                       (map (derived_row b) (rows df)))
             = paid (filter (bought_by k) (rows df))).
  { intros k. unfold prices, Enricher.prices, paid.
    induction (rows df) as [|r sheet IH]; cbn; [reflexivity|].
    change (in_group String.eqb key k (derived_row b r)) with (bought_by k r).
    destruct (bought_by k r); cbn; now rewrite IH. }
  split; [apply NoDup_group_keys, String.eqb_eq|].
  split; [apply sort_sorted, String.leb_total|].
  split; [|split].
  - intros g. rewrite (In_group_keys _ _ _ String.eqb_eq). split.
    + intros [p [Hp E]]. apply in_map_iff in Hp. destruct Hp as [r [<- Hr]].
      exists r. split; [exact Hr|exact E].
    + intros [r [Hr E]]. exists (derived_row b r). split; [|exact E].
      now apply in_map.
  - intros t Ht. unfold customer_totals_of, groupby in Ht.
    rewrite map_map in Ht. apply in_map_iff in Ht. destruct Ht as [k [<- _]].
    cbn [CustomerTotals.CustomerTotalSpent CustomerTotals.customer_guid fst snd].
    apply f_equal. apply G.
  - unfold total, customer_totals_of, groupby. rewrite !map_map.
    cbn [CustomerTotals.CustomerTotalSpent fst snd].
    transitivity (sum (prices (filter (keyed key)
                                 (map (derived_row b) (rows df))))).
    + apply (group_totals key
               (group_keys String.eqb String.leb key
                  (map (derived_row b) (rows df)))).
      * apply NoDup_group_keys, String.eqb_eq.
      * intros p k Hp Hk. apply (In_group_keys _ _ _ String.eqb_eq). eauto.
    + clear G.
      assert (E : prices (filter (keyed key) (map (derived_row b) (rows df)))
                  = paid (filter (fun r => match customer_guid r with
                                           | Some _ => true
                                           | None => false
                                           end) (rows df))).
      { unfold prices, Enricher.prices, paid.
        induction (rows df) as [|r sheet IH]; cbn; [reflexivity|].
        unfold keyed at 1, key at 1. cbn.
        destruct (customer_guid r); cbn; now rewrite IH. }
      rewrite E. reflexivity.
Qed.

(** X7, on the three-sale table. *)
Lemma customer_table_witness :
  exists e,
    create_enhanced_datasets Samples.three_sales DataFrame = Return e
    /\ map CustomerTotals.customer_guid (customer_totals e) = ["c1"; "c2"]
    /\ NoDup (map CustomerTotals.customer_guid (customer_totals e)).
Proof.
  eexists. split; [vm_compute; reflexivity|]. split; [reflexivity|].
  refine (proj1 (customer_table Samples.three_sales DataFrame _ _)).
  vm_compute. reflexivity.
Defined.

(** The rows of one vendor after the customer merge, seen from the sheet. *)
Lemma vendor_group {B : Type} (h : row * derived -> B) (b : bool)
      (sheet : list row) (k : string) :
  map (fun p => h (view p))
      (filter (in_group String.eqb (fun p => vendor_name (base p)) k)
         (with_customers (map (derived_row b) sheet)))
  = map (fun r => h (r, derive b r)) (filter (sold_by k) sheet).
Proof.
  transitivity (map h (filter (fun v => sold_by k (fst v))
                         (map view (with_customers
                                      (map (derived_row b) sheet))))).
  - exact (filter_map_view (fun v => sold_by k (fst v)) h _).
  - rewrite view_with_customers.
    exact (filter_map_derived b (fun v => sold_by k (fst v)) h sheet).
Qed.

Lemma sum_of_zeros (cells : list (option Q)) :
  Forall (fun c => c = Some 0) cells -> sum cells == 0.
Proof.
  intros F. induction F as [|c cells -> F IH]; [reflexivity|].
  rewrite sum_cons, IH. reflexivity.
Qed.

(** X8.  The vendor table that [create_enhanced_datasets] returns has one
    row for every vendor name that occurs in the purchases sheet and no
    other row, in ascending order of the name.  In the row of a vendor the
    total sales are the sum of the prices of the vendor's sheet rows, the
    transaction count is the number of those rows that have a price, the
    average is null when that count is 0 and otherwise the total divided by
    the count, and the total profit is the sum of price minus unit cost
    over the vendor's rows, or 0 when the sheet has no unit-cost column. *)
Theorem vendor_table (df checkins_df : frame row) (e : enhanced) :
  create_enhanced_datasets df checkins_df = Return e ->
  let names := map VendorStats.vendor_name (vendor_stats e) in
  NoDup names
  /\ ascending names
  /\ (forall v, In v names
                <-> exists r, In r (rows df) /\ vendor_name r = Some v)
  /\ forall t, In t (vendor_stats e) ->
       let mine := filter (sold_by (VendorStats.vendor_name t)) (rows df) in
       let n := VendorStats.VendorTransactionCount t in
       VendorStats.VendorTotalSales t = sum (paid mine)
       /\ n = count (paid mine)
       /\ (n = 0%nat -> VendorStats.VendorAvgTransaction t = None)
       /\ (n <> 0%nat ->
           exists a, VendorStats.VendorAvgTransaction t = Some a
                     /\ a * inject_Z (Z.of_nat n)
                        == VendorStats.VendorTotalSales t)
       /\ VendorStats.VendorTotalProfit t
          == (if has_column df "unit_cost"
              then sum (map (fun r => minus (purchase_price_w_discount r)
                                            (unit_cost r)) mine)
              else 0).
Proof.
  intros H. apply create_enhanced_datasets_inv in H.
  destruct H as [_ [_ [_ [V _]]]]. cbv zeta. rewrite V. clear V.
  set (b := has_column df "unit_cost").
  set (key := fun p : purchase => vendor_name (base p)).
  set (l := with_customers (map (derived_row b) (rows df))).
  assert (B : map base l = rows df).
  { unfold l. rewrite RowCountFacts.bases_with_customers.
    apply RowCountFacts.bases_derived. }
  assert (K : map VendorStats.vendor_name (vendor_stats_of l)
              = group_keys String.eqb String.leb key l).
  { unfold vendor_stats_of. rewrite map_map. cbn.
    rewrite <- (map_map fst (fun k => k)), map_id. apply groupby_keys. }
  rewrite K. clear K.
  split; [apply NoDup_group_keys, String.eqb_eq|].
  split; [apply sort_sorted, String.leb_total|].
  split.
  - intros v. rewrite (In_group_keys _ _ _ String.eqb_eq). split.
    + intros [p [Hp E]]. exists (base p). split; [|exact E].
      rewrite <- B. now apply in_map.
    + intros [r [Hr E]]. rewrite <- B in Hr. apply in_map_iff in Hr.
      destruct Hr as [p [<- Hp]]. exists p. split; [exact Hp|exact E].
  - intros t Ht. unfold vendor_stats_of, groupby in Ht.
    rewrite map_map in Ht. apply in_map_iff in Ht. destruct Ht as [k [<- _]].
    cbn [VendorStats.vendor_name VendorStats.VendorTotalSales
         VendorStats.VendorTransactionCount VendorStats.VendorAvgTransaction
         VendorStats.VendorTotalProfit fst snd].
    clear B. subst key.
    assert (P : Enricher.prices
                  (filter (in_group String.eqb
                             (fun p => vendor_name (base p)) k) l)
                = paid (filter (sold_by k) (rows df))).
    { exact (vendor_group (fun v => purchase_price_w_discount (fst v))
               b (rows df) k). }
    assert (F : map (fun p => Profit (calc p))
                    (filter (in_group String.eqb
                               (fun p => vendor_name (base p)) k) l)
                = map (fun r => Profit (derive b r))
                      (filter (sold_by k) (rows df))).
    { exact (vendor_group (fun v => Profit (snd v)) b (rows df) k). }
    rewrite P, F. clear P F.
    split; [reflexivity|]. split; [reflexivity|].
    destruct (mean_count (paid (filter (sold_by k) (rows df)))) as [M0 M1].
    split; [exact M0|]. split; [exact M1|].
    unfold derive. cbn [Profit]. destruct b; [reflexivity|].
    apply sum_of_zeros. apply Forall_map. apply Forall_forall. reflexivity.
Qed.

(** X8, on the three-sale table. *)
Lemma vendor_table_witness :
  exists e,
    create_enhanced_datasets Samples.three_sales DataFrame = Return e
    /\ map VendorStats.vendor_name (vendor_stats e) = ["vendorA"; "vendorB"]
    /\ NoDup (map VendorStats.vendor_name (vendor_stats e)).
Proof.
  eexists. split; [vm_compute; reflexivity|]. split; [reflexivity|].
  refine (proj1 (vendor_table Samples.three_sales DataFrame _ _)).
  vm_compute. reflexivity.
Defined.

(** Where a merged row comes from. *)
Lemma merge_left_attached {L R' O : Type} (lkey : L -> option string)
      (rkey : R' -> string) (attach : L -> option R' -> O)
      (left : list L) (right : list R') (o : O) :
  In o (merge_left String.eqb lkey rkey attach left right) ->
  exists l, In l left
            /\ ((exists r, In r right /\ lkey l = Some (rkey r)
                           /\ o = attach l (Some r))
                \/ (o = attach l None
                    /\ forall r, In r right -> lkey l <> Some (rkey r))).
Proof.
  unfold merge_left. intros H. apply in_flat_map in H.
  destruct H as [l [Hl Ho]]. exists l. split; [exact Hl|].
  destruct (lkey l) as [k|].
  - destruct (filter (fun r => String.eqb (rkey r) k) right) as [|m ms] eqn:F.
    + right. destruct Ho as [<-|[]]. split; [reflexivity|].
      intros r Hr E. injection E as ->.
      assert (Hin : In r (filter (fun r0 => String.eqb (rkey r0) (rkey r))
                            right)).
      { apply filter_In. split; [exact Hr|apply String.eqb_refl]. }
      rewrite F in Hin. exact Hin.
    + left. apply in_map_iff in Ho. destruct Ho as [r [<- Hr]].
      rewrite <- F in Hr. apply filter_In in Hr. destruct Hr as [Hr E].
      apply String.eqb_eq in E. exists r. subst k. auto.
  - right. destruct Ho as [<-|[]]. split; [reflexivity|]. discriminate.
Qed.

Section Attaching.

Context {T : Type}.
Variable bkey : row -> option string.
Variable rkey : T -> string.
Variable get : purchase -> option T.
Variable attach : purchase -> option T -> purchase.
Hypothesis attach_base : forall p o, base (attach p o) = base p.
Hypothesis attach_get : forall p o, get (attach p o) = o.

(** The merge attaches to every row the table row of its key. *)
Lemma merge_attaches (l : list purchase) (table : list T) :
  (forall p g, In p l -> bkey (base p) = Some g -> In g (map rkey table)) ->
  Forall (attached bkey rkey get table)
         (merge_left String.eqb (fun p => bkey (base p)) rkey attach l table).
Proof.
  intros Keys. apply Forall_forall. intros o Ho.
  apply merge_left_attached in Ho.
  destruct Ho as [p [Hp [[t [Ht [E ->]]]|[-> N]]]]; unfold attached;
    rewrite attach_base, attach_get.
  - rewrite E. exists t. auto.
  - destruct (bkey (base p)) as [g|] eqn:E; [|reflexivity].
    exfalso. specialize (Keys p g Hp E). apply in_map_iff in Keys.
    destruct Keys as [t [<- Ht]]. now apply (N t Ht).
Qed.

End Attaching.

(** A later merge keeps what an earlier one attached. *)
Lemma attached_kept {T R' : Type} (bkey : row -> option string)
      (rkey : T -> string) (get : purchase -> option T) (table : list T)
      (lkey : purchase -> option string) (rkey' : R' -> string)
      (attach : purchase -> option R' -> purchase)
      (l : list purchase) (right : list R') :
  (forall p o, base (attach p o) = base p /\ get (attach p o) = get p) ->
  Forall (attached bkey rkey get table) l ->
  Forall (attached bkey rkey get table)
         (merge_left String.eqb lkey rkey' attach l right).
Proof.
  intros A. apply merge_left_Forall. intros p o Hp. unfold attached in *.
  destruct (A p o) as [-> ->]. exact Hp.
Qed.

Lemma keys_of_customers (l : list purchase) (p : purchase) (g : string) :
  In p l -> customer_guid (base p) = Some g ->
  In g (map CustomerTotals.customer_guid (customer_totals_of l)).
Proof.
  intros Hp E. unfold customer_totals_of. rewrite map_map. cbn.
  rewrite <- (map_map fst (fun k => k)), map_id, groupby_keys.
  apply (In_group_keys _ _ _ String.eqb_eq). eauto.
Qed.

Lemma keys_of_vendors (l : list purchase) (p : purchase) (v : string) :
  In p l -> vendor_name (base p) = Some v ->
  In v (map VendorStats.vendor_name (vendor_stats_of l)).
Proof.
  intros Hp E. unfold vendor_stats_of. rewrite map_map. cbn.
  rewrite <- (map_map fst (fun k => k)), map_id, groupby_keys.
  apply (In_group_keys _ _ _ String.eqb_eq). eauto.
Qed.

(** X9.  Every row of the enhanced purchases table carries, in the columns
    merged from the customer table, the row of that table for its own
    customer id, and in the columns merged from the vendor table the row of
    that table for its own vendor name; these columns are null exactly in
    the rows whose customer id, or vendor name, is null. *)
Theorem merged_columns (df checkins_df : frame row) (e : enhanced)
        (p : purchase) :
  create_enhanced_datasets df checkins_df = Return e ->
  In p (rows (purchases_enhanced e)) ->
  attached customer_guid CustomerTotals.customer_guid customer
           (customer_totals e) p
  /\ attached vendor_name VendorStats.vendor_name vendor (vendor_stats e) p.
Proof.
  intros H. apply create_enhanced_datasets_inv in H.
  destruct H as [_ [_ [E [V C]]]]. rewrite E, V, C. cbn [rows]. clear E V C.
  unfold enhanced_rows.
  set (l0 := map (derived_row (has_column df "unit_cost")) (rows df)).
  set (b := has_column df "purchase_location").
  assert (C1 : Forall (attached customer_guid CustomerTotals.customer_guid
                         customer (customer_totals_of l0))
                      (with_customers l0)).
  { unfold with_customers, merge_customer_totals.
    apply (merge_attaches customer_guid); try reflexivity.
    apply keys_of_customers. }
  set (l1 := with_customers l0) in *.
  assert (V2 : Forall (attached vendor_name VendorStats.vendor_name vendor
                         (vendor_stats_of l1))
                      (with_vendors l1)).
  { unfold with_vendors, merge_vendor_stats.
    apply (merge_attaches vendor_name); try reflexivity.
    apply keys_of_vendors. }
  assert (C2 : Forall (attached customer_guid CustomerTotals.customer_guid
                         customer (customer_totals_of l0))
                      (with_vendors l1)).
  { unfold with_vendors, merge_vendor_stats.
    apply attached_kept; [now split|exact C1]. }
  set (l2 := with_vendors l1) in *.
  assert (C3 : Forall (attached customer_guid CustomerTotals.customer_guid
                         customer (customer_totals_of l0))
                      (with_locations b l2)
               /\ Forall (attached vendor_name VendorStats.vendor_name vendor
                            (vendor_stats_of l1))
                         (with_locations b l2)).
  { unfold with_locations. destruct b; [|now split].
    unfold merge_location_stats.
    split; (apply attached_kept; [now split|assumption]). }
  destruct C3 as [C3 V3].
  set (l3 := with_locations b l2) in *.
  intros Hp. split.
  - assert (C4 : Forall (attached customer_guid CustomerTotals.customer_guid
                           customer (customer_totals_of l0))
                        (with_product_ranks l3)).
    { unfold with_product_ranks, merge_product_rank.
      apply attached_kept; [now split|exact C3]. }
    rewrite Forall_forall in C4. now apply C4.
  - assert (V4 : Forall (attached vendor_name VendorStats.vendor_name vendor
                           (vendor_stats_of l1))
                        (with_product_ranks l3)).
    { unfold with_product_ranks, merge_product_rank.
      apply attached_kept; [now split|exact V3]. }
    rewrite Forall_forall in V4. now apply V4.
Qed.

(** X9, on the first row of the three-sale table. *)
Lemma merged_columns_witness :
  exists e p,
    create_enhanced_datasets Samples.three_sales DataFrame = Return e
    /\ nth_error (rows (purchases_enhanced e)) 0 = Some p
    /\ option_map CustomerTotals.CustomerTotalSpent (customer p) = Some 40%Q
    /\ attached customer_guid CustomerTotals.customer_guid customer
                (customer_totals e) p.
Proof.
  eexists. eexists. split; [vm_compute; reflexivity|].
  split; [vm_compute; reflexivity|]. split; [vm_compute; reflexivity|].
  refine (proj1 (merged_columns Samples.three_sales DataFrame _ _ _ _)).
  - vm_compute. reflexivity.
  - left. reflexivity.
Defined.

End TableFacts.

(** ** When the enricher raises, and the check-in half *)

Module EnricherMore.
Import Pandas Enricher Tables.
Import PandasFacts EnricherFacts TableFacts.

Lemma require_raises {R : Type} (df : frame R) (label : string) (x : exn) :
  require df label = Raise x ->
  x = KeyError label /\ has_column df label = false.
Proof.
  unfold require. destruct (has_column df label); [discriminate|].
  intros E. injection E as <-. auto.
Qed.

Lemma checkin_labels (checkins_df : frame row) :
  existsb (String.eqb "customer_name")
          (if has_column checkins_df "checkin_date"
           then add_columns checkin_time_columns (columns checkins_df)
           else columns checkins_df)
  = has_column checkins_df "customer_name".
Proof.
  destruct (has_column checkins_df "checkin_date"); [|reflexivity].
  rewrite has_add_columns. apply orb_false_r.
Qed.

(** The check-in half in closed form. *)
Lemma enhance_checkins_spec (checkins_df : frame row) :
  enhance_checkins checkins_df =
  if empty checkins_df then Return DataFrame
  else if has_column checkins_df "customer_name" then
    let has_date := has_column checkins_df "checkin_date" in
    let l :=
      map (fun r =>
             {| visit := r;
                times := if has_date
                         then Some (checkin_times_of (checkin_date r))
                         else None;
                frequency := None |})
          (rows checkins_df) in
    Return
      {| columns :=
           (if has_date
            then add_columns checkin_time_columns (columns checkins_df)
            else columns checkins_df)
           ++ ["TotalCheckins"; "CheckinFrequencyRank"];
         rows :=
           merge_left String.eqb (fun c => customer_name (visit c))
                      CheckinFrequency.customer_name
                      (fun c f => {| visit := visit c; times := times c;
                                     frequency := f |})
                      l (checkin_frequency_of l) |}
  else Raise (KeyError "customer_name").
Proof.
  unfold enhance_checkins.
  destruct (empty checkins_df); cbn [negb]; [reflexivity|].
  cbv zeta. unfold require.
  match goal with
  | |- context [has_column {| columns := ?c; rows := ?r |} "customer_name"] =>
      change (has_column {| columns := c; rows := r |} "customer_name")
        with (existsb (String.eqb "customer_name") c)
  end.
  rewrite checkin_labels.
  destruct (has_column checkins_df "customer_name"); reflexivity.
Qed.

Lemma not_empty {R : Type} (cs : list string) (rs : list R) :
  cs <> [] -> rs <> [] -> empty {| columns := cs; rows := rs |} = false.
Proof.
  intros C N. unfold empty. cbn [columns rows].
  destruct cs; [congruence|]. destruct rs; [congruence|reflexivity].
Qed.

(** The check-in half keeps a table that is not empty not empty, and adds
    no checkin_date column. *)
Lemma enhance_checkins_kept (checkins_df : frame row) (out : frame checkin) :
  enhance_checkins checkins_df = Return out ->
  empty checkins_df = false ->
  empty out = false
  /\ has_column out "checkin_date" = has_column checkins_df "checkin_date".
Proof.
  rewrite enhance_checkins_spec. intros H Em. rewrite Em in H.
  destruct (has_column checkins_df "customer_name"); [|discriminate].
  cbv zeta in H. injection H as <-. split.
  - apply not_empty.
    + intros Z. apply app_eq_nil in Z. destruct Z as [_ Z]. discriminate.
    + unfold empty in Em.
      destruct (columns checkins_df); [discriminate|].
      destruct (rows checkins_df) as [|r rs]; [discriminate|].
      cbn [map].
      match goal with
      | |- merge_left ?eqb ?lkey ?rkey ?attach (?l :: ?ls) ?right <> [] =>
          destruct (merge_left_In eqb lkey rkey attach (l :: ls) right l
                      (or_introl eq_refl)) as [o Ho]
      end.
      intros Z. rewrite Z in Ho. destruct Ho.
  - unfold has_column at 1. cbn [columns]. rewrite existsb_app.
    replace (existsb (String.eqb "checkin_date")
               ["TotalCheckins"; "CheckinFrequencyRank"]) with false
      by reflexivity.
    rewrite orb_false_r.
    destruct (has_column checkins_df "checkin_date") eqn:Cd; cbv iota.
    + rewrite !has_add_column. fold (has_column checkins_df "checkin_date").
      rewrite Cd. reflexivity.
    + exact Cd.
Qed.

Ltac missing_label R :=
  unfold has_column in R |- *; cbn [columns] in R;
  repeat rewrite existsb_app in R; repeat rewrite has_add_columns in R;
  repeat (apply orb_false_iff in R; destruct R as [R _]); exact R.



Lemma keys_of_checkins (l : list checkin) :
  map CheckinFrequency.customer_name (checkin_frequency_of l)
  = group_keys String.eqb String.leb (fun c => customer_name (visit c)) l.
Proof.
  unfold checkin_frequency_of. rewrite map_map. cbn.
  rewrite <- (map_map fst (fun k => k)), map_id. apply groupby_keys.
Qed.

Lemma visits_counted (has_date : bool) (sheet : list row) (n : string) :
  List.length
    (filter (in_group String.eqb (fun c => customer_name (visit c)) n)
       (map (fun r =>
               {| visit := r;
                  times := if has_date
                           then Some (checkin_times_of (checkin_date r))
                           else None;
                  frequency := None |}) sheet))
  = List.length (filter (visits_of n) sheet).
Proof.
  induction sheet as [|r sheet IH]; cbn [map filter]; [reflexivity|].
  unfold in_group at 1, visits_of at 1. cbn [visit].
  destruct (customer_name r) as [m|]; [|exact IH].
  destruct (String.eqb m n); cbn [List.length]; now rewrite IH.
Qed.

(** X11.  When the check-ins table is not empty, the enhanced check-ins
    table holds every check-in exactly once and in sheet order: unlike the
    product merge of the purchases, the merge of the visit counts adds no
    row.  A row whose customer_name is not null carries the number of
    check-ins of that name, which is at least 1; a row whose customer_name
    is null carries a null count.  The five time columns are there exactly
    when the sheet has a checkin_date column.  An empty check-ins table,
    also one with column labels but no rows, comes back as a table without
    columns. *)
Theorem checkins_enhanced_rows (df checkins_df : frame row) (e : enhanced) :
  create_enhanced_datasets df checkins_df = Return e ->
  let out := checkins_enhanced e in
  (empty checkins_df = true -> out = DataFrame)
  /\ (empty checkins_df = false ->
      map visit (rows out) = rows checkins_df
      /\ (forall k, In k (rows out) ->
            match customer_name (visit k) with
            | Some n =>
                exists f, frequency k = Some f
                          /\ CheckinFrequency.customer_name f = n
                          /\ CheckinFrequency.TotalCheckins f
                             = List.length (filter (visits_of n)
                                              (rows checkins_df))
                          /\ (1 <= CheckinFrequency.TotalCheckins f)%nat
            | None => frequency k = None
            end)
      /\ (forall k, In k (rows out) ->
            times k
            = if has_column checkins_df "checkin_date"
              then Some (checkin_times_of (checkin_date (visit k)))
              else None)
      /\ columns out
         = (if has_column checkins_df "checkin_date"
            then add_columns checkin_time_columns (columns checkins_df)
            else columns checkins_df)
           ++ ["TotalCheckins"; "CheckinFrequencyRank"]).
Proof.
  intros H. apply create_enhanced_datasets_inv in H.
  destruct H as [_ [H _]]. cbv zeta. rewrite enhance_checkins_spec in H.
  destruct (empty checkins_df).
  { injection H as <-. split; [reflexivity|discriminate]. }
  split; [discriminate|]. intros _.
  destruct (has_column checkins_df "customer_name"); [|discriminate].
  cbv zeta in H. injection H as <-. cbn [rows columns].
  set (has_date := has_column checkins_df "checkin_date").
  set (l := map _ (rows checkins_df)).
  assert (L : map visit l = rows checkins_df).
  { unfold l. rewrite map_map. cbn. apply map_id. }
  assert (N : NoDup (map CheckinFrequency.customer_name
                       (checkin_frequency_of l))).
  { rewrite keys_of_checkins. apply NoDup_group_keys, String.eqb_eq. }
  split; [|split; [|split; [|reflexivity]]].
  - rewrite <- L. apply merge_left_one; [reflexivity|exact N].
  - intros k Hk. apply merge_left_attached in Hk.
    destruct Hk as [c [Hc [[f [Hf [E ->]]]|[-> M]]]]; cbn [visit frequency].
    + rewrite E. exists f. split; [reflexivity|]. split; [reflexivity|].
      assert (C : CheckinFrequency.TotalCheckins f
                  = List.length (filter (visits_of
                                           (CheckinFrequency.customer_name f))
                                   (rows checkins_df))).
      { unfold checkin_frequency_of, groupby in Hf. rewrite map_map in Hf.
        apply in_map_iff in Hf. destruct Hf as [n [<- _]].
        cbn [CheckinFrequency.TotalCheckins CheckinFrequency.customer_name
             fst snd].
        apply visits_counted. }
      split; [exact C|]. rewrite C.
      unfold l in Hc. apply in_map_iff in Hc. destruct Hc as [r [<- Hr]].
      cbn [visit] in E.
      assert (Hin : In r (filter (visits_of (CheckinFrequency.customer_name f))
                            (rows checkins_df))).
      { apply filter_In. split; [exact Hr|]. unfold visits_of. rewrite E.
        apply String.eqb_refl. }
      destruct (filter _ (rows checkins_df)); [destruct Hin|simpl; lia].
    + destruct (customer_name (visit c)) as [n|] eqn:E; [|reflexivity].
      exfalso.
      assert (Hn : In n (map CheckinFrequency.customer_name
                           (checkin_frequency_of l))).
      { rewrite keys_of_checkins. apply (In_group_keys _ _ _ String.eqb_eq).
        exists c. auto. }
      apply in_map_iff in Hn. destruct Hn as [f [<- Hf]]. now apply (M f Hf).
  - assert (F : Forall (fun k => times k
                                 = if has_date
                                   then Some (checkin_times_of
                                                (checkin_date (visit k)))
                                   else None)
                       (merge_left String.eqb
                          (fun c => customer_name (visit c))
                          CheckinFrequency.customer_name
                          (fun c f => {| visit := visit c; times := times c;
                                         frequency := f |})
                          l (checkin_frequency_of l))).
    { apply (merge_left_Forall _ _ _ _
               (fun k => times k
                         = if has_date
                           then Some (checkin_times_of (checkin_date (visit k)))
                           else None)).
      - intros c o Hc. exact Hc.
      - unfold l. apply Forall_forall. intros c Hc. apply in_map_iff in Hc.
        destruct Hc as [r [<- _]]. reflexivity. }
    rewrite Forall_forall in F. exact F.
Qed.

(** X11, on the three-visit sheet. *)
Lemma checkins_enhanced_rows_witness :
  exists e,
    create_enhanced_datasets Samples.three_sales Samples.three_visits
    = Return e
    /\ map visit (rows (checkins_enhanced e)) = rows Samples.three_visits.
Proof.
  eexists. split; [vm_compute; reflexivity|].
  refine (proj1 (proj2 (checkins_enhanced_rows Samples.three_sales
                          Samples.three_visits _ _) _)).
  - vm_compute. reflexivity.
  - reflexivity.
Defined.

End EnricherMore.

(** ** The time columns *)

Module TimeFacts.
Import Pandas Enricher Tables EnricherFacts.

Local Open Scope Z_scope.

Lemma hour_range (t : Z) : 0 <= hour t < 24.
Proof. unfold hour. apply Z.mod_pos_bound. lia. Qed.

Lemma dayofweek_range (t : Z) : 0 <= dayofweek t < 7.
Proof. unfold dayofweek. apply Z.mod_pos_bound. lia. Qed.

Lemma day_name_nth (t : Z) :
  Some (day_name t) = nth_error week_days (Z.to_nat (dayofweek t)).
Proof.
  unfold day_name. pose proof (dayofweek_range t) as R.
  assert (C : (Z.to_nat (dayofweek t) < 7)%nat) by lia.
  destruct (Z.to_nat (dayofweek t)) as [|[|[|[|[|[|[|n]]]]]]];
    try reflexivity. lia.
Qed.

Lemma civil_month (z : Z) : 1 <= snd (fst (civil z)) <= 12.
Proof.
  unfold civil. cbv zeta. cbn [fst snd].
  set (z' := z + 719468).
  set (doe := z' - z' / 146097 * 146097).
  assert (D : 0 <= doe < 146097) by (unfold doe; Z.div_mod_to_equations; lia).
  clearbody doe. clear z z'.
  set (yoe := (doe - doe / 1460 + doe / 36524 - doe / 146096) / 365).
  set (doy := doe - (365 * yoe + yoe / 4 - yoe / 100)).
  assert (Y : 0 <= doy <= 365).
  { unfold doy, yoe. Z.div_mod_to_equations; lia. }
  clearbody doy.
  destruct ((5 * doy + 2) / 153 <? 10) eqn:E.
  - apply Z.ltb_lt in E. Z.div_mod_to_equations; lia.
  - apply Z.ltb_ge in E. Z.div_mod_to_equations; lia.
Qed.

(** A day is one of the 366 days that follow the first of January of its
    own year. *)
Lemma year_day (z : Z) : 0 <= z - new_year (fst (fst (civil z))) <= 365.
Proof.
  unfold civil, new_year. cbv zeta. cbn [fst snd].
  set (z' := z + 719468).
  set (era := z' / 146097).
  set (doe := z' - era * 146097).
  assert (D : 0 <= doe < 146097)
    by (unfold doe, era; Z.div_mod_to_equations; lia).
  assert (Z' : z = doe + era * 146097 - 719468) by (unfold doe, z'; lia).
  clearbody doe era. clear z'. subst z.
  set (yoe := (doe - doe / 1460 + doe / 36524 - doe / 146096) / 365).
  assert (Y : 0 <= yoe <= 399) by (unfold yoe; Z.div_mod_to_equations; lia).
  set (doy := doe - (365 * yoe + yoe / 4 - yoe / 100)).
  assert (Yd : 0 <= doy <= 365).
  { unfold doy, yoe. Z.div_mod_to_equations; lia. }
  assert (Leap : doy = 365 ->
                 yoe mod 4 = 3 /\ (yoe mod 100 <> 99 \/ yoe = 399)).
  { unfold doy, yoe. Z.div_mod_to_equations; lia. }
  assert (De : doe = doy + (365 * yoe + yoe / 4 - yoe / 100))
    by (unfold doy; lia).
  clearbody doy yoe. subst doe.
  destruct ((5 * doy + 2) / 153 <? 10) eqn:E.
  - apply Z.ltb_lt in E.
    assert (M : ((5 * doy + 2) / 153 + 3 <=? 2) = false)
      by (apply Z.leb_gt; Z.div_mod_to_equations; lia).
    rewrite M.
    assert (Dl : doy < 306) by (Z.div_mod_to_equations; lia).
    assert (Er : (yoe + era * 400 - 1) / 400
                 = if yoe =? 0 then era - 1 else era).
    { destruct (yoe =? 0) eqn:Q;
        [apply Z.eqb_eq in Q|apply Z.eqb_neq in Q];
        Z.div_mod_to_equations; lia. }
    rewrite Er.
    destruct (yoe =? 0) eqn:Q; [apply Z.eqb_eq in Q|apply Z.eqb_neq in Q].
    + subst yoe. Z.div_mod_to_equations; lia.
    + Z.div_mod_to_equations; lia.
  - apply Z.ltb_ge in E.
    assert (M : ((5 * doy + 2) / 153 - 9 <=? 2) = true)
      by (apply Z.leb_le; Z.div_mod_to_equations; lia).
    rewrite M.
    assert (Dl : 306 <= doy) by (Z.div_mod_to_equations; lia).
    replace (yoe + era * 400 + 1 - 1) with (yoe + era * 400) by lia.
    assert (Er : (yoe + era * 400) / 400 = era)
      by (Z.div_mod_to_equations; lia).
    rewrite Er. Z.div_mod_to_equations; lia.
Qed.

Lemma isoweek_range (t : Z) : 1 <= isoweek t <= 53.
Proof.
  unfold isoweek. cbv zeta.
  pose proof (year_day (days t - dayofweek t + 3)) as Y.
  Z.div_mod_to_equations; lia.
Qed.

Lemma derive_dated (b : bool) (r : row) : dated r (derive b r).
Proof.
  unfold dated, derive. cbn [Hour DayOfWeek DayNum Month Year Week YearMonth
                               TimePeriod].
  destruct (purchase_date r) as [t|]; cbn [option_map].
  - exists (hour t), (dayofweek t), (month t), (isoweek t).
    split; [reflexivity|]. split; [apply hour_range|].
    split; [reflexivity|]. split; [reflexivity|].
    split; [apply dayofweek_range|]. split; [apply day_name_nth|].
    split; [reflexivity|]. split; [apply civil_month|].
    split; [reflexivity|apply isoweek_range].
  - repeat split.
Qed.

Lemma enhanced_dated (df : frame row) (p : purchase) :
  In p (enhanced_rows df) -> dated (base p) (calc p).
Proof.
  pose proof (keeps_enhanced dated df) as K.
  unfold keeps in K. rewrite Forall_forall in K. apply K.
  intros r _. apply derive_dated.
Qed.

(** X12.  In every row of the enhanced purchases table that has a purchase
    date, Hour lies in 0..23 and TimePeriod is the bucket of that hour,
    DayNum lies in 0..6 and DayOfWeek is the name of that day counted from
    Monday, Month lies in 1..12 and Week in 1..53.  In a row whose purchase
    date is null, Hour, DayOfWeek, DayNum, Month, Year and Week are null,
    YearMonth reads NaT and TimePeriod reads Night. *)
Theorem time_columns_hold (df checkins_df : frame row) (e : enhanced)
        (p : purchase) :
  create_enhanced_datasets df checkins_df = Return e ->
  In p (rows (purchases_enhanced e)) ->
  dated (base p) (calc p).
Proof.
  intros H Hp. apply create_enhanced_datasets_inv in H.
  destruct H as [_ [_ [E _]]]. rewrite E in Hp. cbn [rows] in Hp.
  now apply (enhanced_dated df).
Qed.

(** X12, on the first row of the three-sale table. *)
Lemma time_columns_hold_witness :
  exists e p,
    create_enhanced_datasets Samples.three_sales DataFrame = Return e
    /\ nth_error (rows (purchases_enhanced e)) 0 = Some p
    /\ Hour (calc p) = Some 8
    /\ dated (base p) (calc p).
Proof.
  eexists. eexists. split; [vm_compute; reflexivity|].
  split; [vm_compute; reflexivity|]. split; [vm_compute; reflexivity|].
  refine (time_columns_hold Samples.three_sales DataFrame _ _ _ _).
  - vm_compute. reflexivity.
  - left. reflexivity.
Defined.

End TimeFacts.

(** ** The summary tables *)

Module SummaryFacts.
Import Pandas Enricher Aggregator Tables.
Import PandasFacts EnricherFacts AggregatorFacts TableFacts.

Section Descending.

Context {A : Type} (by_ : A -> Q).

Lemma sort_descending_sorted (l : list A) :
  descending by_ (sort_descending by_ l).
Proof.
  unfold descending, sort_descending.
  set (leb := fun a b => Qle_bool (by_ b) (by_ a)).
  assert (S : Sorted (fun a b => leb a b = true) (sort leb l)).
  { apply sort_sorted. intros a b. unfold leb.
    destruct (Qlt_le_dec (by_ a) (by_ b)) as [L|L].
    - right. apply Qle_bool_iff. now apply Qlt_le_weak.
    - left. now apply Qle_bool_iff. }
  apply Sorted_StronglySorted in S.
  - induction S as [|a l' S IH F]; constructor; [exact IH|].
    apply (Forall_impl _ (P := fun b => leb a b = true)); [|exact F].
    intros b. unfold leb. apply Qle_bool_iff.
  - intros a b c. unfold leb. rewrite !Qle_bool_iff. intros H1 H2.
    now apply (Qle_trans _ (by_ b)).
Qed.

Lemma descending_app (l1 l2 : list A) :
  descending by_ (l1 ++ l2) ->
  descending by_ l1 /\ forall a b, In a l1 -> In b l2 -> by_ b <= by_ a.
Proof.
  unfold descending. induction l1 as [|x l1 IH]; cbn; intros S.
  - split; [constructor|]. intros a b [].
  - inversion S as [|? ? S' F]; subst. destruct (IH S') as [S1 C].
    apply Forall_app in F. destruct F as [F1 F2].
    split; [now constructor|].
    intros a b [<-|Ha] Hb; [|now apply C].
    rewrite Forall_forall in F2. now apply F2.
Qed.

Lemma head_leaders (n : nat) (l : list A) :
  leaders by_ n (head n (sort_descending by_ l)) l.
Proof.
  unfold leaders, head.
  pose proof (sort_descending_sorted l) as S.
  assert (P : Permutation (sort_descending by_ l) l)
    by (unfold sort_descending; apply sort_perm).
  rewrite <- (firstn_skipn n (sort_descending by_ l)) in S.
  apply descending_app in S. destruct S as [S C].
  split; [|split; [exact S|]].
  - rewrite length_firstn. now rewrite (Permutation_length P).
  - exists (skipn n (sort_descending by_ l)). split; [|exact C].
    now rewrite firstn_skipn.
Qed.

End Descending.

Lemma summaries_inv (purchases_df : frame purchase)
      (checkins_df : frame checkin) (s : summaries) :
  create_summary_tables purchases_df checkins_df = Return s ->
  let l := rows purchases_df in
  hourly_sales s
  = sales_by Z.eqb Z.leb (fun p => Hour (calc p))
             (fun p => customer_guid (base p)) l
  /\ daily_sales s
     = sales_by String.eqb String.leb (fun p => DayOfWeek (calc p))
                (fun p => customer_guid (base p)) l
  /\ top_vendors s
     = head 20 (sort_descending TopVendors.TotalSales (vendor_sales true l))
  /\ top_customers s
     = head 50 (sort_descending TopCustomers.TotalSpent (customer_sales l))
  /\ top_locations s
     = if has_column purchases_df "purchase_location"
       then Some (sort_descending Sales.TotalSales
                    (sales_by String.eqb String.leb
                              (fun p => purchase_location (base p))
                              (fun p => purchase_date (base p)) l))
       else None.
Proof.
  intros H. pose proof (create_summary_tables_ready _ _ _ H) as R.
  rewrite (create_summary_tables_spec _ checkins_df R) in H.
  cbv zeta in H. injection H as <-. repeat split.
Qed.

(** X13.  The top_vendors table holds the 20 vendors with the greatest total
    sales, or all of them when there are fewer, greatest first, and no vendor
    left out has a greater total than a vendor listed; the top_customers
    table holds the 50 customers with the greatest spend in the same way.
    The top_locations table, written when the table has a purchase_location
    column, lists every location, greatest total first. *)
Theorem top_tables (purchases_df : frame purchase) (checkins_df : frame checkin)
        (s : summaries) :
  create_summary_tables purchases_df checkins_df = Return s ->
  leaders TopVendors.TotalSales 20 (top_vendors s)
          (vendor_sales true (rows purchases_df))
  /\ leaders TopCustomers.TotalSpent 50 (top_customers s)
             (customer_sales (rows purchases_df))
  /\ match top_locations s with
     | Some locations =>
         has_column purchases_df "purchase_location" = true
         /\ descending Sales.TotalSales locations
         /\ Permutation locations
              (sales_by String.eqb String.leb
                        (fun p => purchase_location (base p))
                        (fun p => purchase_date (base p))
                        (rows purchases_df))
     | None => has_column purchases_df "purchase_location" = false
     end.
Proof.
  intros H. destruct (summaries_inv _ _ _ H) as [_ [_ [V [C L]]]].
  rewrite V, C, L. clear V C L.
  split; [apply head_leaders|]. split; [apply head_leaders|].
  destruct (has_column purchases_df "purchase_location"); [|reflexivity].
  split; [reflexivity|]. split; [apply sort_descending_sorted|].
  unfold sort_descending. apply sort_perm.
Qed.

(** X13, on the twenty-one vendors. *)
Lemma top_tables_witness :
  exists e s,
    create_enhanced_datasets Samples.many_vendors DataFrame = Return e
    /\ create_summary_tables (purchases_enhanced e) (checkins_enhanced e)
       = Return s
    /\ List.length (top_vendors s) = 20%nat
    /\ leaders TopVendors.TotalSales 20 (top_vendors s)
               (vendor_sales true (rows (purchases_enhanced e))).
Proof.
  eexists. eexists.
  split; [vm_compute; reflexivity|].
  split; [vm_compute; reflexivity|].
  split; [vm_compute; reflexivity|].
  refine (proj1 (top_tables _ DataFrame _ _)).
  vm_compute. reflexivity.
Defined.

Section GroupTotals.

Context {K : Type} (eqb leb : K -> K -> bool).
Hypothesis eqb_eq : forall a b, eqb a b = true <-> a = b.
Variable key : purchase -> option K.

Lemma total_pick_key (ks : list K) (k0 : K) (x : Q) :
  NoDup ks -> In k0 ks ->
  total (fun k => if eqb k0 k then x else 0) ks == x.
Proof.
  unfold total. induction ks as [|k ks IH]; cbn; intros N H; [tauto|].
  inversion N as [|? ? Hn N']; subst.
  destruct (eqb k0 k) eqn:E.
  - apply eqb_eq in E. subst k.
    rewrite (total_zero (fun k => if eqb k0 k then x else 0) ks).
    + ring.
    + intros a Ha. destruct (eqb k0 a) eqn:E; [|reflexivity].
      apply eqb_eq in E. subst a. contradiction.
  - destruct H as [H|H].
    + subst. rewrite (proj2 (eqb_eq k0 k0) eq_refl) in E. discriminate.
    + rewrite (IH N' H). ring.
Qed.

Lemma totals_by_key (ks : list K) (l : list purchase) :
  NoDup ks ->
  (forall p k, In p l -> key p = Some k -> In k ks) ->
  total (fun k => sum (prices (filter (in_group eqb key k) l))) ks
  == sum (prices (filter (has_key key) l)).
Proof.
  intros N. induction l as [|p l IH]; intros H.
  - cbn. apply total_zero. reflexivity.
  - assert (Hl : forall q k, In q l -> key q = Some k -> In k ks)
      by (intros q k Hq; apply H; now right).
    specialize (IH Hl).
    rewrite (total_ext _
               (fun k => (if in_group eqb key k p
                          then value (Enricher.price p) else 0)
                         + sum (prices (filter (in_group eqb key k) l)))).
    2:{ intros k _. cbn [filter].
        destruct (in_group eqb key k p).
        - unfold prices, Enricher.prices. cbn [map]. apply sum_cons.
        - now rewrite Qplus_0_l. }
    rewrite total_plus, IH. cbn [filter]. unfold has_key at 2, in_group.
    destruct (key p) as [k0|] eqn:E.
    + unfold prices, Enricher.prices. cbn [map]. rewrite sum_cons.
      rewrite (total_pick_key ks k0 _ N (H p k0 (or_introl eq_refl) E)).
      reflexivity.
    + rewrite total_zero by reflexivity. now rewrite Qplus_0_l.
Qed.

(** The TotalSales column of a grouped table adds up to the prices of the
    rows that have a key. *)
Lemma sales_by_total {C : Type} (counted : purchase -> option C)
      (l : list purchase) :
  total Sales.TotalSales (sales_by eqb leb key counted l)
  == sum (prices (filter (has_key key) l)).
Proof.
  unfold total, sales_by, groupby. rewrite !map_map.
  cbn [Sales.TotalSales fst snd].
  apply (totals_by_key (group_keys eqb leb key l)).
  - now apply NoDup_group_keys.
  - intros p k Hp Hk. apply (In_group_keys _ _ _ eqb_eq). eauto.
Qed.

Lemma sales_by_keys {C : Type} (counted : purchase -> option C)
      (l : list purchase) :
  map Sales.key (sales_by eqb leb key counted l) = group_keys eqb leb key l.
Proof.
  unfold sales_by. rewrite map_map. cbn [Sales.key].
  rewrite <- (map_map fst (fun k => k)), map_id. apply groupby_keys.
Qed.

End GroupTotals.

Lemma strictly_ascending (l : list Z) :
  Sorted (fun a b => Z.leb a b = true) l -> NoDup l ->
  StronglySorted Z.lt l.
Proof.
  intros S N. apply Sorted_StronglySorted in S.
  - induction S as [|a l S IH F]; constructor.
    + apply IH. now inversion N.
    + inversion N as [|? ? Hn N']; subst.
      rewrite Forall_forall in *. intros b Hb. specialize (F b Hb).
      apply Z.leb_le in F. assert (a <> b) by (intros ->; contradiction).
      lia.
  - intros a b c. rewrite !Z.leb_le. lia.
Qed.

Lemma hours_of_day (l : list Z) :
  NoDup l -> (forall h, In h l -> (0 <= h < 24)%Z) -> (List.length l <= 24)%nat.
Proof.
  intros N H.
  change 24%nat with (List.length (map Z.of_nat (seq 0 24))).
  apply NoDup_incl_length; [exact N|].
  intros h Hh. specialize (H h Hh). apply in_map_iff.
  exists (Z.to_nat h). split; [lia|]. apply in_seq. lia.
Qed.

(** X14.  Of the tables [create_summary_tables] makes from an enhanced
    purchases table: hourly_sales has one row per hour in which a purchase
    was made, the hours strictly ascending within 0..23, so at most 24 rows;
    daily_sales has one row per day name, the names in alphabetical rather
    than weekday order, at most 7 rows.  In both, the TotalSales column adds
    up to the prices of the rows that have a purchase date, and the
    TransactionCount of an hour counts the rows of that hour that have a
    customer id. *)
Theorem time_tables (df checkins_df : frame row) (e : enhanced)
        (s : summaries) :
  create_enhanced_datasets df checkins_df = Return e ->
  create_summary_tables (purchases_enhanced e) (checkins_enhanced e)
  = Return s ->
  let l := rows (purchases_enhanced e) in
  let hours := map Sales.key (hourly_sales s) in
  let names := map Sales.key (daily_sales s) in
  let dated_rows :=
    filter (has_key (fun p => purchase_date (base p))) l in
  StronglySorted Z.lt hours
  /\ (forall h, In h hours
                <-> exists p, In p l /\ Hour (calc p) = Some h)
  /\ (forall h, In h hours -> (0 <= h < 24)%Z)
  /\ (List.length (hourly_sales s) <= 24)%nat
  /\ NoDup names /\ ascending names
  /\ (forall n, In n names -> In n week_days)
  /\ (List.length (daily_sales s) <= 7)%nat
  /\ total Sales.TotalSales (hourly_sales s) == sum (prices dated_rows)
  /\ total Sales.TotalSales (daily_sales s) == sum (prices dated_rows)
  /\ forall x, In x (hourly_sales s) ->
       Sales.TransactionCount x
       = List.length (filter (counted_at (Sales.key x)) l).
Proof.
  intros HE HS. cbv zeta.
  destruct (summaries_inv _ _ _ HS) as [Hh [Hd _]]. cbv zeta in Hh, Hd.
  apply create_enhanced_datasets_inv in HE. destruct HE as [_ [_ [E _]]].
  rewrite Hh, Hd, E. cbn [rows]. clear Hh Hd HS E.
  set (l := enhanced_rows df).
  assert (D : forall p, In p l -> dated (base p) (calc p))
    by (intros p; apply TimeFacts.enhanced_dated).
  rewrite !sales_by_keys.
  assert (Nh : NoDup (group_keys Z.eqb Z.leb (fun p => Hour (calc p)) l))
    by apply NoDup_group_keys, Z.eqb_eq.
  assert (Nd : NoDup (group_keys String.eqb String.leb
                        (fun p => DayOfWeek (calc p)) l))
    by apply NoDup_group_keys, String.eqb_eq.
  assert (Rh : forall h,
             In h (group_keys Z.eqb Z.leb (fun p => Hour (calc p)) l) ->
             (0 <= h < 24)%Z).
  { intros h Hh. apply (In_group_keys _ _ _ Z.eqb_eq) in Hh.
    destruct Hh as [p [Hp Eh]]. specialize (D p Hp). unfold dated in D.
    destruct (purchase_date (base p)).
    - destruct D as [h' [_ [_ [_ [E1 [R _]]]]]]. congruence.
    - destruct D as [E1 _]. congruence. }
  assert (Rd : forall n,
             In n (group_keys String.eqb String.leb
                     (fun p => DayOfWeek (calc p)) l) ->
             In n week_days).
  { intros n Hn. apply (In_group_keys _ _ _ String.eqb_eq) in Hn.
    destruct Hn as [p [Hp En]]. specialize (D p Hp). unfold dated in D.
    destruct (purchase_date (base p)).
    - destruct D as [_ [d [_ [_ [_ [_ [_ [_ [_ [E1 _]]]]]]]]]].
      rewrite En in E1. symmetry in E1. now apply nth_error_In in E1.
    - destruct D as [_ [E1 _]]. congruence. }
  assert (F : forall (K : Type) (key : purchase -> option K),
             (forall p, In p l ->
                        has_key key p
                        = has_key (fun p => purchase_date (base p)) p) ->
             filter (has_key key) l
             = filter (has_key (fun p => purchase_date (base p))) l).
  { intros K key H. now apply filter_ext_in. }
  split; [|split; [|split; [|split; [|split; [|split; [|split; [|split;
          [|split; [|split]]]]]]]]].
  - apply strictly_ascending; [|exact Nh]. unfold group_keys.
    apply sort_sorted. intros a b. rewrite !Z.leb_le. lia.
  - intros h. apply (In_group_keys _ _ _ Z.eqb_eq).
  - exact Rh.
  - rewrite <- (length_map Sales.key), sales_by_keys.
    now apply hours_of_day.
  - exact Nd.
  - unfold ascending, group_keys. apply sort_sorted, String.leb_total.
  - exact Rd.
  - rewrite <- (length_map Sales.key), sales_by_keys.
    change 7%nat with (List.length week_days).
    apply NoDup_incl_length; [exact Nd|exact Rd].
  - rewrite (sales_by_total Z.eqb Z.leb Z.eqb_eq).
    rewrite (F Z (fun p => Hour (calc p))); [reflexivity|].
    intros p Hp. specialize (D p Hp). unfold dated, has_key in *.
    destruct (purchase_date (base p)).
    + destruct D as [h [_ [_ [_ [-> _]]]]]. reflexivity.
    + destruct D as [-> _]. reflexivity.
  - rewrite (sales_by_total String.eqb String.leb String.eqb_eq).
    rewrite (F string (fun p => DayOfWeek (calc p))); [reflexivity|].
    intros p Hp. specialize (D p Hp). unfold dated, has_key in *.
    destruct (purchase_date (base p)).
    + destruct D as [_ [d [_ [_ [_ [_ [_ [_ [R [E1 _]]]]]]]]]].
      rewrite E1.
      destruct (nth_error week_days (Z.to_nat d)) eqn:N; [reflexivity|].
      apply nth_error_None in N. cbn in N. lia.
    + destruct D as [_ [-> _]]. reflexivity.
  - intros x Hx. unfold sales_by, groupby in Hx. rewrite map_map in Hx.
    apply in_map_iff in Hx. destruct Hx as [h [<- _]].
    cbn [Sales.TransactionCount Sales.key fst snd].
    unfold count. clear. induction l as [|p l IH]; [reflexivity|].
    cbn [filter]. unfold in_group at 1, counted_at at 1.
    destruct (Hour (calc p)) as [h'|]; [|exact IH].
    destruct (Z.eqb h' h).
    + cbn [map]. destruct (customer_guid (base p)).
      * rewrite RowCountFacts.non_null_some. cbn [List.length].
        now rewrite IH.
      * rewrite RowCountFacts.non_null_none. exact IH.
    + destruct (customer_guid (base p)); exact IH.
Qed.

(** X14, on the three-sale table. *)
Lemma time_tables_witness :
  exists e s,
    create_enhanced_datasets Samples.three_sales DataFrame = Return e
    /\ create_summary_tables (purchases_enhanced e) (checkins_enhanced e)
       = Return s
    /\ map Sales.key (hourly_sales s) = [8; 14]%Z
    /\ map Sales.key (daily_sales s) = ["Monday"; "Tuesday"]
    /\ (List.length (hourly_sales s) <= 24)%nat.
Proof.
  eexists. eexists.
  split; [vm_compute; reflexivity|].
  split; [vm_compute; reflexivity|].
  split; [vm_compute; reflexivity|].
  split; [vm_compute; reflexivity|].
  refine (proj1 (proj2 (proj2 (proj2
            (time_tables Samples.three_sales DataFrame _ _ _ _))))).
  - vm_compute. reflexivity.
  - vm_compute. reflexivity.
Defined.

End SummaryFacts.

(** ** The metadata of an export *)

Module MetadataFacts.
Import Pandas Enricher Aggregator Exporter Tables.
Import PandasFacts EnricherFacts AggregatorFacts ExporterFacts.

Local Open Scope Z_scope.

Lemma fold_min (t0 : Z) (ts : list Z) :
  In (fold_right Z.min t0 ts) (t0 :: ts)
  /\ forall t, In t (t0 :: ts) -> fold_right Z.min t0 ts <= t.
Proof.
  induction ts as [|a ts [I L]]; cbn [fold_right].
  - split; [now left|]. intros t [<-|[]]. lia.
  - split.
    + destruct (Z.min_spec a (fold_right Z.min t0 ts)) as [[_ ->]|[_ ->]].
      * right. now left.
      * destruct I as [I|I]; [now left|right; now right].
    + intros t [<-|[<-|Ht]].
      * specialize (L t0 (or_introl eq_refl)). lia.
      * lia.
      * specialize (L t (or_intror Ht)). lia.
Qed.

Lemma fold_max (t0 : Z) (ts : list Z) :
  In (fold_right Z.max t0 ts) (t0 :: ts)
  /\ forall t, In t (t0 :: ts) -> t <= fold_right Z.max t0 ts.
Proof.
  induction ts as [|a ts [I L]]; cbn [fold_right].
  - split; [now left|]. intros t [<-|[]]. lia.
  - split.
    + destruct (Z.max_spec a (fold_right Z.max t0 ts)) as [[_ ->]|[_ ->]].
      * destruct I as [I|I]; [now left|right; now right].
      * right. now left.
    + intros t [<-|[<-|Ht]].
      * specialize (L t0 (or_introl eq_refl)). lia.
      * lia.
      * specialize (L t (or_intror Ht)). lia.
Qed.

(** [min()] and [max()] of a column: both null on a column without a value,
    otherwise values of the column that bound every value of it. *)
Lemma minimum_maximum (cells : list (option Z)) :
  match minimum cells, maximum cells with
  | Some a, Some b =>
      In (Some a) cells /\ In (Some b) cells
      /\ forall t, In (Some t) cells -> a <= t <= b
  | None, None => forall t, ~ In (Some t) cells
  | _, _ => False
  end.
Proof.
  unfold minimum, maximum.
  destruct (non_null cells) as [|t0 ts] eqn:N.
  - intros t Ht. apply (In_non_null cells t) in Ht. now rewrite N in Ht.
  - destruct (fold_min t0 ts) as [I1 L1], (fold_max t0 ts) as [I2 L2].
    rewrite <- N in I1, I2, L1, L2.
    split; [now apply In_non_null|]. split; [now apply In_non_null|].
    intros t Ht. apply In_non_null in Ht. split; [now apply L1|now apply L2].
Qed.

Lemma In_repeated {A : Type} (c : A -> nat) (l : list A) (a : A) :
  (forall x, (1 <= c x)%nat) ->
  In a (flat_map (fun x => repeat x (c x)) l) <-> In a l.
Proof.
  intros C. rewrite in_flat_map. split.
  - intros [x [Hx Ha]]. apply repeat_spec in Ha. now subst.
  - intros Ha. exists a. split; [exact Ha|].
    specialize (C a). destruct (c a); [lia|now left].
Qed.

(** X15.  In the metadata of an export, the date range is null on both
    sides when no sheet row has a purchase date; otherwise its start is the
    earliest and its end the latest purchase date of the sheet, so the start
    is not after the end.  The purchase count is the number of rows of the
    enhanced table, which is never less than the number of sheet rows. *)
Theorem metadata_date_range (now : Z) (df checkins_df : frame row)
        (x : export) :
  export_for_powerbi now df checkins_df = Return x ->
  let dates := map purchase_date (rows df) in
  match date_range (metadata_json x) with
  | (Some a, Some b) =>
      In (Some a) dates /\ In (Some b) dates /\ a <= b
      /\ forall t, In (Some t) dates -> a <= t <= b
  | (None, None) => forall t, ~ In (Some t) dates
  | _ => False
  end
  /\ (List.length (rows df) <= purchases_count (metadata_json x))%nat.
Proof.
  intros H. apply export_for_powerbi_inv in H.
  destruct H as [e [s [E [_ [_ [_ M]]]]]]. rewrite M. clear M.
  cbn [date_range purchases_count].
  apply create_enhanced_datasets_inv in E. destruct E as [_ [_ [E _]]].
  rewrite E. unfold len. cbn [rows]. clear E. cbv zeta.
  assert (S : forall c, In c (map (fun p => purchase_date (base p))
                                (enhanced_rows df))
                        <-> In c (map purchase_date (rows df))).
  { intros c. rewrite <- (map_map base purchase_date).
    rewrite RowCountFacts.bases_enhanced. rewrite !in_map_iff.
    split; intros [r [Hc Hr]]; exists r; (split; [exact Hc|]).
    - exact (proj1 (In_repeated _ _ _
                      (RowCountFacts.copies_positive (rows df))) Hr).
    - exact (proj2 (In_repeated _ _ _
                      (RowCountFacts.copies_positive (rows df))) Hr). }
  split.
  - pose proof (minimum_maximum (map (fun p => purchase_date (base p))
                                   (enhanced_rows df))) as B.
    destruct (minimum _) as [a|], (maximum _) as [b|]; try exact B.
    + destruct B as [Ia [Ib L]].
      split; [now apply S|]. split; [now apply S|].
      split; [specialize (L a Ia); lia|].
      intros t Ht. apply L. now apply S.
    + intros t Ht. apply (B t). now apply S.
  - rewrite <- (length_map base (enhanced_rows df)).
    rewrite RowCountFacts.bases_enhanced.
    apply RowCountFacts.flat_map_length_ge.
    apply RowCountFacts.copies_positive.
Qed.

(** X15, on the three-sale table. *)
Lemma metadata_date_range_witness :
  exists x,
    export_for_powerbi 0 Samples.three_sales DataFrame = Return x
    /\ (List.length (rows Samples.three_sales)
        <= purchases_count (metadata_json x))%nat.
Proof.
  eexists. split; [vm_compute; reflexivity|].
  refine (proj2 (metadata_date_range 0 Samples.three_sales DataFrame _ _)).
  vm_compute. reflexivity.
Defined.

End MetadataFacts.

(** ** The dashboard: time-of-day labels and the password gate *)

Module DashboardFacts.

(** X16.  The dashboard and the Power BI processor put every hour in the
    same time-of-day bucket: the label of the dashboard is the label of the
    processor followed by the hours of the bucket, and the first word of the
    dashboard's label, which its "Best Period" metric shows, is the
    processor's label.  So two hours share a dashboard label exactly when
    they share a processor label. *)
Theorem time_periods_agree :
  (forall hour,
      In (get_time_period hour, Dashboard.get_time_period hour)
         [("Morning", "Morning (5AM-12PM)");
          ("Afternoon", "Afternoon (12PM-5PM)");
          ("Evening", "Evening (5PM-9PM)");
          ("Night", "Night (9PM-5AM)")])
  /\ (forall hour, Dashboard.best_period_label hour = get_time_period hour)
  /\ (forall hour hour',
         Dashboard.get_time_period hour = Dashboard.get_time_period hour'
         <-> get_time_period hour = get_time_period hour').
Proof.
  assert (A : forall hour,
             In (get_time_period hour, Dashboard.get_time_period hour)
                [("Morning", "Morning (5AM-12PM)");
                 ("Afternoon", "Afternoon (12PM-5PM)");
                 ("Evening", "Evening (5PM-9PM)");
                 ("Night", "Night (9PM-5AM)")]).
  { intros hour. unfold get_time_period, Dashboard.get_time_period.
    destruct ((5 <=? hour)%Z && (hour <? 12)%Z); [simpl; tauto|].
    destruct ((12 <=? hour)%Z && (hour <? 17)%Z); [simpl; tauto|].
    destruct ((17 <=? hour)%Z && (hour <? 21)%Z); simpl; tauto. }
  split; [exact A|]. split.
  - intros hour. unfold Dashboard.best_period_label.
    destruct (A hour) as [E|[E|[E|[E|[]]]]];
      injection E as <- <-; reflexivity.
  - intros hour hour'.
    destruct (A hour) as [E|[E|[E|[E|[]]]]];
      destruct (A hour') as [E'|[E'|[E'|[E'|[]]]]];
      injection E as <- <-; injection E' as <- <-;
      split; intros H; try reflexivity; discriminate H.
Qed.

Section Password.

Variable secret : string.

Local Abbreviation password_entered := (Dashboard.password_entered secret).
Local Abbreviation check_password := (Dashboard.check_password).
Local Abbreviation submit := (Dashboard.submit secret).
Local Abbreviation session := (Dashboard.session secret).

(** One step of the gate.  [check_password] lets through exactly the
    sessions whose flag is True and shows its error exactly when the flag is
    False; the callback sets the flag to whether the text in the box equals
    the password, removes a correct password from the session state and
    leaves a wrong one there. *)
Lemma password_gate :
  (forall st,
      (fst (check_password st) = true
       <-> Dashboard.password_correct st = Some true)
      /\ (In Dashboard.PasswordIncorrect (snd (check_password st))
          <-> Dashboard.password_correct st = Some false)
      /\ (fst (check_password st) = false
          <-> In Dashboard.PasswordInput (snd (check_password st))))
  /\ check_password Dashboard.new_session
     = (false, [Dashboard.AccessRequired; Dashboard.PasswordInput])
  /\ (forall st,
         match Dashboard.password st with
         | Some typed =>
             exists st',
               password_entered st = Return st'
               /\ Dashboard.password_correct st'
                  = Some (String.eqb typed secret)
               /\ Dashboard.password st'
                  = (if String.eqb typed secret then None else Some typed)
               /\ Dashboard.password st' <> Some secret
               /\ (fst (check_password st') = true <-> typed = secret)
         | None => password_entered st = Raise (KeyError "password")
         end).
Proof.
  split; [|split; [reflexivity|]].
  - intros st. unfold Dashboard.check_password.
    destruct (Dashboard.password_correct st) as [[|]|]; cbn;
      (split; [|split]); split; intros H;
      try reflexivity; try discriminate H;
      repeat (destruct H as [H|H]; try discriminate H);
      try contradiction; auto.
  - intros st. unfold Dashboard.password_entered.
    destruct (Dashboard.password st) as [typed|]; [|reflexivity].
    destruct (String.eqb typed secret) eqn:E; eexists;
      (split; [reflexivity|]); cbn;
      (split; [reflexivity|]); (split; [reflexivity|]).
    + apply String.eqb_eq in E. split; [discriminate|]. tauto.
    + apply String.eqb_neq in E. split; [congruence|].
      split; [discriminate|contradiction].
Qed.

Lemma unlocked_stays (st : Dashboard.session_state) (typed : list string) :
  Dashboard.password_correct st = Some true -> session st typed = Return st.
Proof.
  intros U. induction typed as [|t rest IH]; [reflexivity|].
  cbn [Dashboard.session]. unfold Dashboard.submit, Dashboard.check_password.
  rewrite U. cbn [fst bind]. exact IH.
Qed.

Lemma locked_session (st : Dashboard.session_state) (typed : list string) :
  Dashboard.password_correct st <> Some true ->
  exists st',
    session st typed = Return st'
    /\ (Dashboard.password_correct st' = Some true <-> In secret typed)
    /\ (typed <> [] -> Dashboard.password st' <> Some secret)
    /\ (typed <> [] -> ~ In secret typed ->
        Dashboard.password st' = Some (last typed "")
        /\ Dashboard.password_correct st' = Some false).
Proof.
  revert st. induction typed as [|t rest IH]; intros st L.
  - exists st. split; [reflexivity|]. split; [cbn; tauto|].
    split; congruence.
  - cbn [Dashboard.session]. unfold Dashboard.submit.
    assert (C : fst (check_password st) = false).
    { unfold Dashboard.check_password.
      destruct (Dashboard.password_correct st) as [[|]|]; [congruence|reflexivity..]. }
    rewrite C. unfold Dashboard.password_entered. cbn [Dashboard.password].
    destruct (String.eqb t secret) eqn:E; cbn [bind].
    + apply String.eqb_eq in E. subst t.
      rewrite unlocked_stays by reflexivity.
      eexists. split; [reflexivity|].
      cbn [Dashboard.password Dashboard.password_correct].
      split; [split; [intros _; now left|reflexivity]|].
      split; [discriminate|]. intros _ N. exfalso. apply N. now left.
    + apply String.eqb_neq in E.
      destruct (IH {| Dashboard.password := Some t;
                      Dashboard.password_correct := Some false |})
        as [st' [S [U [P W]]]]; [discriminate|].
      exists st'. split; [exact S|]. split; [|split].
      * rewrite U. cbn [In]. split; [tauto|]. intros [H|H]; congruence.
      * intros _. destruct rest as [|t' rest'].
        -- cbn in S. injection S as <-. cbn. congruence.
        -- apply P. discriminate.
      * intros _ N. destruct rest as [|t' rest'].
        -- cbn in S. injection S as <-. cbn. auto.
        -- destruct W as [W1 W2]; [discriminate|intros H; apply N; now right|].
           split; [|exact W2]. rewrite W1. reflexivity.
Qed.

(** X17.  Over a whole browser session, the dashboard is unlocked exactly
    when one of the submitted passwords was the right one, and no submission
    makes the gate raise.  The right password is never left in the session
    state; while every submission was wrong, the last wrong text stays there
    and the error is on the page. *)
Theorem password_session (typed : list string) :
  exists st,
    session Dashboard.new_session typed = Return st
    /\ (fst (check_password st) = true <-> In secret typed)
    /\ Dashboard.password st <> Some secret
    /\ (typed <> [] -> ~ In secret typed ->
        Dashboard.password st = Some (last typed "")
        /\ In Dashboard.PasswordIncorrect (snd (check_password st))).
Proof.
  destruct (locked_session Dashboard.new_session typed) as [st [S [U [P W]]]];
    [discriminate|].
  exists st. split; [exact S|]. split; [|split].
  - rewrite <- U. unfold Dashboard.check_password.
    destruct (Dashboard.password_correct st) as [[|]|]; cbn; split; congruence.
  - destruct typed as [|t rest]; [|apply P; discriminate].
    cbn in S. injection S as <-. discriminate.
  - intros N1 N2. destruct (W N1 N2) as [W1 W2]. split; [exact W1|].
    unfold Dashboard.check_password. rewrite W2. cbn. tauto.
Qed.

End Password.

(** X17, on a session with one wrong and one right submission. *)
Lemma password_session_witness :
  exists st,
    Dashboard.session "open sesame" Dashboard.new_session ["guess"; "open sesame"]
    = Return st
    /\ fst (Dashboard.check_password st) = true
    /\ Dashboard.password st = None.
Proof.
  destruct (password_session "open sesame" ["guess"; "open sesame"])
    as [st [S [U _]]].
  exists st. split; [exact S|]. split.
  - apply U. right. now left.
  - vm_compute in S. injection S as <-. reflexivity.
Defined.

End DashboardFacts.

(** ** The dashboard's date filter, after preprocessing *)

Module DateFilterFacts.
Import Preprocess PreprocessFacts.

Lemma find_map {A B : Type} (f : B -> bool) (g : A -> B) (l : list A) :
  find f (map g l) = option_map g (find (fun a => f (g a)) l).
Proof.
  induction l as [|a l IH]; cbn; [reflexivity|].
  destruct (f (g a)); [reflexivity|exact IH].
Qed.

Lemma find_pointwise {A : Type} (f g : A -> bool) (l : list A) :
  (forall a, In a l -> f a = g a) -> find f l = find g l.
Proof.
  induction l as [|a l IH]; cbn; intros H; [reflexivity|].
  rewrite (H a (or_introl eq_refl)).
  destruct (g a); [reflexivity|]. apply IH. intros x Hx. apply H. now right.
Qed.

(** A label that occurs once looks up its own column. *)
Lemma getitem_unique (df : DataFrame) (c : string * series) :
  In c df -> unique df (fst c) = true ->
  getitem df (fst c) = Return (Series (snd c)).
Proof.
  intros Hc U. unfold unique in U. apply Nat.eqb_eq in U.
  unfold getitem.
  destruct (filter (labelled (fst c)) df) as [|x [|y l]] eqn:F;
    try discriminate U.
  assert (E : c = x).
  { apply (filter_single _ _ _ F); [exact Hc|].
    unfold labelled. apply String.eqb_refl. }
  subst x. reflexivity.
Qed.

Lemma loop_ok_unique (test : string -> bool) (df : DataFrame)
      (c : string * series) :
  loop_ok test df = true -> In c df -> test (fst c) = true ->
  unique df (fst c) = true.
Proof.
  unfold loop_ok. rewrite forallb_forall. intros L Hc T.
  assert (Hin : In (fst c) (columns df)) by (unfold columns; now apply in_map).
  specialize (L _ Hin). rewrite T in L. exact L.
Qed.

Section Parsers.

Variable datetime_outcome : list pyobj -> conversion.
Variable parse_datetime : list pyobj -> pyobj -> option Z.
Variable as_datetime : list pyobj -> pyobj -> pyobj.
Variable parse_numeric : pyobj -> option Q.

Local Abbreviation preprocess_data :=
  (Preprocess.preprocess_data datetime_outcome parse_datetime as_datetime
     parse_numeric).
Local Abbreviation per_column :=
  (Preprocess.per_column datetime_outcome parse_datetime as_datetime
     parse_numeric).
Local Abbreviation becomes_timestamps :=
  (Dashboard.becomes_timestamps datetime_outcome).

(** Whether a column comes back from a run as timestamps. *)
Lemma is_datetime_per_column (c : string * series) :
  convertible datetime_outcome c = true ->
  has_date (fst (per_column c))
  && Dashboard.is_datetime (Series (snd (per_column c)))
  = has_date (fst c) && negb (has_price (fst c))
    && becomes_timestamps (snd c).
Proof.
  destruct c as [n s]. unfold convertible, Preprocess.per_column,
    Preprocess.price_step, Preprocess.date_step. cbn [fst snd].
  destruct (has_date n); [|reflexivity]. cbn [negb orb andb].
  destruct (has_price n); cbn [negb andb].
  - intros _.
    match goal with
    | |- context [to_numeric _ ?y] =>
        destruct (to_numeric_numeric parse_numeric y) as [cells E]
    end.
    now rewrite E.
  - destruct s as [cells| |]; try reflexivity.
    cbn [Dashboard.becomes_timestamps]. unfold converted, to_datetime.
    now destruct (datetime_outcome cells).
Qed.


End Parsers.


End DateFilterFacts.

(** ** The two dashboards' figures *)

Module FigureFacts.
Import Pandas Enricher Aggregator Exporter Tables.
Import PandasFacts EnricherFacts AggregatorFacts ExporterFacts TableFacts.

Lemma kpis_inv (purchases_df : frame purchase) (checkins_df : frame checkin)
      (s : summaries) :
  create_summary_tables purchases_df checkins_df = Return s ->
  kpis s = baseline_kpis (rows purchases_df)
           ++ profit_metrics (rows purchases_df).
Proof.
  intros H. pose proof (create_summary_tables_ready _ _ _ H) as R.
  rewrite (create_summary_tables_spec _ checkins_df R) in H.
  cbv zeta in H. injection H as <-. reflexivity.
Qed.

Lemma metrics_of (l : list purchase) :
  let kpis := baseline_kpis l ++ profit_metrics l in
  metric "Total Sales" kpis = Some (sum (prices l))
  /\ metric "Total Transactions" kpis
     = Some (inject_Z (Z.of_nat (List.length l)))
  /\ metric "Average Basket" kpis = mean (prices l)
  /\ metric "Total Profit" kpis = Some (sum (profits l))
  /\ metric "Profit Margin" kpis
     = times100 (divide (sum (profits l)) (sum (prices l))).
Proof. repeat split. Qed.

Lemma count_all {A : Type} (cells : list (option A)) :
  (forall c, In c cells -> c <> None) -> count cells = List.length cells.
Proof.
  unfold count. induction cells as [|c cells IH]; intros H; [reflexivity|].
  destruct c as [a|].
  - rewrite RowCountFacts.non_null_some. cbn [List.length]. f_equal.
    apply IH. intros x Hx. apply H. now right.
  - exfalso. now apply (H None (or_introl eq_refl)).
Qed.

(** The sum of the row-wise differences is the difference of the sums when
    no cell is null. *)
Lemma sum_minus (sheet : list row) :
  (forall r, In r sheet ->
             purchase_price_w_discount r <> None /\ unit_cost r <> None) ->
  sum (map (fun r => minus (purchase_price_w_discount r) (unit_cost r)) sheet)
  == sum (paid sheet) - sum (map unit_cost sheet).
Proof.
  unfold paid. induction sheet as [|r sheet IH]; intros H.
  - reflexivity.
  - cbn [map]. rewrite !sum_cons, IH by (intros x Hx; apply H; now right).
    destruct (H r (or_introl eq_refl)) as [P C].
    destruct (purchase_price_w_discount r) as [p|]; [|congruence].
    destruct (unit_cost r) as [c|]; [|congruence].
    cbn [minus value]. ring.
Qed.



End FigureFacts.

(** ** The automatic refresh *)

Module RefreshFacts.
Import Pandas Exporter Refresh.
Import PandasFacts EnricherFacts ExporterFacts.

Lemma lookup_none (name : string) (d : disk) :
  lookup name d = None <-> forall entry, In entry d -> named name entry = false.
Proof.
  unfold lookup. split.
  - intros H entry Hin. destruct (find (named name) d) eqn:F; [discriminate|].
    apply (find_none _ _ F entry Hin).
  - intros H. destruct (find (named name) d) as [entry|] eqn:F; [|reflexivity].
    apply find_some in F. destruct F as [Hin N].
    rewrite (H entry Hin) in N. discriminate.
Qed.

Lemma exists_false (name : string) (d : disk) :
  exists_ name d = false <-> lookup name d = None.
Proof. unfold exists_. destruct (lookup name d); split; congruence. Qed.

Lemma rmtree_absent (name : string) (d : disk) :
  lookup name d = None -> rmtree name d = d.
Proof.
  intros H. unfold rmtree. apply filter_all. intros entry Hin.
  now rewrite (proj1 (lookup_none name d) H entry Hin).
Qed.

Lemma rmtree_appended (name : string) (f : folder) (d : disk) :
  lookup name d = None -> rmtree name (d ++ [(name, f)]) = d.
Proof.
  intros H. unfold rmtree. rewrite filter_app.
  fold (rmtree name d). rewrite (rmtree_absent _ _ H).
  cbn [filter]. unfold named. cbn [fst]. rewrite String.eqb_refl.
  cbn [negb]. apply app_nil_r.
Qed.

Lemma rename_away (src dst : string) (d : disk) :
  String.eqb dst src = false -> lookup src (rename src dst d) = None.
Proof.
  intros N. apply lookup_none. intros entry Hin. unfold rename in Hin.
  apply in_map_iff in Hin. destruct Hin as [e0 [<- _]].
  destruct (named src e0) eqn:E; [|exact E]. exact N.
Qed.

Lemma rename_back (src dst : string) (d : disk) :
  lookup dst d = None -> rename dst src (rename src dst d) = d.
Proof.
  intros H. unfold rename. rewrite map_map.
  rewrite <- (map_id d) at 2. apply map_ext_in. intros entry Hin.
  destruct (named src entry) eqn:E.
  - unfold named at 1. cbn [fst snd]. rewrite String.eqb_refl.
    unfold named in E. apply String.eqb_eq in E. destruct entry; cbn in *.
    now subst.
  - now rewrite (proj1 (lookup_none dst d) H entry Hin).
Qed.

Lemma lookup_rename (src dst : string) (d : disk) :
  lookup dst d = None -> lookup dst (rename src dst d) = lookup src d.
Proof.
  intros H. unfold lookup, rename.
  induction d as [|entry d IH]; [reflexivity|].
  assert (Hd : lookup dst d = None).
  { apply lookup_none. intros e He.
    apply (proj1 (lookup_none dst (entry :: d)) H). now right. }
  assert (He : named dst entry = false)
    by (apply (proj1 (lookup_none dst (entry :: d)) H); now left).
  cbn [map find]. destruct (named src entry) eqn:E.
  - unfold named at 1. cbn [fst]. now rewrite String.eqb_refl.
  - rewrite He. now apply IH.
Qed.

Lemma lookup_app (name : string) (d d' : disk) :
  lookup name (d ++ d')
  = match lookup name d with
    | Some f => Some f
    | None => lookup name d'
    end.
Proof.
  unfold lookup. induction d as [|entry d IH]; [reflexivity|].
  cbn [app find]. destruct (named name entry); [reflexivity|exact IH].
Qed.

Lemma filter_none {A : Type} (f : A -> bool) (l : list A) :
  (forall a, In a l -> f a = false) -> filter f l = [].
Proof.
  induction l as [|a l IH]; intros H; cbn; [reflexivity|].
  rewrite (H a (or_introl eq_refl)). apply IH. intros x Hx. apply H.
  now right.
Qed.

Lemma lookup_single (name n : string) (f : folder) :
  lookup name [(n, f)] = if String.eqb n name then Some f else None.
Proof.
  unfold lookup. cbn. unfold named. cbn. now destruct (String.eqb n name).
Qed.

Lemma not_the_backup (stamp : string) :
  String.eqb (backup_pattern ++ stamp) output_dir = false.
Proof. reflexivity. Qed.

Lemma lookup_write (dir file : string) (d : disk) :
  lookup dir (write dir file d)
  = match lookup dir d with
    | Some (Folder files inside) => Some (Folder (add_file files file) inside)
    | None => None
    end.
Proof.
  unfold lookup, write. induction d as [|entry d IH]; [reflexivity|].
  cbn [map find]. destruct (named dir entry) eqn:E.
  - destruct entry as [n [files inside]]. cbn [fst snd].
    unfold named in *. cbn [fst] in *. rewrite E. reflexivity.
  - rewrite E. exact IH.
Qed.

Lemma lookup_write_other (dir file name : string) (d : disk) :
  String.eqb name dir = false ->
  lookup name (write dir file d) = lookup name d.
Proof.
  intros N. unfold lookup, write. induction d as [|entry d IH]; [reflexivity|].
  cbn [map find]. destruct (named dir entry) eqn:E.
  - destruct entry as [n [files inside]]. cbn [fst snd].
    unfold named in *. cbn [fst] in *. apply String.eqb_eq in E. subst n.
    rewrite String.eqb_sym, N. exact IH.
  - destruct (named name entry); [reflexivity|exact IH].
Qed.

Lemma names_write (dir file : string) (d : disk) :
  map fst (write dir file d) = map fst d.
Proof.
  unfold write. rewrite map_map. apply map_ext. intros [n [files inside]].
  cbn [fst snd]. now destruct (named dir (n, Folder files inside)).
Qed.

Lemma lookup_written (dir : string) (written : list string) (d : disk) :
  lookup dir (fold_left (fun acc file => write dir file acc) written d)
  = match lookup dir d with
    | Some (Folder files inside) =>
        Some (Folder (fold_left add_file written files) inside)
    | None => None
    end.
Proof.
  revert d. induction written as [|file written IH]; intros d; cbn [fold_left].
  - destruct (lookup dir d) as [[files inside]|]; reflexivity.
  - rewrite IH, lookup_write.
    destruct (lookup dir d) as [[files inside]|]; reflexivity.
Qed.

Lemma lookup_written_other (dir name : string) (written : list string)
      (d : disk) :
  String.eqb name dir = false ->
  lookup name (fold_left (fun acc file => write dir file acc) written d)
  = lookup name d.
Proof.
  intros N. revert d.
  induction written as [|file written IH]; intros d; cbn [fold_left];
    [reflexivity|].
  now rewrite IH, lookup_write_other.
Qed.

Lemma names_written (dir : string) (written : list string) (d : disk) :
  map fst (fold_left (fun acc file => write dir file acc) written d)
  = map fst d.
Proof.
  revert d. induction written as [|file written IH]; intros d; cbn [fold_left];
    [reflexivity|].
  now rewrite IH, names_write.
Qed.

Lemma add_file_keeps (files : list string) (file name : string) :
  In name files -> In name (add_file files file).
Proof.
  unfold add_file. destruct (existsb (String.eqb file) files); [auto|].
  intros H. apply in_or_app. now left.
Qed.

Lemma add_file_has (files : list string) (file : string) :
  In file (add_file files file).
Proof.
  unfold add_file. destruct (existsb (String.eqb file) files) eqn:E.
  - apply existsb_exists in E. destruct E as [x [Hx E]].
    apply String.eqb_eq in E. now subst.
  - apply in_or_app. right. now left.
Qed.

Lemma written_held (written files : list string) (name : string) :
  In name written \/ In name files -> In name (fold_left add_file written files).
Proof.
  revert files. induction written as [|file written IH]; intros files;
    cbn [fold_left].
  - intros [[]|H]. exact H.
  - intros [[<-|H]|H]; apply IH.
    + right. apply add_file_has.
    + now left.
    + right. now apply add_file_keeps.
Qed.

Lemma written_fresh (written : list string) :
  NoDup written -> fold_left add_file written [] = written.
Proof.
  assert (G : forall done rest,
             NoDup (done ++ rest) ->
             fold_left add_file rest done = done ++ rest).
  { intros done rest. revert done.
    induction rest as [|file rest IH]; intros done N; cbn [fold_left].
    - now rewrite app_nil_r.
    - assert (F : add_file done file = done ++ [file]).
      { unfold add_file.
        destruct (existsb (String.eqb file) done) eqn:E; [|reflexivity].
        exfalso. apply existsb_exists in E. destruct E as [x [Hx E]].
        apply String.eqb_eq in E. subst x.
        apply NoDup_remove_2 in N. apply N. apply in_or_app. now left. }
      rewrite F. rewrite IH; rewrite <- app_assoc; [reflexivity|exact N]. }
  intros N. apply (G [] written N).
Qed.

(** The files of an export: no name twice, the required ones among them. *)
Lemma written_names (now : Z) (df checkins_df : frame row) (x : export) :
  export_for_powerbi now df checkins_df = Return x ->
  NoDup (written x)
  /\ forall file, In file required_files -> In file (written x).
Proof.
  intros H. apply export_for_powerbi_inv in H.
  destruct H as [e [s [_ [_ [_ [W _]]]]]]. rewrite W. unfold listed.
  destruct (negb (empty (Enricher.checkins_enhanced e)));
    destruct (has_column (Enricher.purchases_enhanced e) "purchase_location");
    (split;
     [cbn; repeat constructor; cbn; intuition discriminate
     |intros file Hf; cbn in Hf;
      destruct Hf as [<-|[<-|[<-|[]]]]; cbn; tauto]).
Qed.

Lemma In_names (name : string) (d : disk) :
  In name (map fst d) <-> lookup name d <> None.
Proof.
  split.
  - intros H E. apply in_map_iff in H. destruct H as [entry [<- He]].
    pose proof (proj1 (lookup_none _ _) E entry He) as N.
    unfold named in N. rewrite String.eqb_refl in N. discriminate.
  - intros H. unfold lookup in H.
    destruct (find (named name) d) as [entry|] eqn:F;
      [|cbn in H; congruence].
    apply find_some in F. destruct F as [He N].
    apply String.eqb_eq in N. subst. now apply in_map.
Qed.

Lemma filter_twice {A : Type} (f g : A -> bool) (l : list A) :
  filter f (filter g l) = filter (fun a => g a && f a) l.
Proof.
  induction l as [|a l IH]; cbn; [reflexivity|].
  destruct (g a); cbn; [destruct (f a)|]; now rewrite IH.
Qed.

Lemma not_among (name : string) (names : list string) :
  ~ In name names -> existsb (String.eqb name) names = false.
Proof.
  intros N. destruct (existsb (String.eqb name) names) eqn:E; [|reflexivity].
  apply existsb_exists in E. destruct E as [x [Hx E]].
  apply String.eqb_eq in E. now subst.
Qed.

(** Removing directories one by one removes exactly the ones named. *)
Lemma rmtree_all (names : list string) (d : disk) :
  fold_left (fun acc old => rmtree old acc) names d
  = filter (fun entry => negb (existsb (String.eqb (fst entry)) names)) d.
Proof.
  revert d. induction names as [|n names IH]; intros d; cbn [fold_left].
  - symmetry. now apply filter_all.
  - rewrite IH. unfold rmtree. rewrite filter_twice. apply filter_ext.
    intros entry. cbn [existsb]. unfold named. now rewrite negb_orb.
Qed.

Lemma find_filter {A : Type} (p q : A -> bool) (l : list A) :
  (forall a, In a l -> p a = true -> q a = true) ->
  find p (filter q l) = find p l.
Proof.
  induction l as [|a l IH]; intros H; cbn; [reflexivity|].
  assert (Hl : forall x, In x l -> p x = true -> q x = true)
    by (intros x Hx; apply H; now right).
  destruct (q a) eqn:Q; cbn [find].
  - destruct (p a); [reflexivity|now apply IH].
  - destruct (p a) eqn:P; [|now apply IH].
    rewrite (H a (or_introl eq_refl) P) in Q. discriminate.
Qed.

Lemma lookup_kept (names : list string) (d : disk) (name : string) :
  ~ In name names ->
  lookup name
    (filter (fun entry => negb (existsb (String.eqb (fst entry)) names)) d)
  = lookup name d.
Proof.
  intros N. unfold lookup. f_equal. apply find_filter.
  intros entry _ E. unfold named in E. apply String.eqb_eq in E.
  rewrite E. now rewrite (not_among _ _ N).
Qed.

Lemma only_one {A : Type} (l : list A) (k : A) :
  NoDup l -> (forall x, In x l <-> x = k) -> l = [k].
Proof.
  intros N H. destruct l as [|a l].
  - exfalso. now apply (proj2 (H k)).
  - assert (a = k) by (apply H; now left). subst a.
    destruct l as [|b l]; [reflexivity|].
    assert (b = k) by (apply H; right; now left). subst b.
    inversion N as [|? ? Hn _]. exfalso. apply Hn. now left.
Qed.

Lemma NoDup_names_filter (q : string * folder -> bool) (d : disk) :
  NoDup (map fst d) -> NoDup (map fst (filter q d)).
Proof.
  induction d as [|entry d IH]; cbn; intros N; [constructor|].
  inversion N as [|? ? Hn N']; subst.
  destruct (q entry); cbn; [|now apply IH].
  constructor; [|now apply IH].
  intros H. apply Hn. apply in_map_iff in H. destruct H as [e [E He]].
  apply filter_In in He. rewrite <- E. apply in_map. tauto.
Qed.

Lemma sorted_app {A : Type} (R : A -> A -> Prop) (l1 l2 : list A) :
  StronglySorted R (l1 ++ l2) ->
  forall a b, In a l1 -> In b l2 -> R a b.
Proof.
  induction l1 as [|x l1 IH]; cbn; intros S a b Ha Hb; [destruct Ha|].
  inversion S as [|? ? S' F]; subst.
  destruct Ha as [<-|Ha]; [|now apply (IH S')].
  rewrite Forall_forall in F. apply F. apply in_or_app. now right.
Qed.

Lemma In_backups (name : string) (d : disk) :
  In name (backups d)
  <-> In name (map fst d) /\ String.prefix backup_pattern name = true.
Proof. unfold backups. apply filter_In. Qed.

Section Cleanup.

Variable st_ctime : string -> Z.

Local Abbreviation cleanup := (Refresh.cleanup st_ctime).

(** The clean-up touches backups only, and of the backups it leaves one
    that no other is younger than. *)
Lemma cleanup_latest (d : disk) :
  NoDup (map fst d) ->
  (forall name, String.prefix backup_pattern name = false ->
                lookup name (cleanup d) = lookup name d)
  /\ match backups d with
     | [] => cleanup d = d
     | _ :: _ =>
         exists kept,
           backups (cleanup d) = [kept]
           /\ In kept (backups d)
           /\ lookup kept (cleanup d) = lookup kept d
           /\ forall b, In b (backups d) -> (st_ctime b <= st_ctime kept)%Z
     end.
Proof.
  intros N. unfold Refresh.cleanup. fold (backups d).
  destruct (1 <? List.length (backups d))%nat eqn:L.
  2:{ split; [reflexivity|].
      destruct (backups d) as [|k [|k' B]] eqn:EB;
        [reflexivity| |simpl in L; discriminate].
      exists k. split; [reflexivity|]. split; [now left|].
      split; [reflexivity|]. intros b [<-|[]]. apply Z.le_refl. }
  apply Nat.ltb_lt in L.
  set (leb := fun a b : string => Z.leb (st_ctime a) (st_ctime b)).
  set (sorted := sort leb (backups d)).
  assert (P : Permutation sorted (backups d)) by apply sort_perm.
  assert (NE : sorted <> []).
  { intros E. apply Permutation_length in P. rewrite E in P.
    simpl in P. lia. }
  pose proof (app_removelast_last "" NE) as E.
  set (old := removelast sorted) in *. set (k := last sorted "") in *.
  assert (NB : NoDup (backups d))
    by (unfold backups; now apply NoDup_filter).
  assert (NS : NoDup (old ++ [k])).
  { rewrite <- E. apply (Permutation_NoDup (l := backups d)); [|exact NB].
    now symmetry. }
  assert (K : ~ In k old).
  { apply NoDup_remove_2 in NS. now rewrite app_nil_r in NS. }
  assert (M : forall x, In x (backups d) <-> In x old \/ x = k).
  { intros x. rewrite <- (Permutation_in' (eq_refl x) P), E, in_app_iff.
    cbn. intuition. }
  assert (S : StronglySorted (fun a b => leb a b = true) (old ++ [k])).
  { rewrite <- E. apply Sorted_StronglySorted.
    - intros a b c. unfold leb. rewrite !Z.leb_le. lia.
    - apply TableFacts.sort_sorted. intros a b. unfold leb.
      rewrite !Z.leb_le. lia. }
  rewrite rmtree_all.
  split.
  - intros name Hp. apply lookup_kept. intros Hin.
    assert (Hb : In name (backups d)) by (apply M; now left).
    apply In_backups in Hb. destruct Hb as [_ Hb]. congruence.
  - destruct (backups d) as [|b0 B] eqn:EB; [simpl in L; lia|].
    rewrite <- EB in *. exists k.
    split; [|split; [apply M; now right|split; [now apply lookup_kept|]]].
    + apply only_one.
      * unfold backups. apply NoDup_filter. now apply NoDup_names_filter.
      * intros x. rewrite In_backups. split.
        -- intros [Hx Hp]. apply in_map_iff in Hx.
           destruct Hx as [entry [<- He]]. apply filter_In in He.
           destruct He as [He Q]. apply negb_true_iff in Q.
           assert (Hb : In (fst entry) (backups d)).
           { apply In_backups. split; [now apply in_map|exact Hp]. }
           apply M in Hb. destruct Hb as [Hb|Hb]; [|exact Hb].
           exfalso. assert (T : existsb (String.eqb (fst entry)) old = true).
           { apply existsb_exists. exists (fst entry).
             split; [exact Hb|apply String.eqb_refl]. }
           congruence.
        -- intros ->. assert (Hb : In k (backups d)) by (apply M; now right).
           apply In_backups in Hb. destruct Hb as [Hk Hp].
           split; [|exact Hp]. apply in_map_iff in Hk.
           destruct Hk as [entry [Ek He]]. apply in_map_iff.
           exists entry. split; [exact Ek|]. apply filter_In.
           split; [exact He|]. rewrite Ek. now rewrite (not_among _ _ K).
    + intros b Hb. apply M in Hb. destruct Hb as [Hb| ->]; [|apply Z.le_refl].
      apply Z.leb_le.
      apply (sorted_app _ _ _ S b k Hb). now left.
Qed.

End Cleanup.

Lemma lookup_rename_other (src dst name : string) (d : disk) :
  String.eqb name src = false -> String.eqb name dst = false ->
  lookup name (rename src dst d) = lookup name d.
Proof.
  intros Ns Nd. unfold lookup, rename.
  induction d as [|entry d IH]; [reflexivity|]. cbn [map find].
  destruct (named src entry) eqn:E.
  - unfold named at 1. cbn [fst]. rewrite String.eqb_sym, Nd.
    unfold named in *. apply String.eqb_eq in E. rewrite E.
    rewrite String.eqb_sym, Ns. exact IH.
  - destruct (named name entry); [reflexivity|exact IH].
Qed.

Lemma names_rename (src dst : string) (d : disk) :
  map fst (rename src dst d)
  = map (fun n => if String.eqb n src then dst else n) (map fst d).
Proof.
  unfold rename. rewrite !map_map. apply map_ext. intros entry.
  unfold named. now destruct (String.eqb (fst entry) src).
Qed.

Lemma NoDup_rename (src dst : string) (d : disk) :
  NoDup (map fst d) -> lookup dst d = None ->
  NoDup (map fst (rename src dst d)).
Proof.
  intros N F. rewrite names_rename.
  apply NoDup_map_NoDup_ForallPairs; [|exact N].
  intros a b Ha Hb.
  assert (A : forall n, In n (map fst d) -> n <> dst).
  { intros n Hn ->. now apply In_names in Hn. }
  destruct (String.eqb a src) eqn:Ea, (String.eqb b src) eqn:Eb; intros H.
  - apply String.eqb_eq in Ea, Eb. congruence.
  - exfalso. apply (A b Hb). now symmetry.
  - exfalso. now apply (A a Ha).
  - exact H.
Qed.

(** Once the files of an export are written, no required file is missing. *)
Lemma nothing_missing (x : export) (d : disk) :
  (forall file, In file required_files -> In file (written x)) ->
  missing_files
    (fold_left (fun acc file => write output_dir file acc)
               (written x) (d ++ [(output_dir, Folder [] [])]))
  = [].
Proof.
  intros W. unfold missing_files. rewrite lookup_written.
  destruct (lookup output_dir (d ++ [(output_dir, Folder [] [])]))
    as [[files inside]|] eqn:L.
  - apply filter_none. intros file Hf. apply negb_false_iff.
    cbn [holds]. apply orb_true_iff. left. apply existsb_exists.
    exists file. split; [|apply String.eqb_refl].
    apply written_held. left. now apply W.
  - exfalso. rewrite lookup_app in L.
    destruct (lookup output_dir d); discriminate.
Qed.

Section Run.

Variable st_ctime : string -> Z.

Local Abbreviation main := (Refresh.main st_ctime).

(** The directories when the export starts: the previous output moved to
    the backup name, and an empty output directory. *)
Lemma before_export (stamp : string) (d : disk) :
  lookup (backup_pattern ++ stamp) d = None ->
  let backup_dir := (backup_pattern ++ stamp)%string in
  (if exists_ output_dir d then move output_dir backup_dir d else Some d)
  = Some (if exists_ output_dir d then rename output_dir backup_dir d else d)
  /\ mkdir output_dir
       (if exists_ output_dir d then rename output_dir backup_dir d else d)
     = (if exists_ output_dir d then rename output_dir backup_dir d else d)
       ++ [(output_dir, Folder [] [])].
Proof.
  intros Fresh. cbv zeta. unfold move, mkdir.
  destruct (exists_ output_dir d) eqn:E.
  - unfold exists_ in E. destruct (lookup output_dir d) as [f|]; [|discriminate].
    rewrite Fresh. split; [reflexivity|].
    rewrite (proj2 (exists_false _ _)); [reflexivity|].
    apply rename_away. apply not_the_backup.
  - split; [reflexivity|]. now rewrite E.
Qed.



End Run.



End RefreshFacts.

(** ** The CSV dashboard reads what the export wrote *)

Module CsvFacts.
Import Pandas Enricher CsvDashboard.
Import PandasFacts EnricherFacts ExporterFacts.

Lemma exported_files (e : enhanced) :
  exported e "powerbi_data" "purchases_enhanced.csv"
  = Some {| header := columns (purchases_enhanced e); dates_parse := true |}
  /\ exported e "powerbi_data" "checkins_enhanced.csv"
     = if negb (empty (checkins_enhanced e))
       then Some {| header := columns (checkins_enhanced e);
                    dates_parse := true |}
       else None.
Proof. split; reflexivity. Qed.

Ltac found :=
  repeat match goal with
         | |- context [if ?b then _ else _] => destruct b
         | |- context [match ?f ?dir "checkins_enhanced.csv" with _ => _ end] =>
             destruct (f dir "checkins_enhanced.csv")
         end;
  discriminate.



End CsvFacts.
